(** * The Equity Research news page ([app.py]) as a state-passing program

    [app.py] is a Streamlit script: every user interaction re-executes the
    file from top to bottom against the widget values of that interaction,
    the per-session [st.session_state], the application-wide [st.cache_data]
    store and the outside world reached through the [langchain_config]
    helpers.  One execution of the file is modelled as a computation in a
    small state/exception monad [M] that also returns, in order, the
    elements it rendered and the helper calls it made.

    What is taken from Streamlit rather than from the file: an execution is
    caused by at most one button click, and a button returns [True] only in
    the execution its click caused; the [st.*] rendering calls do not
    raise; [st.cache_data] keeps, per argument list, the last value
    returned and serves it while it is younger than the time-to-live;
    [st.experimental_rerun] stops the execution.  The helpers of
    [langchain_config] are parameters: any function of the world that
    returns a value or raises an [Exception]. *)

From Stdlib Require Import ZArith NArith List Ascii String DecimalString Lia.
From stdpp Require Import base option list gmap.

Set Warnings "-register-all,-notation-for-abbreviation".

(** ** Python strings *)

(** A Python [str] is a sequence of code points. *)
Definition pystr := list N.

(** ASCII literals of the source. *)
Definition lit (s : String.string) : pystr :=
  map N_of_ascii (list_ascii_of_string s).

(** U+2014, the dash used in several messages of the page. *)
Definition mdash : pystr := [8212%N].
Definition dquote : pystr := [34%N].
Definition newline : pystr := [10%N].

(** [str(n)] for integers. *)
Definition str_of_Z (z : Z) : pystr := lit (NilZero.string_of_int (Z.to_int z)).
Definition str_of_nat (n : nat) : pystr := lit (NilZero.string_of_uint (Nat.to_uint n)).

(** The code points [str.strip()] removes (Python's Unicode white space). *)
Definition py_isspace (c : N) : bool :=
  (((9 <=? c) && (c <=? 13)) || ((28 <=? c) && (c <=? 32))
   || (c =? 133) || (c =? 160) || (c =? 5760)
   || ((8192 <=? c) && (c <=? 8202))
   || (c =? 8232) || (c =? 8233) || (c =? 8239) || (c =? 8287)
   || (c =? 12288))%N.

Fixpoint lstrip (s : pystr) : pystr :=
  match s with
  | c :: s' => if py_isspace c then lstrip s' else s
  | [] => []
  end.

Definition strip (s : pystr) : pystr := rev (lstrip (rev (lstrip s))).

(** Truth value of a [str]. *)
Definition str_truthy (s : pystr) : bool :=
  match s with [] => false | _ => true end.

(** [s.replace("Z", "+00:00")] *)
Definition replace_Z (s : pystr) : pystr :=
  flat_map (fun c => if (c =? 90)%N then lit "+00:00" else [c]) s.

(** [sep.join(parts)] *)
Fixpoint join (sep : pystr) (parts : list pystr) : pystr :=
  match parts with
  | [] => []
  | [p] => p
  | p :: rest => p ++ sep ++ join sep rest
  end.

(** ** Python values found in an article *)

(** The articles are decoded JSON objects: dictionaries with string keys
    whose values are [None], booleans, integers, strings, lists or nested
    dictionaries. *)
Inductive pyval :=
| PNone
| PBool (b : bool)
| PInt (z : Z)
| PStr (s : pystr)
| PList (l : list pyval)
| PDict (d : list (pystr * pyval)).

Definition Article := list (pystr * pyval).

Definition truthy (v : pyval) : bool :=
  match v with
  | PNone => false
  | PBool b => b
  | PInt z => negb (z =? 0)%Z
  | PStr s => str_truthy s
  | PList l => match l with [] => false | _ => true end
  | PDict d => match d with [] => false | _ => true end
  end.

Definition type_name (v : pyval) : pystr :=
  match v with
  | PNone => lit "NoneType"
  | PBool _ => lit "bool"
  | PInt _ => lit "int"
  | PStr _ => lit "str"
  | PList _ => lit "list"
  | PDict _ => lit "dict"
  end.

(** [d.get(k)]: the value bound to [k], or [None]. *)
Fixpoint dict_get (k : pystr) (d : list (pystr * pyval)) : pyval :=
  match d with
  | [] => PNone
  | (k', v) :: d' => if decide (k = k') then v else dict_get k d'
  end.

(** [a or b] *)
Definition py_or (a b : pyval) : pyval := if truthy a then a else b.

(** ** Exceptions and results *)

Inductive PyExc :=
| Exception (msg : pystr)        (* raised by a helper; [msg] is [str(e)] *)
| AttributeError (msg : pystr)
| TypeError (msg : pystr)
| IndexError (msg : pystr)
| StreamlitAPIException (msg : pystr).

(** [str(e)] *)
Definition exc_str (e : PyExc) : pystr :=
  match e with
  | Exception m | AttributeError m | TypeError m | IndexError m
  | StreamlitAPIException m => m
  end.

Inductive Result (A : Type) :=
| Ok (a : A)
| Raise (e : PyExc).
Arguments Ok {A} a.
Arguments Raise {A} e.

(** [v.get(k)] on an arbitrary value: only dictionaries have the method. *)
Definition val_get (v : pyval) (k : pystr) : Result pyval :=
  match v with
  | PDict d => Ok (dict_get k d)
  | _ => Raise (AttributeError
                  (lit "'" ++ type_name v ++ lit "' object has no attribute 'get'"))
  end.

(** [a + b] where [b] is known to be a [str]. *)
Definition add_str (a : pyval) (b : pystr) : Result pystr :=
  match a with
  | PStr s => Ok (s ++ b)
  | PList _ =>
      Raise (TypeError (lit "can only concatenate list (not " ++ dquote ++ lit "str"
                          ++ dquote ++ lit ") to list"))
  | _ =>
      Raise (TypeError (lit "unsupported operand type(s) for +: '" ++ type_name a
                          ++ lit "' and 'str'"))
  end.

(** [a + b] where [a] is known to be a [str]. *)
Definition str_add (a : pystr) (b : pyval) : Result pystr :=
  match b with
  | PStr s => Ok (a ++ s)
  | _ =>
      Raise (TypeError (lit "can only concatenate str (not " ++ dquote ++ type_name b
                          ++ dquote ++ lit ") to str"))
  end.

#[global] Instance Result_ret : MRet Result := fun _ a => Ok a.
#[global] Instance Result_bind : MBind Result := fun _ _ f r =>
  match r with
  | Ok a => f a
  | Raise e => Raise e
  end.

(** ** Session state, widgets and events *)

(** A record of the history list: [{"query": ..., "summary": ...}]. *)
Record HistoryEntry := { entry_query : pystr; entry_summary : pystr }.

(** The keys of [st.session_state] the script reads or writes; [None] is an
    absent key. *)
Record Session := {
  history : option (list HistoryEntry);
  query_input : option pystr
}.

(** The buttons of the page, by variable or widget key. *)
Inductive Button :=
| BtnRun                  (* run_button *)
| BtnClearAll             (* key="clear_all" *)
| BtnLoad (i : nat)       (* key=f"load_{i}" *)
| BtnClearStreamlit.      (* key="clear_streamlit" *)

#[global] Instance Button_eq_dec : EqDecision Button.
Proof. solve_decision. Defined.

(** What one interaction hands to the script: the widget values, the one
    button (if any) whose click caused this execution, and whether the URL
    carries a truthy [debug] parameter. *)
Record Inputs := {
  query : pystr;
  max_articles : Z;
  date_from : option pystr;
  date_to : option pystr;
  cache_ttl_minutes : Z;
  clicked : option Button;
  debug : bool
}.

(** The call sites of the page that render something. *)
Inductive Elem :=
| PageConfig | SbTitle | SbQueryInput | SbMaxArticles | SbDateFrom | SbDateTo
| SbRule | SbCacheTtl | SbTip | Btn (b : Button) | SbCleared | SbCaption
| TopColumns | MainHeader | MainIntro | RecentSelect
| WarnEmptyQuery | SpinFetch | ErrFetch | InfoNoArticles
| FetchedHeading | FoundCount | CardColumns | Card
| InfoTokens | WarnTokens | SpinSummary | ErrSummary
| SummaryRule | SummaryHeading | SummaryBody | DownloadSummary
| HistRule | HistHeading
| DevExpander | DevIntro | DevCleared | DevClearFailed | DevNote
| FooterRule | FooterNotes | DebugDump.

Inductive Event :=
| Show (el : Elem) (text : pystr)
| ShowOptions (el : Elem) (label : pystr) (options : list pystr)
| ShowDownload (label data file_name : pystr)
| ShowState (label : pystr) (s : Session)
| Called_get_news_articles (q : pystr) (m : Z) (r : Result (list Article))
| Called_estimate_tokens (text : pystr) (r : Result Z)
| Called_get_summary_cached_ui (q : pystr) (m : Z) (ttl_override : option Z)
    (r : Result pystr)
| Called_get_summary_cached_module (q : pystr) (m : Z) (r : Result pystr)
| Called_clear_module_cache (r : Result unit)
| CacheDataCleared
| Logged (msg : pystr)
| RerunRequested.

(** How an execution of the script, or of a part of it, ends. *)
Inductive Flow (A : Type) :=
| Normal (a : A)
| Raised (e : PyExc)     (* an exception is propagating *)
| Rerun.                 (* [st.experimental_rerun()] stopped the script *)
Arguments Normal {A} a.
Arguments Raised {A} e.
Arguments Rerun {A}.

(** ** Reading an event log *)

(** The history list, with an absent key read as the empty list. *)
Definition hist (s : Session) : list HistoryEntry := default [] (history s).

Definition is_fetch_call (e : Event) : bool :=
  match e with Called_get_news_articles _ _ _ => true | _ => false end.

Definition is_summary_call (e : Event) : bool :=
  match e with Called_get_summary_cached_ui _ _ _ _ => true | _ => false end.

Definition is_module_summary_call (e : Event) : bool :=
  match e with Called_get_summary_cached_module _ _ _ => true | _ => false end.

(** An event that is neither a fetch nor a summarization. *)
Definition quiet (e : Event) : bool :=
  negb (is_fetch_call e || is_summary_call e || is_module_summary_call e).

(** The values [f] picks out of a log, in order. *)
Fixpoint collect {A} (f : Event -> option A) (t : list Event) : list A :=
  match t with
  | [] => []
  | e :: t' =>
      match f e with
      | Some a => a :: collect f t'
      | None => collect f t'
      end
  end.

(** The summaries written under the "## Summary" heading. *)
Definition shown_summaries : list Event -> list pystr :=
  collect (fun e => match e with Show SummaryBody s => Some s | _ => None end).

(** The "Load:" buttons rendered, by key index and label. *)
Definition load_buttons : list Event -> list (nat * pystr) :=
  collect (fun e => match e with Show (Btn (BtnLoad n)) l => Some (n, l) | _ => None end).

(** The option lists of the "Recent queries" selectbox rendered. *)
Definition recent_options : list Event -> list (list pystr) :=
  collect (fun e => match e with ShowOptions RecentSelect _ o => Some o | _ => None end).

(** The "Load:" buttons a history list calls for. *)
Definition load_entries (h : list HistoryEntry) : list (nat * pystr) :=
  imap (fun n e => (n, lit "Load: " ++ entry_query e)) h.

(** The events the properties below speak about; the rest is rendering
    around them. *)
Definition significant (e : Event) : bool :=
  match e with
  | Show WarnEmptyQuery _ | Show ErrFetch _ | Show ErrSummary _
  | Show SummaryBody _ => true
  | Called_get_news_articles _ _ _ => true
  | Called_get_summary_cached_ui _ _ _ _ => true
  | Called_get_summary_cached_module _ _ _ => true
  | _ => false
  end.

(** Whether every summarization call of a log comes after a fetch call;
    [seen] tells whether a fetch call came before the log. *)
Fixpoint fetch_before_summary (seen : bool) (t : list Event) : bool :=
  match t with
  | [] => true
  | e :: t' =>
      if is_summary_call e then seen && fetch_before_summary seen t'
      else fetch_before_summary (seen || is_fetch_call e) t'
  end.

(** The events of the article cards. *)
Definition is_card (e : Event) : Prop :=
  match e with Show CardColumns _ | Show Card _ => True | _ => False end.

(** The events produced outside the run flow: the page's fixed elements,
    its buttons, the history widgets, the cache clearing and the rerun. *)
Definition chrome (e : Event) : Prop :=
  match e with
  | Show el _ =>
      match el with
      | PageConfig | SbTitle | SbQueryInput | SbMaxArticles | SbDateFrom | SbDateTo
      | SbRule | SbCacheTtl | SbTip | Btn _ | SbCleared | SbCaption
      | TopColumns | MainHeader | MainIntro
      | HistRule | HistHeading
      | DevExpander | DevIntro | DevCleared | DevClearFailed | DevNote
      | FooterRule | FooterNotes => True
      | _ => False
      end
  | ShowOptions RecentSelect _ _ => True
  | ShowState _ _ => True
  | Called_clear_module_cache _ => True
  | CacheDataCleared => True
  | RerunRequested => True
  | _ => False
  end.

(** The events that are not history widgets. *)
Definition plain (e : Event) : Prop :=
  match e with
  | Show (Btn (BtnLoad _)) _ => False
  | ShowOptions _ _ _ => False
  | _ => True
  end.

(** The same, without the history widgets. *)
Definition frame (e : Event) : Prop :=
  match e with
  | Show (Btn (BtnLoad _)) _ => False
  | ShowOptions _ _ _ => False
  | _ => chrome e
  end.

(** The index and label of the "Load:" button of an enumerated record. *)
Definition load_label (x : nat * HistoryEntry) : nat * pystr :=
  (fst x, lit "Load: " ++ entry_query (snd x)).

(** Inputs that differ from [i] in the "Cache TTL (minutes)" field only. *)
Definition with_cache_ttl_minutes (x : Z) (i : Inputs) : Inputs :=
  {| query := query i; max_articles := max_articles i; date_from := date_from i;
     date_to := date_to i; cache_ttl_minutes := x; clicked := clicked i;
     debug := debug i |}.

(** Inputs that differ from [i] in the button clicked only. *)
Definition with_clicked (b : option Button) (i : Inputs) : Inputs :=
  {| query := query i; max_articles := max_articles i; date_from := date_from i;
     date_to := date_to i; cache_ttl_minutes := cache_ttl_minutes i; clicked := b;
     debug := debug i |}.

(** ** Sample data

    Inputs, sessions and a small world to run the page on: its clock is the
    world itself, NewsAPI is down for the query "down", has nothing on
    "nothing" and one article otherwise, and the LLM refuses "hard". *)
Definition idle : Inputs :=
  {| query := []; max_articles := 20; date_from := None; date_to := None;
     cache_ttl_minutes := 60; clicked := None; debug := false |}.

Definition ask (q : pystr) : Inputs :=
  {| query := q; max_articles := 20; date_from := None; date_to := None;
     cache_ttl_minutes := 60; clicked := Some BtnRun; debug := false |}.

(** A click on the button [b], with the query "acme" typed in and the
    [debug] query parameter in the address. *)
Definition press (b : Button) : Inputs :=
  {| query := lit "acme"; max_articles := 20; date_from := None; date_to := None;
     cache_ttl_minutes := 60; clicked := Some b; debug := true |}.

Definition fresh_session : Session := {| history := None; query_input := None |}.

Definition ten_records : Session :=
  {| history := Some (repeat {| entry_query := lit "q"; entry_summary := lit "s" |} 10);
     query_input := None |}.

Definition demo_article : Article :=
  [(lit "title", PStr (lit "Acme beats estimates"));
   (lit "source", PDict [(lit "name", PStr (lit "Wire"))]);
   (lit "url", PStr (lit "https://example.org/a"));
   (lit "publishedAt", PStr (lit "2024-05-01T10:00:00Z"));
   (lit "description", PStr (lit "Quarterly results."))].

(** An article whose source is a bare string rather than a dict. *)
Definition odd_article : Article :=
  [(lit "title", PStr (lit "Acme guidance"));
   (lit "source", PStr (lit "Wire"))].

Definition demo_clock (w : Z) : Z := w.

Definition demo_get_news_articles (q : pystr) (m : Z) (w : Z)
    : Result (list Article) * Z :=
  if decide (q = lit "down") then (Raise (Exception (lit "timeout")), w)
  else if decide (q = lit "nothing") then (Ok [], w)
  else (Ok [demo_article], w).

(** A feed whose second article is the odd one. *)
Definition odd_get_news_articles (q : pystr) (m : Z) (w : Z)
    : Result (list Article) * Z :=
  (Ok [demo_article; odd_article], w).

Definition demo_get_summary_cached_module (q : pystr) (m : Z) (w : Z)
    : Result pystr * Z :=
  if decide (q = lit "hard") then (Raise (Exception (lit "rate limit")), (w + 1)%Z)
  else (Ok (lit "Summary of " ++ q), (w + 1)%Z).

Definition demo_estimate_tokens (text : pystr) (w : Z) : Result Z * Z :=
  (Ok (Z.of_nat (length text)), w).

Definition demo_clear_module_cache (w : Z) : Result unit * Z := (Ok tt, w).

(** [str()] on the sample world: exact on [None], on booleans and on
    integers; a list or a dict, whose text no sample run needs, is shown by
    the name of its type. *)
Definition demo_py_str (v : pyval) : pystr :=
  match v with
  | PNone => lit "None"
  | PBool true => lit "True"
  | PBool false => lit "False"
  | PInt z => str_of_Z z
  | _ => type_name v
  end.

Definition is_digit (c : N) : bool := (48 <=? c)%N && (c <=? 57)%N.

(** [datetime.fromisoformat(s).strftime("%Y-%m-%d")] on the sample world:
    the date of a text that reads [YYYY-MM-DD], alone or followed by [T]
    and a time; any other text is refused, as by a [ValueError].  Months,
    days and times are not range-checked. *)
Definition demo_iso_date (s : pystr) : option pystr :=
  match s with
  | y1 :: y2 :: y3 :: y4 :: h1 :: m1 :: m2 :: h2 :: d1 :: d2 :: rest =>
      if forallb is_digit [y1; y2; y3; y4; m1; m2; d1; d2]
         && (h1 =? 45)%N && (h2 =? 45)%N
         && match rest with
            | [] => true
            | sep :: _ => (sep =? 84)%N
            end
      then Some (take 10 s)
      else None
  | _ => None
  end.

(** ** The script *)

Section Page.

(** *** What the script is run against

    The helpers imported from [langchain_config] talk to NewsAPI and to the
    LLM service: each takes the outside world and returns a result (or the
    exception it raised) together with the world after the call. *)
Variable World : Type.
(** Wall-clock time in seconds, as read by the cache of [st.cache_data]. *)
Variable clock : World -> Z.
Variable get_news_articles : pystr -> Z -> World -> Result (list Article) * World.
Variable get_summary_cached_module : pystr -> Z -> World -> Result pystr * World.
Variable estimate_tokens : pystr -> World -> Result Z * World.
Variable clear_module_cache : World -> Result unit * World.
(** The built-in [str()] on values that are not strings. *)
Variable py_str : pyval -> pystr.
(** [datetime.fromisoformat(s).strftime("%Y-%m-%d")]; [None] when
    [fromisoformat] rejects [s]. *)
Variable iso_date : pystr -> option pystr.
(** Whether this Streamlit lets a script assign [st.session_state[key]]
    after the widget with that key has been created. *)
Variable widget_state_writable : bool.

(** The state an execution threads through: the session's state, the
    application-wide store behind [st.cache_data] (per key, that is per
    argument list of a call of the cached wrapper, a value and the time it
    was stored) and the world. *)
Record Store := mkStore {
  session : Session;
  cache : gmap (pystr * Z * option Z) (pystr * Z);
  world : World
}.

(** A computation takes the store to a way of ending, the store it leaves
    and the events it produced, oldest first. *)
Definition M (A : Type) : Type := Store -> Flow A * Store * list Event.

#[local] Instance M_ret : MRet M := fun _ a st => (Normal a, st, []).
#[local] Instance M_bind : MBind M := fun _ _ f m st =>
  match m st with
  | (Normal a, st', t) => let '(r, st'', t') := f a st' in (r, st'', t ++ t')
  | (Raised e, st', t) => (Raised e, st', t)
  | (Rerun, st', t) => (Rerun, st', t)
  end.

Definition emit (e : Event) : M unit := fun st => (Normal tt, st, [e]).

Definition show (el : Elem) (text : pystr) : M unit := emit (Show el text).

Definition raise {A} (e : PyExc) : M A := fun st => (Raised e, st, []).

Definition lift {A} (r : Result A) : M A :=
  match r with
  | Ok a => mret a
  | Raise e => raise e
  end.

(** [try: body / except Exception as e: handler e].  A rerun request is not
    an [Exception] and passes through. *)
Definition try_except {A} (body : M A) (handler : PyExc -> M A) : M A := fun st =>
  match body st with
  | (Raised e, st', t) => let '(r, st'', t') := handler e st' in (r, st'', t ++ t')
  | other => other
  end.

Definition get_session : M Session := fun st => (Normal (session st), st, []).

Definition put_session (s : Session) : M unit := fun st =>
  (Normal tt, mkStore s (cache st) (world st), []).

(** [logger.exception(msg)] *)
Definition logger_exception (msg : pystr) : M unit := emit (Logged msg).

(** A call of a [langchain_config] helper. *)
Definition call_helper {A} (f : World -> Result A * World)
    (ev : Result A -> Event) : M A := fun st =>
  let '(r, w) := f (world st) in
  let st' := mkStore (session st) (cache st) w in
  match r with
  | Ok a => (Normal a, st', [ev r])
  | Raise e => (Raised e, st', [ev r])
  end.

(** [st.cache_data.clear()] *)
Definition cache_data_clear : M unit := fun st =>
  (Normal tt, mkStore (session st) ∅ (world st), [CacheDataCleared]).

(** [st.experimental_rerun()] *)
Definition experimental_rerun {A} : M A := fun st => (Rerun, st, [RerunRequested]).

(** [for x in xs: body x] *)
Fixpoint for_each {A} (xs : list A) (body : A -> M unit) : M unit :=
  match xs with
  | [] => mret tt
  | x :: xs' => body x;; for_each xs' body
  end.

(** [for x in xs: body x], where [body] answers [true] to [break]. *)
Fixpoint for_break {A} (xs : list A) (body : A -> M bool) : M unit :=
  match xs with
  | [] => mret tt
  | x :: xs' => stop ← body x; if stop : bool then mret tt else for_break xs' body
  end.

(** [range(start, stop, step)] for a positive step. *)
Fixpoint range_from (fuel start stop step : nat) : list nat :=
  match fuel with
  | O => []
  | S fuel' =>
      if (start <? stop)%nat then start :: range_from fuel' (start + step) stop step
      else []
  end.

Definition py_range (start stop step : nat) : list nat :=
  range_from stop start stop step.

(** *** Helper functions of the file *)

(** The time-to-live of the decorator: [ttl=60 * 60 * 24]. *)
Definition ui_ttl : Z := 60 * 60 * 24.

(** [@st.cache_data(ttl=...)] around [body], for a call with arguments
    [key]: an entry younger than the time-to-live is returned without
    running [body]; otherwise [body] runs and, when it returns, its value is
    stored.  An exception is not stored. *)
Definition st_cache_data (ttl : Z) (key : pystr * Z * option Z) (body : M pystr) : M pystr :=
  fun st =>
    let miss :=
      match body st with
      | (Normal v, st', t) =>
          (Normal v,
           mkStore (session st') (<[key := (v, clock (world st'))]> (cache st'))
                   (world st'),
           t)
      | other => other
      end in
    match cache st !! key with
    | Some (v, stored) =>
        if (clock (world st) <? stored + ttl)%Z then (Normal v, st, []) else miss
    | None => miss
    end.

(** The body of [get_summary_cached_ui]. *)
Definition get_summary_cached_ui_body (query : pystr) (max_articles : Z)
    (ttl_override : option Z) : M pystr :=
  call_helper (get_summary_cached_module query max_articles)
              (Called_get_summary_cached_module query max_articles).

(** [get_summary_cached_ui], decorated; the call and what it gave back to
    its caller are logged. *)
Definition get_summary_cached_ui (query : pystr) (max_articles : Z)
    (ttl_override : option Z) : M pystr := fun st =>
  let '(r, st', t) :=
    st_cache_data ui_ttl (query, max_articles, ttl_override)
      (get_summary_cached_ui_body query max_articles ttl_override) st in
  let called r' :=
    [Called_get_summary_cached_ui query max_articles ttl_override r'] in
  match r with
  | Normal v => (Normal v, st', t ++ called (Ok v))
  | Raised e => (Raised e, st', t ++ called (Raise e))
  | Rerun => (Rerun, st', t)
  end.

(** [str()] as used by f-strings. *)
Definition fmt (v : pyval) : pystr :=
  match v with
  | PStr s => s
  | _ => py_str v
  end.

Definition pretty_article_card (a : Article) : Result pystr :=
  let title := py_or (dict_get (lit "title") a) (PStr (lit "<no title>")) in
  src ← (if truthy (dict_get (lit "source") a)
         then val_get (dict_get (lit "source") a) (lit "name")
         else Ok (dict_get (lit "source") a));
  let url := dict_get (lit "url") a in
  let published :=
    py_or (dict_get (lit "publishedAt") a)
          (py_or (dict_get (lit "published") a) (PStr [])) in
  let published :=
    if truthy published then
      match published with
      | PStr s =>
          match iso_date (replace_Z s) with
          | Some d => PStr d
          | None => published          (* ValueError, swallowed *)
          end
      | _ => published                 (* no [replace]: AttributeError, swallowed *)
      end
    else published in
  let desc := py_or (dict_get (lit "description") a) (PStr []) in
  let tail :=
    lit "  " ++ newline ++ lit "*" ++ fmt src ++ lit " " ++ mdash ++ lit " "
      ++ fmt published ++ lit "*  " ++ newline ++ fmt desc in
  if truthy url
  then Ok (lit "**[" ++ fmt title ++ lit "](" ++ fmt url ++ lit ")**" ++ tail)
  else Ok (lit "**" ++ fmt title ++ lit "**" ++ tail).

(** *** Widgets *)

(** [st.button(label)]: rendered, and [True] exactly in the execution its
    click caused. *)
Definition button (i : Inputs) (b : Button) (label : pystr) : M bool :=
  show (Btn b) label;;
  mret (bool_decide (clicked i = Some b)).

(** [st.text_input(..., key="query_input")]: the widget's value is also
    what [st.session_state] holds under its key. *)
Definition text_input (i : Inputs) (label : pystr) : M pystr :=
  show SbQueryInput label;;
  s ← get_session;
  put_session {| history := history s; query_input := Some (query i) |};;
  mret (query i).

(** [st.session_state['query_input'] = v], after the widget was created. *)
Definition assign_query_input (v : pystr) : M unit :=
  if widget_state_writable then
    s ← get_session;
    put_session {| history := history s; query_input := Some v |}
  else
    raise (StreamlitAPIException
             (lit "`st.session_state.query_input` cannot be modified after the widget with key `query_input` is instantiated.")).

(** [xs[idx]] *)
Definition index {A} (xs : list A) (idx : nat) : Result A :=
  match xs !! idx with
  | Some x => Ok x
  | None => Raise (IndexError (lit "list index out of range"))
  end.

(** *** Sidebar controls (lines 59-85) *)

Definition sidebar_controls (i : Inputs) : M (pystr * Z * bool) :=
  show SbTitle (lit "Controls");;
  query ← text_input i (lit "Query (company, sector, event)");
  show SbMaxArticles (lit "Max articles");;
  let max_articles := max_articles i in
  show SbDateFrom (lit "From (optional)");;
  show SbDateTo (lit "To (optional)");;
  show SbRule (lit "---");;
  show SbCacheTtl (lit "Cache TTL (minutes)");;
  let cache_ttl_minutes := cache_ttl_minutes i in
  show SbTip (lit "Tip: keep `max articles` small while developing to save tokens.");;
  show SbRule (lit "---");;
  run_button ← button i BtnRun (lit "Run " ++ mdash ++ lit " Fetch & Summarize");
  clear_all ← button i BtnClearAll (lit "Clear module & streamlit caches");
  (if clear_all : bool then
     cache_data_clear;;
     call_helper clear_module_cache Called_clear_module_cache;;
     show SbCleared (lit "Cleared caches.")
   else mret tt);;
  show SbRule (lit "---");;
  show SbCaption
    (lit "This app uses NewsAPI (developer key limits apply) and OpenAI for summarization "
       ++ mdash ++ lit " watch token usage.");;
  mret (query, max_articles, run_button).

(** *** Top row (lines 90-99) *)

Definition top_row : M unit :=
  show TopColumns [];;
  show MainHeader (lit "Equity Research " ++ mdash ++ lit " News Summaries");;
  show MainIntro
    (lit "Enter a query on the left, then click **Run** to fetch articles and generate a concise LLM summary.");;
  s ← get_session;
  match history s with
  | Some ((_ :: _) as h) =>
      emit (ShowOptions RecentSelect (lit "Recent queries")
              (map entry_query (take 10 h)))
  | _ => mret tt
  end.

(** *** Run flow (lines 103-167) *)

(** Lines 125-133: the first 30 articles, two cards per row. *)
Definition show_cards (articles : list Article) : M unit :=
  let cards_per_row := 2%nat in
  for_each (py_range 0 (Nat.min (length articles) 30) cards_per_row) (fun i =>
    show CardColumns [];;
    for_break (seq 0 cards_per_row) (fun j =>
      let idx := (i + j)%nat in
      if (length articles <=? idx)%nat then mret true
      else
        a ← lift (index articles idx);
        card ← lift (pretty_article_card a);
        show Card card;;
        mret false)).

(** Lines 136-138. *)
Definition concat_part (a : Article) : Result pystr :=
  left ← add_str (py_or (dict_get (lit "title") a) (PStr []))
                 (lit " " ++ mdash ++ lit " ");
  str_add left (py_or (dict_get (lit "description") a) (PStr [])).

Fixpoint concat_parts (articles : list Article) : Result (list pystr) :=
  match articles with
  | [] => Ok []
  | a :: rest =>
      p ← concat_part a;
      ps ← concat_parts rest;
      Ok (p :: ps)
  end.

Definition concat_text (articles : list Article) : Result pystr :=
  parts ← concat_parts articles;
  Ok (join (newline ++ newline) parts).

(** Lines 164-167. *)
Definition save_history (query summary : pystr) : M unit :=
  s ← get_session;
  (if history s is None
   then put_session {| history := Some []; query_input := query_input s |}
   else mret tt);;
  s ← get_session;
  match history s with
  | Some h =>
      put_session {| history := Some ({| entry_query := query;
                                         entry_summary := summary |} :: h);
                     query_input := query_input s |}
  | None => raise (AttributeError (lit "st.session_state has no attribute " ++ dquote
                                     ++ lit "history" ++ dquote))
  end.

Definition run_flow (query : pystr) (max_articles : Z) (run_button : bool) : M unit :=
  if run_button then
    if negb (str_truthy query) || negb (str_truthy (strip query)) then
      show WarnEmptyQuery (lit "Please enter a non-empty query in the sidebar.")
    else
      articles ←
        try_except
          (show SpinFetch (lit "Fetching articles from NewsAPI...");;
           call_helper (get_news_articles query max_articles)
                       (Called_get_news_articles query max_articles))
          (fun e =>
             show ErrFetch (lit "Failed to fetch articles: " ++ exc_str e);;
             logger_exception (lit "NewsAPI fetch failed");;
             mret []);
      match articles with
      | [] =>
          show InfoNoArticles
            (lit "No articles found for this query " ++ mdash
               ++ lit " try changing the query or increasing 'Max articles'.")
      | _ :: _ =>
          show FetchedHeading (lit "### Fetched articles");;
          show FoundCount
            (lit "Found **" ++ str_of_nat (length articles) ++ lit "** articles for **"
               ++ query ++ lit "**");;
          show_cards articles;;
          concat_text ← lift (concat_text articles);
          try_except
            (tokens_est ← call_helper (estimate_tokens concat_text)
                                      (Called_estimate_tokens concat_text);
             show InfoTokens
               (lit "Estimated tokens for LLM input (approx): " ++ str_of_Z tokens_est);;
             if (8000 <? tokens_est)%Z then
               show WarnTokens
                 (lit "High token estimate " ++ mdash
                    ++ lit " reduce `max articles` to control cost.")
             else mret tt)
            (fun _ => logger_exception (lit "Token estimation failed"));;
          summary ←
            try_except
              (show SpinSummary (lit "Generating summary with LLM (cached)...");;
               s ← get_summary_cached_ui query max_articles None;
               mret (Some s))
              (fun e =>
                 show ErrSummary (lit "Error during summarization: " ++ exc_str e);;
                 logger_exception (lit "Summarization error");;
                 mret None);
          match summary with
          | Some summary =>
              if str_truthy summary then
                show SummaryRule (lit "---");;
                show SummaryHeading (lit "## Summary");;
                show SummaryBody summary;;
                emit (ShowDownload (lit "Download summary (txt)") summary
                        (lit "summary.txt"));;
                save_history query summary
              else mret tt
          | None => mret tt
          end
      end
  else mret tt.

(** *** Sidebar history (lines 170-177) *)

(** The body of the loop: one "Load:" button and its handler. *)
Definition load_button (i : Inputs) (x : nat * HistoryEntry) : M unit :=
  let '(n, h) := x in
  load ← button i (BtnLoad n) (lit "Load: " ++ entry_query h);
  if load : bool then
    assign_query_input (entry_query h);;
    experimental_rerun
  else mret tt.

Definition sidebar_history (i : Inputs) : M unit :=
  s ← get_session;
  match history s with
  | Some ((_ :: _) as h) =>
      show HistRule (lit "---");;
      show HistHeading (lit "### Recent queries");;
      for_each (imap (fun n h => (n, h)) (take 10 h)) (load_button i)
  | _ => mret tt
  end.

(** *** Developer tools (lines 180-188) *)

Definition developer_tools (i : Inputs) : M unit :=
  show DevExpander (lit "Developer tools & debug");;
  show DevIntro (lit "Inspect or clear caches used by Streamlit and the module-level cache.");;
  clear ← button i BtnClearStreamlit (lit "Clear Streamlit cache only");
  (if clear : bool then
     try_except
       (cache_data_clear;;
        show DevCleared (lit "Cleared Streamlit cache."))
       (fun _ => show DevClearFailed (lit "Failed to clear Streamlit cache."))
   else mret tt);;
  show DevNote
    (lit "Module-level cached function available: get_summary_cached_module(query, max_articles)").

(** *** Footer and debug dump (lines 191-199) *)

Definition footer : M unit :=
  show FooterRule (lit "---");;
  show FooterNotes
    (lit "**Notes:** This tool uses NewsAPI (subject to developer key limits) and an LLM for summarization. "
       ++ lit "Keep `max articles` low during iteration to reduce API calls and token costs.").

Definition debug_dump (i : Inputs) : M unit :=
  if debug i then
    s ← get_session;
    emit (ShowState (lit "Session state:") s)
  else mret tt.

(** *** The whole file *)

Definition app (i : Inputs) : M unit :=
  show PageConfig (lit "Equity Research " ++ mdash ++ lit " News & Summaries");;
  '(query, max_articles, run_button) ← sidebar_controls i;
  top_row;;
  run_flow query max_articles run_button;;
  sidebar_history i;;
  developer_tools i;;
  footer;;
  debug_dump i.

(** One execution of the script. *)
Record Outcome := {
  ending : Flow unit;
  session_after : Session;
  cache_after : gmap (pystr * Z * option Z) (pystr * Z);
  world_after : World;
  trace : list Event
}.

Definition run_app (i : Inputs) (s : Session) (c : gmap (pystr * Z * option Z) (pystr * Z))
    (w : World) : Outcome :=
  let '(f, st, t) := app i (mkStore s c w) in
  {| ending := f; session_after := session st; cache_after := cache st;
     world_after := world st; trace := t |}.

(** *** A browser session

    The executions of one session share its [st.session_state]; the cache
    and the world each of them meets are whatever the other sessions and
    the passing of time have made of them. *)
Record Visit := {
  visit_inputs : Inputs;
  visit_cache : gmap (pystr * Z * option Z) (pystr * Z);
  visit_world : World
}.

Fixpoint browse (s : Session) (visits : list Visit) : list (Inputs * Outcome) :=
  match visits with
  | [] => []
  | v :: visits' =>
      let o := run_app (visit_inputs v) s (visit_cache v) (visit_world v) in
      (visit_inputs v, o) :: browse (session_after o) visits'
  end.

(** The session state the visits leave. *)
Fixpoint browse_end (s : Session) (visits : list Visit) : Session :=
  match visits with
  | [] => s
  | v :: visits' =>
      browse_end
        (session_after (run_app (visit_inputs v) s (visit_cache v) (visit_world v)))
        visits'
  end.

(** The records an execution gives rise to: its query with each summary it
    displayed. *)
Definition saved_by (io : Inputs * Outcome) : list HistoryEntry :=
  map (fun sm => {| entry_query := query (fst io); entry_summary := sm |})
      (shown_summaries (trace (snd io))).

(** Every cached value is one the module-level helper returned, for the
    query and article count of its key, in the log [past]. *)
Definition cache_sound (past : list Event) (c : gmap (pystr * Z * option Z) (pystr * Z)) : Prop :=
  forall q m ttl v stored,
    c !! (q, m, ttl) = Some (v, stored) ->
    In (Called_get_summary_cached_module q m (Ok v)) past.

(** A button has a handler when some execution caused by its click differs
    from the execution the same inputs give without a click. *)
Definition handled (b : Button) : Prop :=
  exists i s c w,
    run_app (with_clicked (Some b) i) s c w <> run_app (with_clicked None i) s c w.

(** *** The ways the run flow can go

    [digest q m st st' fl sig]: started in [st] with the button pressed,
    the run flow may end as [fl] in [st'] having produced the significant
    events [sig]. *)
Definition kept (st st' : Store) : Prop :=
  session st' = session st /\ cache st' = cache st.

Definition saved (q v : pystr) (st st' : Store) : Prop :=
  session st'
  = {| history := Some ({| entry_query := q; entry_summary := v |} :: hist (session st));
       query_input := query_input (session st) |}.

Inductive digest (q : pystr) (m : Z) (st st' : Store) : Flow unit -> list Event -> Prop :=
| dg_blank :
    negb (str_truthy q) || negb (str_truthy (strip q)) = true ->
    st' = st ->
    digest q m st st' (Normal tt)
      [Show WarnEmptyQuery (lit "Please enter a non-empty query in the sidebar.")]
| dg_fetch_failed e :
    kept st st' ->
    digest q m st st' (Normal tt)
      [Called_get_news_articles q m (Raise e);
       Show ErrFetch (lit "Failed to fetch articles: " ++ exc_str e)]
| dg_no_articles :
    kept st st' ->
    digest q m st st' (Normal tt) [Called_get_news_articles q m (Ok [])]
| dg_stopped a l e :
    kept st st' ->
    digest q m st st' (Raised e) [Called_get_news_articles q m (Ok (a :: l))]
| dg_hit_saved a l v stored :
    cache st !! (q, m, None) = Some (v, stored) ->
    str_truthy v = true ->
    saved q v st st' -> cache st' = cache st ->
    digest q m st st' (Normal tt)
      [Called_get_news_articles q m (Ok (a :: l));
       Called_get_summary_cached_ui q m None (Ok v);
       Show SummaryBody v]
| dg_hit_empty a l stored :
    cache st !! (q, m, None) = Some ([], stored) ->
    kept st st' ->
    digest q m st st' (Normal tt)
      [Called_get_news_articles q m (Ok (a :: l));
       Called_get_summary_cached_ui q m None (Ok [])]
| dg_miss_saved a l v stored :
    str_truthy v = true ->
    saved q v st st' -> cache st' = <[(q, m, None) := (v, stored)]> (cache st) ->
    digest q m st st' (Normal tt)
      [Called_get_news_articles q m (Ok (a :: l));
       Called_get_summary_cached_module q m (Ok v);
       Called_get_summary_cached_ui q m None (Ok v);
       Show SummaryBody v]
| dg_miss_empty a l stored :
    session st' = session st ->
    cache st' = <[(q, m, None) := ([], stored)]> (cache st) ->
    digest q m st st' (Normal tt)
      [Called_get_news_articles q m (Ok (a :: l));
       Called_get_summary_cached_module q m (Ok []);
       Called_get_summary_cached_ui q m None (Ok [])]
| dg_miss_failed a l e :
    kept st st' ->
    digest q m st st' (Normal tt)
      [Called_get_news_articles q m (Ok (a :: l));
       Called_get_summary_cached_module q m (Raise e);
       Called_get_summary_cached_ui q m None (Raise e);
       Show ErrSummary (lit "Error during summarization: " ++ exc_str e)].

(** A computation that only renders: it leaves the store alone, produces
    events satisfying [P] and does not ask for a rerun. *)
Definition renders {A} (P : Event -> Prop) (m : M A) : Prop :=
  forall st, exists fl evs, m st = (fl, st, evs) /\ Forall P evs /\ fl <> Rerun.


(** *** Reading the article cards

    One row of the card grid (the body of the outer loop of [show_cards]),
    and the grid read off the list of articles directly. *)
Definition card_row (articles : list Article) (i : nat) : M unit :=
  show CardColumns [];;
  for_break (seq 0 2) (fun j =>
    let idx := (i + j)%nat in
    if (length articles <=? idx)%nat then mret true
    else
      a ← lift (index articles idx);
      card ← lift (pretty_article_card a);
      show Card card;;
      mret false).

(** The events of the grid for the articles [l], two to a row, up to the
    first card that cannot be rendered. *)
Fixpoint render_rows (l : list Article) : list Event * option PyExc :=
  match l with
  | [] => ([], None)
  | a :: rest =>
      match pretty_article_card a with
      | Raise e => ([Show CardColumns []], Some e)
      | Ok c1 =>
          match rest with
          | [] => ([Show CardColumns []; Show Card c1], None)
          | b :: rest' =>
              match pretty_article_card b with
              | Raise e => ([Show CardColumns []; Show Card c1], Some e)
              | Ok c2 =>
                  let '(evs, r) := render_rows rest' in
                  (Show CardColumns [] :: Show Card c1 :: Show Card c2 :: evs, r)
              end
          end
      end
  end.

(** The texts of the cards rendered, and the number of rows opened. *)
Definition card_texts : list Event -> list pystr :=
  collect (fun e => match e with Show Card c => Some c | _ => None end).

Definition card_rows : list Event -> list unit :=
  collect (fun e => match e with Show CardColumns _ => Some tt | _ => None end).

(** A value that [+] can join to a string: a string, or a false value
    (which [or ""] replaces by the empty string). *)
Definition is_text (v : pyval) : bool :=
  negb (truthy v) || match v with PStr _ => true | _ => false end.

(** [v or ""] for such a value. *)
Definition text_of (v : pyval) : pystr :=
  match v with
  | PStr s => s
  | _ => []
  end.

Definition clean_article (a : Article) : bool :=
  is_text (dict_get (lit "title") a) && is_text (dict_get (lit "description") a).

(** How a computation that stopped with the error [r], if any, ends. *)
Definition flow_of (r : option PyExc) : Flow unit :=
  match r with
  | None => Normal tt
  | Some e => Raised e
  end.

(** *** The page around the run flow

    What follows the run flow (lines 169-199), as one computation. *)
Definition postlude (i : Inputs) : M unit :=
  sidebar_history i;;
  developer_tools i;;
  footer;;
  debug_dump i.

(** The events made before the run flow: the sidebar controls, the
    "Clear module & streamlit caches" handler and the top row. *)
Definition before_run (e : Event) : Prop :=
  match e with
  | Show el _ =>
      match el with
      | PageConfig | SbTitle | SbQueryInput | SbMaxArticles | SbDateFrom | SbDateTo
      | SbRule | SbCacheTtl | SbTip | Btn BtnRun | Btn BtnClearAll | SbCleared
      | SbCaption | TopColumns | MainHeader | MainIntro => True
      | _ => False
      end
  | ShowOptions RecentSelect _ _ => True
  | Called_clear_module_cache _ => True
  | CacheDataCleared => True
  | _ => False
  end.

(** The events made after it: the sidebar history with its handler, the
    developer tools with theirs, and the footer; the debug dump apart. *)
Definition after_run (e : Event) : Prop :=
  match e with
  | Show el _ =>
      match el with
      | HistRule | HistHeading | Btn (BtnLoad _) | Btn BtnClearStreamlit
      | DevExpander | DevIntro | DevCleared | DevClearFailed | DevNote
      | FooterRule | FooterNotes => True
      | _ => False
      end
  | CacheDataCleared => True
  | RerunRequested => True
  | _ => False
  end.

(** An element rendered on the page, as opposed to a helper call, a log
    line, a cache clearing or a rerun request. *)
Definition is_element (e : Event) : bool :=
  match e with
  | Show _ _ | ShowOptions _ _ _ | ShowDownload _ _ _ | ShowState _ _ => true
  | _ => false
  end.

(** The event of the "Load:" button of an enumerated record. *)
Definition load_event (x : nat * HistoryEntry) : Event :=
  Show (Btn (BtnLoad (fst x))) (lit "Load: " ++ entry_query (snd x)).

(** The events of the run flow itself. *)
Definition in_run (e : Event) : Prop :=
  match e with
  | Show el _ =>
      match el with
      | WarnEmptyQuery | SpinFetch | ErrFetch | InfoNoArticles
      | FetchedHeading | FoundCount | CardColumns | Card
      | InfoTokens | WarnTokens | SpinSummary | ErrSummary
      | SummaryRule | SummaryHeading | SummaryBody => True
      | _ => False
      end
  | ShowDownload _ _ _ => True
  | Called_get_news_articles _ _ _ => True
  | Called_estimate_tokens _ _ => True
  | Called_get_summary_cached_ui _ _ _ _ => True
  | Called_get_summary_cached_module _ _ _ => True
  | Logged _ => True
  | _ => False
  end.

(** The dump of the session state at the end of the page, when asked for. *)
Definition dump_events (i : Inputs) (s : Session) : list Event :=
  if debug i then [ShowState (lit "Session state:") s] else [].

(** The outside world as the run flow finds it when it asks for the
    summary: after the fetch and after the token estimate on [text]. *)
Definition world_at_summary (i : Inputs) (w : World) (text : pystr) : World :=
  snd (estimate_tokens text (snd (get_news_articles (query i) (max_articles i) w))).

(** No entry of the cache [c] for the page's call of the wrapper is younger
    than a day at the clock of [w]. *)
Definition no_fresh_entry (i : Inputs) (c : gmap (pystr * Z * option Z) (pystr * Z))
    (w : World) : Prop :=
  forall v stored,
    c !! (query i, max_articles i, @None Z) = Some (v, stored) ->
    (stored + 86400 <= clock w)%Z.
(** ** Reading logs: basic facts *)

Lemma collect_app {A} (f : Event -> option A) t1 t2 :
  collect f (t1 ++ t2) = collect f t1 ++ collect f t2.
Proof.
  induction t1 as [|e t1 IH]; simpl; [reflexivity |].
  destruct (f e); simpl; rewrite IH; reflexivity.
Qed.

Lemma collect_none {A} (f : Event -> option A) (P : Event -> Prop) t :
  (forall e, P e -> f e = None) -> Forall P t -> collect f t = [].
Proof.
  intros Hf Ht. induction Ht as [|e t He Ht IH]; cbn [collect]; [reflexivity |].
  rewrite (Hf e He). exact IH.
Qed.

Lemma filter_none (p : Event -> bool) (P : Event -> Prop) t :
  (forall e, P e -> p e = false) -> Forall P t -> List.filter p t = [].
Proof.
  intros Hp Ht. induction Ht as [|e t He Ht IH]; cbn [List.filter]; [reflexivity |].
  rewrite (Hp e He). exact IH.
Qed.

Lemma In_Forall (P : Event -> Prop) e t : Forall P t -> In e t -> P e.
Proof. intros Ht. apply List.Forall_forall. exact Ht. Qed.

Lemma frame_chrome e : frame e -> chrome e.
Proof. destruct e as [[| | | | | | | | |[]| | | | | | | | | | | | | | | | | | | | | | | | | | | | | | | |] ?| | | | | | | | | | |]; cbn; tauto. Qed.

Lemma Forall_frame_chrome t : Forall frame t -> Forall chrome t.
Proof. apply List.Forall_impl, frame_chrome. Qed.

(** Cards carry nothing the observations look for. *)
Lemma cards_shown t : Forall is_card t -> shown_summaries t = [].
Proof. apply collect_none. intros [[] ?| | | | | | | | | | |]; cbn; tauto. Qed.

Lemma cards_load t : Forall is_card t -> load_buttons t = [].
Proof. apply collect_none. intros [[] ?| | | | | | | | | | |]; cbn; tauto. Qed.

Lemma cards_recent t : Forall is_card t -> recent_options t = [].
Proof. apply collect_none. intros [[] ?| | | | | | | | | | |]; cbn; tauto. Qed.

Lemma cards_fetch t : Forall is_card t -> List.filter is_fetch_call t = [].
Proof. apply filter_none. intros [[] ?| | | | | | | | | | |]; cbn; tauto. Qed.

Lemma cards_summary t : Forall is_card t -> List.filter is_summary_call t = [].
Proof. apply filter_none. intros [[] ?| | | | | | | | | | |]; cbn; tauto. Qed.

Lemma cards_module t : Forall is_card t -> List.filter is_module_summary_call t = [].
Proof. apply filter_none. intros [[] ?| | | | | | | | | | |]; cbn; tauto. Qed.

Lemma cards_order seen t rest :
  Forall is_card t ->
  fetch_before_summary seen (t ++ rest) = fetch_before_summary seen rest.
Proof.
  intros Ht. induction Ht as [|e t He Ht IH]; [reflexivity |].
  destruct e as [[] ?| | | | | | | | | | |]; cbn in He; try contradiction;
    cbn; rewrite orb_false_r; exact IH.
Qed.

Lemma cards_significant t : Forall is_card t -> List.filter significant t = [].
Proof. apply filter_none. intros [[] ?| | | | | | | | | | |]; cbn; tauto. Qed.

Lemma cards_plain t : Forall is_card t -> Forall plain t.
Proof. apply List.Forall_impl. intros [[] ?| | | | | | | | | | |]; cbn; tauto. Qed.

Lemma plain_load t : Forall plain t -> load_buttons t = [].
Proof.
  apply collect_none.
  intros [[| | | | | | | | |[]| | | | | | | | | | | | | | | | | | | | | | | | | | | | | | | |] ?|[] ? ?| | | | | | | | | |]; cbn; tauto.
Qed.

Lemma plain_recent t : Forall plain t -> recent_options t = [].
Proof.
  apply collect_none.
  intros [[] ?|[] ? ?| | | | | | | | | |]; cbn; tauto.
Qed.

(** The same for the events made outside the run flow. *)
Lemma chrome_shown t : Forall chrome t -> shown_summaries t = [].
Proof.
  apply collect_none.
  intros [[] ?|[] ? ?| | | | | | | | | |]; cbn; tauto.
Qed.

Lemma chrome_quiet t : Forall chrome t -> Forall (fun e => quiet e = true) t.
Proof.
  apply List.Forall_impl.
  intros [[] ?|[] ? ?| | | | | | | | | |]; cbn; tauto.
Qed.

Lemma frame_load t : Forall frame t -> load_buttons t = [].
Proof.
  apply collect_none.
  intros [[| | | | | | | | |[]| | | | | | | | | | | | | | | | | | | | | | | | | | | | | | | |] ?|[] ? ?| | | | | | | | | |]; cbn; tauto.
Qed.

Lemma frame_recent t : Forall frame t -> recent_options t = [].
Proof.
  apply collect_none.
  intros [[] ?|[] ? ?| | | | | | | | | |]; cbn; tauto.
Qed.

Lemma quiet_fetch t :
  Forall (fun e => quiet e = true) t -> List.filter is_fetch_call t = [].
Proof.
  apply filter_none. intros e. unfold quiet.
  destruct (is_fetch_call e); [discriminate | reflexivity].
Qed.

Lemma quiet_summary t :
  Forall (fun e => quiet e = true) t -> List.filter is_summary_call t = [].
Proof.
  apply filter_none. intros e. unfold quiet.
  destruct (is_fetch_call e), (is_summary_call e); try discriminate; reflexivity.
Qed.

Lemma quiet_module t :
  Forall (fun e => quiet e = true) t -> List.filter is_module_summary_call t = [].
Proof.
  apply filter_none. intros e. unfold quiet.
  destruct (is_fetch_call e), (is_summary_call e), (is_module_summary_call e);
    try discriminate; reflexivity.
Qed.

(** What the scan [fetch_before_summary] decides. *)
Lemma fetch_before_summary_seen t : fetch_before_summary true t = true.
Proof.
  induction t as [|e t IH]; [reflexivity |].
  cbn. destruct (is_summary_call e); cbn; exact IH.
Qed.

Lemma fetch_before_summary_spec t :
  forall seen, fetch_before_summary seen t = true ->
  forall t1 e t2, t = t1 ++ e :: t2 -> is_summary_call e = true ->
  seen = true \/ exists f, In f t1 /\ is_fetch_call f = true.
Proof.
  induction t as [|x t IH]; intros seen Hscan t1 e t2 Heq He.
  - destruct t1; discriminate.
  - destruct t1 as [|y t1]; cbn in Heq; injection Heq as -> ->.
    + cbn in Hscan. rewrite He in Hscan.
      apply andb_true_iff in Hscan as [-> _]. left; reflexivity.
    + cbn in Hscan. destruct (is_summary_call y) eqn:Hy.
      * apply andb_true_iff in Hscan as [-> _]. left; reflexivity.
      * destruct (IH _ Hscan t1 e t2 eq_refl He) as [Hs | (f & Hf & Hff)].
        -- apply orb_true_iff in Hs as [-> | Hs]; [left; reflexivity |].
           right. exists y. split; [left; reflexivity | exact Hs].
        -- right. exists f. split; [right; exact Hf | exact Hff].
Qed.

Lemma fetch_before_summary_quiet seen t :
  Forall (fun e => quiet e = true) t -> fetch_before_summary seen t = true.
Proof.
  intros Ht. revert seen. induction Ht as [|e t He Ht IH]; intros seen; [reflexivity |].
  cbn. unfold quiet in He.
  destruct (is_fetch_call e), (is_summary_call e); try discriminate; apply IH.
Qed.

Lemma fetch_before_summary_app seen t1 t2 :
  Forall (fun e => quiet e = true) t1 ->
  fetch_before_summary seen (t1 ++ t2) = fetch_before_summary seen t2.
Proof.
  intros Ht. induction Ht as [|e t He Ht IH]; [reflexivity |].
  cbn. unfold quiet in He.
  destruct (is_fetch_call e), (is_summary_call e); try discriminate.
  rewrite orb_false_r. exact IH.
Qed.

Lemma fetch_before_summary_app_quiet seen t1 t2 :
  fetch_before_summary seen t1 = true ->
  Forall (fun e => quiet e = true) t2 ->
  fetch_before_summary seen (t1 ++ t2) = true.
Proof.
  revert seen. induction t1 as [|e t1 IH]; intros seen H1 H2.
  - apply fetch_before_summary_quiet, H2.
  - cbn in *. destruct (is_summary_call e).
    + apply andb_true_iff in H1 as [-> H1]. cbn. apply IH; assumption.
    + apply IH; assumption.
Qed.

(** White space only means [strip] leaves nothing. *)
Lemma lstrip_spaces s : Forall (fun c => py_isspace c = true) s -> lstrip s = [].
Proof.
  intros Hs. induction Hs as [|c s Hc Hs IH]; [reflexivity |].
  cbn. rewrite Hc. exact IH.
Qed.

Lemma strip_spaces s : Forall (fun c => py_isspace c = true) s -> strip s = [].
Proof. intros Hs. unfold strip. rewrite (lstrip_spaces s Hs). reflexivity. Qed.

(** ** Computations that only render *)

Lemma renders_ret {A} P (a : A) : renders P (mret a).
Proof. intros st. exists (Normal a), []. repeat split; [constructor | discriminate]. Qed.

Lemma renders_raise {A} P e : renders P (@raise A e).
Proof. intros st. exists (Raised e), []. repeat split; [constructor | discriminate]. Qed.

Lemma renders_lift {A} P (r : Result A) : renders P (lift r).
Proof. destruct r; [apply renders_ret | apply renders_raise]. Qed.

Lemma renders_show (P : Event -> Prop) el text :
  P (Show el text) -> renders P (show el text).
Proof.
  intros HP st. exists (Normal tt), [Show el text].
  repeat split; [repeat constructor; exact HP | discriminate].
Qed.

Lemma renders_bind {A B} P (m : M A) (f : A -> M B) :
  renders P m -> (forall a, renders P (f a)) -> renders P (m ≫= f).
Proof.
  intros Hm Hf st. destruct (Hm st) as (fl & evs & E & HP & Hfl).
  unfold mbind, M_bind. rewrite E. destruct fl as [a|e|].
  - destruct (Hf a st) as (fl' & evs' & E' & HP' & Hfl'). rewrite E'.
    exists fl', (evs ++ evs'). repeat split; [apply Forall_app; auto | exact Hfl'].
  - exists (Raised e), evs. repeat split; [exact HP | discriminate].
  - congruence.
Qed.

Lemma renders_for_each {A} P (xs : list A) (body : A -> M unit) :
  (forall x, renders P (body x)) -> renders P (for_each xs body).
Proof.
  intros Hb. induction xs as [|x xs IH]; cbn [for_each].
  - apply renders_ret.
  - apply renders_bind; [apply Hb | intros _; exact IH].
Qed.

Lemma renders_for_break {A} P (xs : list A) (body : A -> M bool) :
  (forall x, renders P (body x)) -> renders P (for_break xs body).
Proof.
  intros Hb. induction xs as [|x xs IH]; cbn [for_break].
  - apply renders_ret.
  - apply renders_bind; [apply Hb | intros [|]; [apply renders_ret | exact IH]].
Qed.

Lemma show_cards_renders articles : renders is_card (show_cards articles).
Proof.
  unfold show_cards. apply renders_for_each. intros i.
  apply renders_bind; [apply renders_show; exact I | intros _].
  apply renders_for_break. intros j. cbv zeta.
  destruct (_ <=? _)%nat; [apply renders_ret |].
  apply renders_bind; [apply renders_lift | intros a].
  apply renders_bind; [apply renders_lift | intros card].
  apply renders_bind; [apply renders_show; exact I | intros _; apply renders_ret].
Qed.

(** ** Executing the run flow case by case *)

Opaque lit str_of_Z str_of_nat strip concat_text.

Ltac exec_unfold H :=
  unfold mbind, M_bind, mret, M_ret, try_except, show, emit,
    call_helper, lift, raise, logger_exception, get_summary_cached_ui,
    get_summary_cached_ui_body, st_cache_data, save_history, get_session,
    put_session in H.

Ltac exec_cards H :=
  match type of H with
  | context [show_cards ?a ?s] =>
      let fl := fresh "cards_end" in
      let evs := fresh "cards" in
      let E := fresh "Ecards" in
      let HP := fresh "Hcards" in
      let Hfl := fresh "Hcards_end" in
      destruct (show_cards_renders a s) as (fl & evs & E & HP & Hfl);
      rewrite E in H; clear E; destruct fl as [[]| |]; [ | | congruence]
  end.

Ltac exec_case H :=
  match type of H with
  | context [match ?x with _ => _ end] =>
      lazymatch x with
      | context [match _ with _ => _ end] => fail
      | _ => destruct x eqn:?
      end
  end.

Ltac exec_in H :=
  repeat first
    [ progress exec_unfold H
    | progress cbn -[show_cards] in H
    | exec_cards H
    | exec_case H ].

Ltac significant_simpl :=
  repeat first
    [ progress cbn [List.filter significant app]
    | rewrite List.filter_app
    | rewrite cards_significant by assumption ].

Ltac plain_solve :=
  repeat first
    [ apply List.Forall_nil
    | apply List.Forall_cons; [exact I |]
    | apply Forall_app; split; [apply cards_plain; assumption |]
    | apply cards_plain; assumption ].

Ltac digest_solve :=
  first
    [ eapply dg_blank
    | eapply dg_fetch_failed
    | eapply dg_no_articles
    | eapply dg_stopped
    | eapply dg_hit_saved
    | eapply dg_miss_saved
    | eapply dg_miss_failed
    | match goal with
      | E : str_truthy ?v = false |- _ =>
          destruct v; [ | discriminate E ];
          first [ eapply dg_hit_empty | eapply dg_miss_empty ]
      end ];
  unfold kept, saved, hist;
  repeat match goal with
    | E : history _ = _ |- _ => rewrite E
    end;
  cbn [session cache world default];
  try solve [ eauto ].

(** Case analysis of a membership in an explicit log. *)
Ltac in_split H :=
  repeat match type of H with
    | In _ [] => destruct H
    | In _ (_ :: _) =>
        destruct H as [H|H]; [ try discriminate H; try (inversion H; subst) | ]
    end.

Ltac in_solve :=
  solve [ repeat first [ left; reflexivity | right ] ].

Lemma run_flow_not_pressed q m st : run_flow q m false st = (Normal tt, st, []).
Proof. reflexivity. Qed.

Lemma run_flow_blank q m st :
  negb (str_truthy q) || negb (str_truthy (strip q)) = true ->
  run_flow q m true st
  = (Normal tt, st,
     [Show WarnEmptyQuery (lit "Please enter a non-empty query in the sidebar.")]).
Proof. intros H. unfold run_flow. rewrite H. reflexivity. Qed.

Lemma run_flow_digest q m st fl st' evs :
  run_flow q m true st = (fl, st', evs) ->
  digest q m st st' fl (List.filter significant evs) /\ Forall plain evs.
Proof.
  intros H. unfold run_flow in H. exec_in H; try congruence.
  all: inversion H; subst; clear H.
  all: (split; [ significant_simpl | plain_solve ]).
  all: digest_solve.
Qed.

(** ** The parts of the page around the run flow *)

Ltac frame_solve :=
  repeat first
    [ apply List.Forall_nil
    | apply List.Forall_cons; [exact I |] ].

Lemma sidebar_controls_spec i st :
  exists fl st1 evs,
    sidebar_controls i st = (fl, st1, evs)
    /\ Forall frame evs
    /\ session st1 = {| history := history (session st); query_input := Some (query i) |}
    /\ (cache st1 = cache st \/ cache st1 = ∅)
    /\ (clicked i <> Some BtnClearAll -> cache st1 = cache st /\ world st1 = world st)
    /\ (fl = Normal (query i, max_articles i, bool_decide (clicked i = Some BtnRun))
        \/ (clicked i = Some BtnClearAll /\ exists e, fl = Raised e)).
Proof.
  unfold sidebar_controls, text_input, button, cache_data_clear, call_helper,
    show, emit, get_session, put_session, mbind, M_bind, mret, M_ret.
  destruct (bool_decide (clicked i = Some BtnClearAll)) eqn:Hb;
    [apply bool_decide_eq_true in Hb | apply bool_decide_eq_false in Hb]; cbn.
  1: destruct (clear_module_cache (world st)) as [[[]|e] w'] eqn:Hw; cbn.
  all: do 3 eexists; split; [reflexivity |].
  all: cbn; split; [frame_solve |].
  all: split; [reflexivity |].
  all: split; [auto |].
  all: split; [try (intros _; split; reflexivity); try congruence |].
  all: try (left; reflexivity).
  right. split; [assumption | eexists; reflexivity].
Qed.

Lemma top_row_spec st :
  exists evs,
    top_row st = (Normal tt, st, evs)
    /\ Forall chrome evs
    /\ load_buttons evs = []
    /\ recent_options evs
       = match hist (session st) with
         | [] => []
         | _ :: _ => [map entry_query (take 10 (hist (session st)))]
         end.
Proof.
  unfold top_row, show, emit, get_session, mbind, M_bind, mret, M_ret, hist.
  destruct (history (session st)) as [[|h0 h]|]; cbn.
  all: eexists; split; [reflexivity |].
  all: repeat split; try reflexivity; frame_solve.
Qed.

Lemma footer_spec st :
  exists evs, footer st = (Normal tt, st, evs) /\ Forall frame evs.
Proof.
  unfold footer, show, emit, mbind, M_bind. cbn.
  eexists; split; [reflexivity | frame_solve].
Qed.

Lemma debug_dump_spec i st :
  exists evs, debug_dump i st = (Normal tt, st, evs) /\ Forall frame evs.
Proof.
  unfold debug_dump, emit, get_session, mbind, M_bind, mret, M_ret.
  destruct (debug i); cbn; eexists; (split; [reflexivity | frame_solve]).
Qed.

Lemma developer_tools_spec i st :
  exists st' evs,
    developer_tools i st = (Normal tt, st', evs)
    /\ Forall frame evs
    /\ session st' = session st
    /\ (cache st' = cache st \/ cache st' = ∅)
    /\ (clicked i <> Some BtnClearStreamlit -> cache st' = cache st).
Proof.
  unfold developer_tools, button, try_except, cache_data_clear, show, emit,
    mbind, M_bind, mret, M_ret.
  destruct (bool_decide (clicked i = Some BtnClearStreamlit)) eqn:Hb;
    [apply bool_decide_eq_true in Hb | apply bool_decide_eq_false in Hb]; cbn.
  all: do 2 eexists; split; [reflexivity |].
  all: cbn; split; [frame_solve |].
  all: split; [reflexivity |].
  all: split; [auto |].
  all: first [intros _; reflexivity | congruence].
Qed.

Lemma map_load_label f (h : list HistoryEntry) :
  map load_label (imap (fun n e => (f n, e)) h)
  = imap (fun n e => (f n, lit "Load: " ++ entry_query e)) h.
Proof.
  revert f. induction h as [|e h IH]; intros f; [reflexivity |].
  cbn. f_equal. apply (IH (fun n => f (S n))).
Qed.

Lemma load_loop i (xs : list (nat * HistoryEntry)) st :
  exists fl st' evs,
    for_each xs (load_button i) st = (fl, st', evs)
    /\ Forall chrome evs
    /\ recent_options evs = []
    /\ history (session st') = history (session st)
    /\ cache st' = cache st
    /\ (exists k, load_buttons evs = take k (map load_label xs))
    /\ (fl = Normal tt -> load_buttons evs = map load_label xs).
Proof.
  revert st. induction xs as [|[n h] xs IH]; intros st.
  - exists (Normal tt), st, []. cbn.
    repeat split; try constructor. exists 0%nat. reflexivity.
  - cbn [for_each]. unfold mbind, M_bind. unfold load_button at 1.
    unfold button, assign_query_input, experimental_rerun, raise,
      show, emit, get_session, put_session, mbind, M_bind, mret, M_ret.
    destruct (bool_decide (clicked i = Some (BtnLoad n))) eqn:Hb; cbn.
    + destruct widget_state_writable; cbn.
      all: do 3 eexists; split; [reflexivity |].
      all: cbn; split; [frame_solve |].
      all: repeat split; try discriminate.
      all: exists 1%nat; reflexivity.
    + destruct (IH st) as (fl & st' & evs & E & Hch & Hro & Hh & Hc & (k & Hk) & Hn).
      rewrite E.
      do 3 eexists; split; [reflexivity |].
      split; [constructor; [exact I | exact Hch] |].
      unfold load_buttons, recent_options in *. cbn [collect].
      repeat split; try assumption.
      * exists (S k). cbn [map take load_label fst snd]. rewrite Hk. reflexivity.
      * intros Hfl. cbn [map load_label fst snd]. rewrite (Hn Hfl). reflexivity.
Qed.

Lemma sidebar_history_spec i st :
  exists fl st' evs,
    sidebar_history i st = (fl, st', evs)
    /\ Forall chrome evs
    /\ recent_options evs = []
    /\ history (session st') = history (session st)
    /\ cache st' = cache st
    /\ (exists k, load_buttons evs = take k (load_entries (take 10 (hist (session st)))))
    /\ (fl = Normal tt ->
        load_buttons evs = load_entries (take 10 (hist (session st)))).
Proof.
  unfold sidebar_history, get_session. unfold mbind at 1, M_bind at 1.
  unfold hist. destruct (history (session st)) as [[|h0 h]|] eqn:Hh.
  1, 3: exists (Normal tt), st, []; cbn;
        repeat apply conj;
        first [ reflexivity | assumption | apply List.Forall_nil
              | exists 0%nat; reflexivity | intros _; reflexivity ].
  destruct (load_loop i (imap (fun n e => (n, e)) (take 10 (h0 :: h))) st)
    as (fl & st' & evs & E & Hch & Hro & Hh' & Hc & (k & Hk) & Hn).
  unfold show, emit. unfold mbind, M_bind in *. cbn [default].
  rewrite E. rewrite (map_load_label (fun n => n)) in Hk, Hn.
  do 3 eexists; split; [reflexivity |].
  split; [repeat (constructor; [exact I |]); exact Hch |].
  unfold load_buttons, recent_options, load_entries in *. cbn [collect app].
  rewrite <- Hh. repeat split; try assumption.
  exists k. exact Hk.
Qed.

(** ** The anatomy of an execution *)

Lemma chrome_significant t : Forall chrome t -> List.filter significant t = [].
Proof.
  apply filter_none.
  intros [[] ?|[] ? ?| | | | | | | | | |]; cbn; tauto.
Qed.

Lemma chrome_plain_load t : Forall frame t -> Forall chrome t /\ load_buttons t = []
                                             /\ recent_options t = [].
Proof.
  intros H. split; [apply Forall_frame_chrome, H |].
  split; [apply frame_load, H | apply frame_recent, H].
Qed.

(** An execution is a prelude, the run flow and a postlude; the prelude
    and the postlude only make events of the page's chrome. *)
Lemma app_anatomy i st fl st' t :
  app i st = (fl, st', t) ->
  exists pre run post st1 st2 fl2,
    t = pre ++ run ++ post
    /\ Forall chrome pre /\ Forall chrome post
    /\ load_buttons pre = [] /\ recent_options post = []
    /\ session st1 = {| history := history (session st); query_input := Some (query i) |}
    /\ (cache st1 = cache st \/ cache st1 = ∅)
    /\ (clicked i <> Some BtnClearAll -> cache st1 = cache st /\ world st1 = world st)
    /\ history (session st') = history (session st2)
    /\ (cache st' = cache st2 \/ cache st' = ∅)
    /\ (clicked i <> Some BtnClearStreamlit -> cache st' = cache st2)
    /\ ((clicked i = Some BtnClearAll /\ (exists e, fl = Raised e)
         /\ run = [] /\ post = [] /\ recent_options pre = [] /\ st2 = st1)
        \/ (run_flow (query i) (max_articles i)
                     (bool_decide (clicked i = Some BtnRun)) st1 = (fl2, st2, run)
            /\ recent_options pre
               = match hist (session st) with
                 | [] => []
                 | _ :: _ => [map entry_query (take 10 (hist (session st)))]
                 end
            /\ (exists k, load_buttons post
                          = take k (load_entries (take 10 (hist (session st2)))))
            /\ (fl = Normal tt ->
                load_buttons post = load_entries (take 10 (hist (session st2)))))).
Proof.
  intros H. unfold app, show, emit in H. unfold mbind, M_bind in H.
  destruct (sidebar_controls_spec i st)
    as (fl1 & st1 & ev1 & E1 & F1 & S1 & C1 & C1' & Hfl1).
  rewrite E1 in H.
  destruct (chrome_plain_load _ F1) as (Ch1 & L1 & R1).
  destruct Hfl1 as [-> | (Hc & e & ->)].
  - cbn beta iota zeta in H.
    destruct (top_row_spec st1) as (ev2 & E2 & Ch2 & L2 & R2).
    rewrite E2 in H.
    assert (Hhist1 : hist (session st1) = hist (session st))
      by (unfold hist; rewrite S1; reflexivity).
    rewrite Hhist1 in R2.
    destruct (run_flow (query i) (max_articles i)
                (bool_decide (clicked i = Some BtnRun)) st1)
      as [[fl2 st2] run] eqn:Erun.
    assert (Hpre : Forall chrome ([Show PageConfig
                     (lit "Equity Research " ++ mdash ++ lit " News & Summaries")]
                     ++ ev1 ++ ev2)).
    { apply Forall_app; split; [repeat constructor |].
      apply Forall_app; split; assumption. }
    assert (Lpre : load_buttons ([Show PageConfig
                     (lit "Equity Research " ++ mdash ++ lit " News & Summaries")]
                     ++ ev1 ++ ev2) = []).
    { unfold load_buttons in *. rewrite !collect_app, L1, L2. reflexivity. }
    assert (Rpre : recent_options ([Show PageConfig
                     (lit "Equity Research " ++ mdash ++ lit " News & Summaries")]
                     ++ ev1 ++ ev2)
                   = match hist (session st) with
                     | [] => []
                     | _ :: _ => [map entry_query (take 10 (hist (session st)))]
                     end).
    { unfold recent_options in *. rewrite !collect_app, R1, R2. reflexivity. }
    destruct fl2 as [[]|e|].
    + destruct (sidebar_history_spec i st2)
        as (fl3 & st3 & ev3 & E3 & Ch3 & R3 & H3 & C3 & K3 & N3).
      rewrite E3 in H.
      destruct fl3 as [[]|e|].
      * destruct (developer_tools_spec i st3) as (st4 & ev4 & E4 & F4 & S4 & C4 & C4').
        rewrite E4 in H.
        destruct (footer_spec st4) as (ev5 & E5 & F5). rewrite E5 in H.
        destruct (debug_dump_spec i st4) as (ev6 & E6 & F6). rewrite E6 in H.
        injection H as <- <- <-.
        destruct (chrome_plain_load _ F4) as (Ch4 & L4 & R4).
        destruct (chrome_plain_load _ F5) as (Ch5 & L5 & R5).
        destruct (chrome_plain_load _ F6) as (Ch6 & L6 & R6).
        exists ([Show PageConfig
                   (lit "Equity Research " ++ mdash ++ lit " News & Summaries")]
                  ++ ev1 ++ ev2), run, (ev3 ++ ev4 ++ ev5 ++ ev6), st1, st2, (Normal tt).
        split; [cbn [app]; rewrite <- !List.app_assoc; reflexivity |].
        split; [exact Hpre |].
        split; [repeat (apply Forall_app; split); assumption |].
        split; [exact Lpre |].
        split; [unfold recent_options in *; rewrite !collect_app, R3, R4, R5, R6;
                reflexivity |].
        split; [exact S1 |]. split; [exact C1 |]. split; [exact C1' |].
        split; [rewrite S4; exact H3 |].
        split; [rewrite <- C3; exact C4 |].
        split; [intros Hn; rewrite <- C3; exact (C4' Hn) |].
        right. split; [exact Erun |]. split; [exact Rpre |].
        assert (LL : load_buttons (ev3 ++ ev4 ++ ev5 ++ ev6) = load_buttons ev3).
        { unfold load_buttons in *. rewrite !collect_app, L4, L5, L6.
          rewrite !List.app_nil_r. reflexivity. }
        rewrite LL. split; [exact K3 | intros _; apply N3; reflexivity].
      * injection H as <- <- <-.
        exists ([Show PageConfig
                   (lit "Equity Research " ++ mdash ++ lit " News & Summaries")]
                  ++ ev1 ++ ev2), run, ev3, st1, st2, (Normal tt).
        split; [cbn [app]; rewrite <- !List.app_assoc; reflexivity |].
        repeat (split; [first [assumption | auto] |]).
        right. split; [exact Erun |]. split; [exact Rpre |].
        split; [exact K3 | discriminate].
      * injection H as <- <- <-.
        exists ([Show PageConfig
                   (lit "Equity Research " ++ mdash ++ lit " News & Summaries")]
                  ++ ev1 ++ ev2), run, ev3, st1, st2, (Normal tt).
        split; [cbn [app]; rewrite <- !List.app_assoc; reflexivity |].
        repeat (split; [first [assumption | auto] |]).
        right. split; [exact Erun |]. split; [exact Rpre |].
        split; [exact K3 | discriminate].
    + injection H as <- <- <-.
      exists ([Show PageConfig
                 (lit "Equity Research " ++ mdash ++ lit " News & Summaries")]
                ++ ev1 ++ ev2), run, [], st1, st2, (Raised e).
      split; [cbn [app]; rewrite List.app_nil_r, <- !List.app_assoc; reflexivity |].
      repeat (split; [first [assumption | apply List.Forall_nil | reflexivity | auto] |]).
      right. split; [exact Erun |]. split; [exact Rpre |].
      split; [exists 0%nat; reflexivity | discriminate].
    + injection H as <- <- <-.
      exists ([Show PageConfig
                 (lit "Equity Research " ++ mdash ++ lit " News & Summaries")]
                ++ ev1 ++ ev2), run, [], st1, st2, Rerun.
      split; [cbn [app]; rewrite List.app_nil_r, <- !List.app_assoc; reflexivity |].
      repeat (split; [first [assumption | apply List.Forall_nil | reflexivity | auto] |]).
      right. split; [exact Erun |]. split; [exact Rpre |].
      split; [exists 0%nat; reflexivity | discriminate].
  - injection H as <- <- <-.
    exists ([Show PageConfig
               (lit "Equity Research " ++ mdash ++ lit " News & Summaries")] ++ ev1),
      [], [], st1, st1, (Normal tt).
    split; [cbn [app]; rewrite List.app_nil_r; reflexivity |].
    split; [apply Forall_app; split; [repeat constructor | exact Ch1] |].
    split; [apply List.Forall_nil |].
    split; [unfold load_buttons in *; rewrite collect_app, L1; reflexivity |].
    repeat (split; [first [assumption | reflexivity | auto] |]).
    left. split; [exact Hc |]. split; [eexists; reflexivity |].
    repeat (split; [reflexivity |]).
    split; [unfold recent_options in *; rewrite collect_app, R1; reflexivity |].
    reflexivity.
Qed.

(** Only the handler of a "Load:" button asks for a rerun. *)
Lemma load_loop_rerun i (xs : list (nat * HistoryEntry)) st st' evs :
  for_each xs (load_button i) st = (Rerun, st', evs) ->
  exists n, clicked i = Some (BtnLoad n).
Proof.
  revert st st' evs. induction xs as [|[n h] xs IH]; intros st st' evs H.
  - discriminate H.
  - cbn [for_each] in H. unfold mbind, M_bind in H. unfold load_button at 1 in H.
    unfold button, show, emit, mbind, M_bind, mret, M_ret in H.
    destruct (bool_decide (clicked i = Some (BtnLoad n))) eqn:Hb.
    + exists n. apply bool_decide_eq_true in Hb. exact Hb.
    + cbn in H.
      destruct (for_each xs (load_button i) st) as [[fl st2] ev2] eqn:E.
      injection H as -> <- <-. exact (IH _ _ _ E).
Qed.

Lemma sidebar_history_rerun i st st' evs :
  sidebar_history i st = (Rerun, st', evs) ->
  exists n, clicked i = Some (BtnLoad n).
Proof.
  unfold sidebar_history, get_session. unfold mbind at 1, M_bind at 1.
  destruct (history (session st)) as [[|h0 h]|]; try discriminate.
  unfold show, emit, mbind, M_bind.
  destruct (for_each _ (load_button i) st) as [[fl st2] ev2] eqn:E.
  intros H. cbn in H. injection H as -> <- <-.
  exact (load_loop_rerun _ _ _ _ _ E).
Qed.

Lemma app_rerun i st st' t :
  app i st = (Rerun, st', t) -> exists n, clicked i = Some (BtnLoad n).
Proof.
  intros H. unfold app, show, emit in H. unfold mbind, M_bind in H.
  destruct (sidebar_controls_spec i st)
    as (fl1 & st1 & ev1 & E1 & _ & _ & _ & _ & Hfl1).
  rewrite E1 in H.
  destruct Hfl1 as [-> | (_ & e & ->)]; [| discriminate H].
  cbn beta iota zeta in H.
  destruct (top_row_spec st1) as (ev2 & E2 & _). rewrite E2 in H.
  destruct (run_flow (query i) (max_articles i)
              (bool_decide (clicked i = Some BtnRun)) st1)
    as [[fl2 st2] run] eqn:Erun.
  assert (Hfl2 : fl2 <> Rerun).
  { destruct (bool_decide (clicked i = Some BtnRun)).
    - destruct (run_flow_digest _ _ _ _ _ _ Erun) as (Hd & _).
      inversion Hd; discriminate.
    - rewrite run_flow_not_pressed in Erun. injection Erun as <- _ _. discriminate. }
  destruct fl2 as [[]|e|]; [| discriminate H | congruence].
  destruct (sidebar_history i st2) as [[fl3 st3] ev3] eqn:E3.
  destruct fl3 as [[]|e|]; [| discriminate H |].
  - destruct (developer_tools_spec i st3) as (st4 & ev4 & E4 & _).
    rewrite E4 in H.
    destruct (footer_spec st4) as (ev5 & E5 & _). rewrite E5 in H.
    destruct (debug_dump_spec i st4) as (ev6 & E6 & _). rewrite E6 in H.
    discriminate H.
  - exact (sidebar_history_rerun _ _ _ _ E3).
Qed.

(** ** From the significant events back to the log *)

Lemma significant_In e t : In e t -> significant e = true -> In e (List.filter significant t).
Proof. intros Hin Hs. apply List.filter_In. split; assumption. Qed.

Lemma In_significant e t : In e (List.filter significant t) -> In e t.
Proof. intros H. apply List.filter_In in H. tauto. Qed.

Lemma filter_significant (p : Event -> bool) t :
  (forall e, p e = true -> significant e = true) ->
  List.filter p (List.filter significant t) = List.filter p t.
Proof.
  intros Hp. induction t as [|e t IH]; [reflexivity |].
  cbn. destruct (significant e) eqn:Hs; cbn.
  - rewrite IH. reflexivity.
  - destruct (p e) eqn:Hpe; [rewrite (Hp e Hpe) in Hs; discriminate | exact IH].
Qed.

Lemma shown_significant t :
  shown_summaries (List.filter significant t) = shown_summaries t.
Proof.
  unfold shown_summaries. induction t as [|e t IH]; [reflexivity |].
  cbn. destruct e as [[] ?| | | | | | | | | | |]; cbn; rewrite ?IH; reflexivity.
Qed.

Lemma order_significant seen t :
  fetch_before_summary seen (List.filter significant t) = fetch_before_summary seen t.
Proof.
  revert seen. induction t as [|e t IH]; intros seen; [reflexivity |].
  cbn. destruct e as [[] ?| | | | | | | | | | |]; cbn;
    rewrite ?orb_false_r, ?IH; reflexivity.
Qed.

Lemma quiet_significant t :
  Forall (fun e => quiet e = true) (List.filter significant t) ->
  Forall (fun e => quiet e = true) t.
Proof.
  induction t as [|e t IH]; intros H; [constructor |].
  cbn in H. destruct (significant e) eqn:Hs.
  - inversion H; subst. constructor; [assumption | apply IH; assumption].
  - constructor; [| apply IH; exact H].
    destruct e as [[] ?| | | | | | | | | | |]; cbn in Hs |- *;
      first [reflexivity | discriminate].
Qed.

Lemma anatomy_significant pre run post :
  Forall chrome pre -> Forall chrome post ->
  List.filter significant (pre ++ run ++ post) = List.filter significant run.
Proof.
  intros Hpre Hpost. rewrite !List.filter_app.
  rewrite (chrome_significant _ Hpre), (chrome_significant _ Hpost).
  rewrite List.app_nil_r. reflexivity.
Qed.

(** ** What one execution does *)

Lemma run_app_eq i s c w fl st' t :
  app i (mkStore s c w) = (fl, st', t) ->
  run_app i s c w
  = {| ending := fl; session_after := session st'; cache_after := cache st';
       world_after := world st'; trace := t |}.
Proof. intros E. unfold run_app. rewrite E. reflexivity. Qed.

(** With the Run button pressed, the significant events of the execution
    are those of the run flow. *)
Lemma run_pressed_flow i s c w :
  clicked i = Some BtnRun ->
  exists st2 fl2 run,
    run_flow (query i) (max_articles i) true
      (mkStore {| history := history s; query_input := Some (query i) |} c w)
    = (fl2, st2, run)
    /\ List.filter significant (trace (run_app i s c w)) = List.filter significant run
    /\ history (session_after (run_app i s c w)) = history (session st2)
    /\ cache_after (run_app i s c w) = cache st2.
Proof.
  intros Hc.
  destruct (app i (mkStore s c w)) as [[fl st'] t] eqn:E.
  rewrite (run_app_eq _ _ _ _ _ _ _ E). cbn [trace session_after cache_after].
  destruct (app_anatomy _ _ _ _ _ E)
    as (pre & run & post & st1 & st2 & fl2 & -> & Hpre & Hpost & _ & _
        & S1 & _ & C1 & Hh & _ & C2 & [(Hc' & _) | (Erun & _)]);
    [congruence |].
  rewrite (anatomy_significant _ _ _ Hpre Hpost).
  rewrite Hc, bool_decide_eq_true_2 in Erun by reflexivity.
  destruct C1 as [C1 W1]; [congruence |]. cbn in S1, C1, W1.
  assert (Hst1 : st1 = mkStore {| history := history s; query_input := Some (query i) |}
                         c w) by (destruct st1; cbn in *; congruence).
  subst st1.
  exists st2, fl2, run. split; [exact Erun |]. split; [reflexivity |].
  split; [exact Hh | apply C2; congruence].
Qed.

Lemma run_pressed i s c w :
  clicked i = Some BtnRun ->
  exists st2 fl2,
    digest (query i) (max_articles i)
      (mkStore {| history := history s; query_input := Some (query i) |} c w)
      st2 fl2 (List.filter significant (trace (run_app i s c w)))
    /\ history (session_after (run_app i s c w)) = history (session st2)
    /\ cache_after (run_app i s c w) = cache st2.
Proof.
  intros Hc.
  destruct (run_pressed_flow i s c w Hc) as (st2 & fl2 & run & Erun & -> & Hh & Hcache).
  exists st2, fl2. split; [apply (run_flow_digest _ _ _ _ _ _ Erun) |].
  split; assumption.
Qed.

(** Without it, there is none, and the history is what it was. *)
Lemma run_not_pressed i s c w :
  clicked i <> Some BtnRun ->
  List.filter significant (trace (run_app i s c w)) = []
  /\ history (session_after (run_app i s c w)) = history s
  /\ (cache_after (run_app i s c w) = c \/ cache_after (run_app i s c w) = ∅).
Proof.
  intros Hc.
  destruct (app i (mkStore s c w)) as [[fl st'] t] eqn:E.
  rewrite (run_app_eq _ _ _ _ _ _ _ E). cbn [trace session_after cache_after].
  destruct (app_anatomy _ _ _ _ _ E)
    as (pre & run & post & st1 & st2 & fl2 & -> & Hpre & Hpost & _ & _
        & S1 & C1 & _ & Hh & C2 & _ & [(_ & _ & -> & _ & _ & ->) | (Erun & _)]).
  - rewrite (anatomy_significant _ _ _ Hpre Hpost).
    split; [reflexivity |]. rewrite Hh, S1. split; [reflexivity |].
    cbn in C1. destruct C2 as [-> | ->]; auto.
  - rewrite bool_decide_eq_false_2, run_flow_not_pressed in Erun by exact Hc.
    injection Erun as <- <- <-.
    rewrite (anatomy_significant _ _ _ Hpre Hpost).
    split; [reflexivity |]. rewrite Hh, S1. split; [reflexivity |].
    cbn in C1. destruct C2 as [-> | ->]; auto.
Qed.

(** The history after an execution: what it was, or one record more. *)
Lemma run_history i s c w :
  (shown_summaries (trace (run_app i s c w)) = []
   /\ history (session_after (run_app i s c w)) = history s)
  \/ (exists sm,
        shown_summaries (trace (run_app i s c w)) = [sm]
        /\ history (session_after (run_app i s c w))
           = Some ({| entry_query := query i; entry_summary := sm |} :: hist s)).
Proof.
  rewrite <- shown_significant.
  destruct (decide (clicked i = Some BtnRun)) as [Hc | Hc].
  - destruct (run_pressed i s c w Hc) as (st2 & fl2 & Hd & -> & _).
    inversion Hd; subst; unfold kept, saved in *;
      repeat match goal with H : _ /\ _ |- _ => destruct H end;
      cbn;
      first [ left; split; [reflexivity |]
            | right; eexists; split; [reflexivity |] ];
      first [ reflexivity
            | match goal with H : session _ = _ |- _ => rewrite H end; reflexivity ].
  - destruct (run_not_pressed i s c w Hc) as (-> & Hh & _).
    left. split; [reflexivity | exact Hh].
Qed.

(** ** The properties of the page *)

(** C5: on an interaction in which the Run button was not pressed, the
    script invokes neither [get_news_articles] nor the summarization
    wrapper [get_summary_cached_ui] nor, through it,
    [get_summary_cached_module]. *)
Theorem no_run_no_fetch_no_summary i s c w :
  clicked i <> Some BtnRun ->
  Forall (fun e => is_fetch_call e = false
                   /\ is_summary_call e = false
                   /\ is_module_summary_call e = false)
         (trace (run_app i s c w)).
Proof.
  intros Hc. destruct (run_not_pressed i s c w Hc) as (Hsig & _).
  assert (Hq : Forall (fun e => quiet e = true) (trace (run_app i s c w))).
  { apply quiet_significant. rewrite Hsig. constructor. }
  revert Hq. apply List.Forall_impl. intros e. unfold quiet.
  destruct (is_fetch_call e), (is_summary_call e), (is_module_summary_call e);
    cbn; intros He; try discriminate He; repeat split.
Qed.

(** C9: when the Run button is pressed with an empty or white-space-only
    query, the warning is shown, nothing is fetched or summarized, and the
    history is left as it was. *)
Theorem blank_query_warns_only i s c w :
  clicked i = Some BtnRun ->
  Forall (fun ch => py_isspace ch = true) (query i) ->
  In (Show WarnEmptyQuery (lit "Please enter a non-empty query in the sidebar."))
     (trace (run_app i s c w))
  /\ Forall (fun e => is_fetch_call e = false
                      /\ is_summary_call e = false
                      /\ is_module_summary_call e = false)
            (trace (run_app i s c w))
  /\ history (session_after (run_app i s c w)) = history s.
Proof.
  intros Hc Hq.
  destruct (run_pressed_flow i s c w Hc) as (st2 & fl2 & run & Erun & Hsig & Hh & _).
  assert (Hblank : negb (str_truthy (query i)) || negb (str_truthy (strip (query i)))
                   = true).
  { rewrite (strip_spaces _ Hq). cbn. apply orb_true_r. }
  rewrite (run_flow_blank _ _ _ Hblank) in Erun. injection Erun as <- <- <-.
  cbn in Hsig, Hh.
  split; [apply In_significant; rewrite Hsig; left; reflexivity |].
  split; [| exact Hh].
  assert (Hq' : Forall (fun e => quiet e = true) (trace (run_app i s c w))).
  { apply quiet_significant. rewrite Hsig. repeat constructor. }
  revert Hq'. apply List.Forall_impl. intros e. unfold quiet.
  destruct (is_fetch_call e), (is_summary_call e), (is_module_summary_call e);
    cbn; intros He; try discriminate He; repeat split.
Qed.

(** A fetch or a summarization logged as raising comes with its error
    message, and with the history as it was. *)
Lemma failed_call_reported i s c w :
  (forall q m e,
      In (Called_get_news_articles q m (Raise e)) (trace (run_app i s c w)) ->
      In (Show ErrFetch (lit "Failed to fetch articles: " ++ exc_str e))
         (trace (run_app i s c w))
      /\ history (session_after (run_app i s c w)) = history s)
  /\ (forall q m ttl e,
        In (Called_get_summary_cached_ui q m ttl (Raise e)) (trace (run_app i s c w)) ->
        In (Show ErrSummary (lit "Error during summarization: " ++ exc_str e))
           (trace (run_app i s c w))
        /\ history (session_after (run_app i s c w)) = history s).
Proof.
  destruct (decide (clicked i = Some BtnRun)) as [Hc | Hc].
  - destruct (run_pressed i s c w Hc) as (st2 & fl2 & Hd & Hh & _).
    split; intros; match goal with
      | H : In _ (trace _) |- _ => apply significant_In in H; [| reflexivity]
      end.
    all: inversion Hd; subst; unfold kept, saved in *;
      repeat match goal with H : _ /\ _ |- _ => destruct H end;
      match goal with
      | Hsig : _ = List.filter significant _, H : In _ (List.filter significant _) |- _ =>
          rewrite <- Hsig in H; in_split H
      end.
    all: (split; [apply In_significant;
                  match goal with
                  | Hsig : _ = List.filter significant _ |- _ => rewrite <- Hsig
                  end; in_solve
                | rewrite Hh;
                  match goal with H : session _ = _ |- _ => rewrite H end;
                  reflexivity]).
  - destruct (run_not_pressed i s c w Hc) as (Hsig & _).
    split; intros; match goal with
      | H : In _ (trace _) |- _ =>
          apply significant_In in H; [| reflexivity]; rewrite Hsig in H; destruct H
      end.
Qed.

(** C1: a successful run (Run pressed with a non-empty query, a fetch that
    returned a non-empty list, a summarization that returned a non-empty
    summary) puts exactly one record, holding that query and that summary,
    in front of the session history. *)
Theorem successful_run_prepends_record i s c w q1 m1 a l q2 m2 ttl sm :
  clicked i = Some BtnRun ->
  query i <> [] ->
  In (Called_get_news_articles q1 m1 (Ok (a :: l))) (trace (run_app i s c w)) ->
  In (Called_get_summary_cached_ui q2 m2 ttl (Ok sm)) (trace (run_app i s c w)) ->
  sm <> [] ->
  history (session_after (run_app i s c w))
  = Some ({| entry_query := query i; entry_summary := sm |} :: hist s).
Proof.
  intros Hc _ Hf Hs Hsm.
  destruct (run_pressed i s c w Hc) as (st2 & fl2 & Hd & Hh & _).
  apply significant_In in Hf; [| reflexivity].
  apply significant_In in Hs; [| reflexivity].
  rewrite Hh.
  inversion Hd; subst; unfold kept, saved in *;
    repeat match goal with H : _ /\ _ |- _ => destruct H end;
    match goal with
    | Hsig : _ = List.filter significant _ |- _ => rewrite <- Hsig in Hf, Hs
    end;
    in_split Hf; in_split Hs;
    first [ congruence
          | match goal with H : session _ = _ |- _ => rewrite H end; reflexivity ].
Qed.

(** C7: one execution calls [get_news_articles] at most once and the
    summarization wrapper at most once, and a call of the wrapper comes
    after a call of [get_news_articles]; an execution that ends by asking
    for a rerun made neither call, so the execution that follows it (one
    without a click, see C5) does not add to the count of the
    interaction. *)
Theorem one_fetch_then_one_summary i s c w :
  (length (List.filter is_fetch_call (trace (run_app i s c w))) <= 1)%nat
  /\ (length (List.filter is_summary_call (trace (run_app i s c w))) <= 1)%nat
  /\ (forall t1 e t2,
        trace (run_app i s c w) = t1 ++ e :: t2 ->
        is_summary_call e = true ->
        exists f, In f t1 /\ is_fetch_call f = true)
  /\ (ending (run_app i s c w) = Rerun ->
      List.filter is_fetch_call (trace (run_app i s c w)) = []
      /\ List.filter is_summary_call (trace (run_app i s c w)) = []).
Proof.
  assert (H : (length (List.filter is_fetch_call
                         (List.filter significant (trace (run_app i s c w)))) <= 1)%nat
              /\ (length (List.filter is_summary_call
                            (List.filter significant (trace (run_app i s c w)))) <= 1)%nat
              /\ fetch_before_summary false
                   (List.filter significant (trace (run_app i s c w))) = true).
  { destruct (decide (clicked i = Some BtnRun)) as [Hc | Hc].
    - destruct (run_pressed i s c w Hc) as (st2 & fl2 & Hd & _).
      inversion Hd; subst; cbn; repeat split; lia.
    - destruct (run_not_pressed i s c w Hc) as (-> & _). cbn. repeat split; lia. }
  rewrite !filter_significant, order_significant in H
    by (intros [[] ?| | | | | | | | | | |]; cbn; congruence).
  destruct H as (Hf & Hs & Ho).
  split; [exact Hf |]. split; [exact Hs |].
  split.
  - intros t1 e t2 Heq He.
    destruct (fetch_before_summary_spec _ _ Ho t1 e t2 Heq He) as [Hfalse | Hex];
      [discriminate | exact Hex].
  - intros Hend.
    assert (Hc : clicked i <> Some BtnRun).
    { destruct (app i (mkStore s c w)) as [[fl st'] t] eqn:E.
      rewrite (run_app_eq _ _ _ _ _ _ _ E) in Hend. cbn in Hend. subst fl.
      destruct (app_rerun _ _ _ _ E) as (n & Hn). congruence. }
    destruct (run_not_pressed i s c w Hc) as (Hsig & _).
    rewrite <- (filter_significant is_fetch_call), <- (filter_significant is_summary_call)
      by (intros [[] ?| | | | | | | | | | |]; cbn; congruence).
    rewrite Hsig. split; reflexivity.
Qed.

Lemma run_flow_plain q m b st fl st' evs :
  run_flow q m b st = (fl, st', evs) -> Forall plain evs.
Proof.
  destruct b; intros H.
  - apply (run_flow_digest _ _ _ _ _ _ H).
  - rewrite run_flow_not_pressed in H. injection H as <- <- <-. constructor.
Qed.

Lemma length_load_entries h : length (load_entries h) = length h.
Proof.
  unfold load_entries. generalize (fun (n : nat) (e : HistoryEntry) =>
                                     (n, lit "Load: " ++ entry_query e)).
  induction h as [|e h IH]; intros f; [reflexivity |].
  cbn. f_equal. apply (IH (fun n => f (S n))).
Qed.

(** What an execution shows of the history. *)
Lemma run_widgets i s c w :
  (recent_options (trace (run_app i s c w)) = []
   \/ recent_options (trace (run_app i s c w)) = [map entry_query (take 10 (hist s))])
  /\ (exists k, load_buttons (trace (run_app i s c w))
                = take k (load_entries (take 10 (hist (session_after (run_app i s c w))))))
  /\ (ending (run_app i s c w) = Normal tt ->
      recent_options (trace (run_app i s c w))
      = match hist s with
        | [] => []
        | _ :: _ => [map entry_query (take 10 (hist s))]
        end
      /\ load_buttons (trace (run_app i s c w))
         = load_entries (take 10 (hist (session_after (run_app i s c w))))).
Proof.
  destruct (app i (mkStore s c w)) as [[fl st'] t] eqn:E.
  rewrite (run_app_eq _ _ _ _ _ _ _ E). cbn [trace session_after ending].
  destruct (app_anatomy _ _ _ _ _ E)
    as (pre & run & post & st1 & st2 & fl2 & -> & Hpre & Hpost & Lpre & Rpost
        & _ & _ & _ & Hh & _ & _ & Hcase).
  assert (Hhist : hist (session st') = hist (session st2))
    by (unfold hist; rewrite Hh; reflexivity).
  rewrite Hhist. cbn [session] in Hcase.
  unfold recent_options, load_buttons in *. rewrite !collect_app, Lpre, Rpost.
  destruct Hcase as [(_ & (e & ->) & -> & -> & Rpre & _) | (Erun & Rpre & K & N)].
  - cbn. rewrite Rpre. split; [left; reflexivity |].
    split; [exists 0%nat; reflexivity | discriminate].
  - pose proof (run_flow_plain _ _ _ _ _ _ _ Erun) as Hplain.
    pose proof (plain_recent _ Hplain) as Rrun.
    pose proof (plain_load _ Hplain) as Lrun.
    unfold recent_options, load_buttons in Rrun, Lrun.
    rewrite Rrun, Lrun, Rpre. cbn [app]. rewrite List.app_nil_r.
    split; [destruct (hist s); [left | right]; reflexivity |].
    split; [exact K |].
    intros Hfl. split; [reflexivity | exact (N Hfl)].
Qed.

(** C3: the "Recent queries" selectbox offers the queries of the first ten
    records of the history it finds, and the sidebar renders "Load:"
    buttons for the first ten records of the history, in order; neither
    ever shows more than ten entries. *)
Theorem history_display_capped i s c w :
  (forall opts,
      In opts (recent_options (trace (run_app i s c w))) ->
      opts = map entry_query (take 10 (hist s)) /\ (length opts <= 10)%nat)
  /\ (exists k, load_buttons (trace (run_app i s c w))
                = take k (load_entries
                            (take 10 (hist (session_after (run_app i s c w))))))
  /\ (length (load_buttons (trace (run_app i s c w))) <= 10)%nat
  /\ (ending (run_app i s c w) = Normal tt ->
      recent_options (trace (run_app i s c w))
      = match hist s with
        | [] => []
        | _ :: _ => [map entry_query (take 10 (hist s))]
        end
      /\ load_buttons (trace (run_app i s c w))
         = load_entries (take 10 (hist (session_after (run_app i s c w))))).
Proof.
  destruct (run_widgets i s c w) as (Hr & (k & Hk) & Hn).
  split.
  { intros opts Hin. destruct Hr as [Hr | Hr]; rewrite Hr in Hin; in_split Hin.
    split; [reflexivity |]. rewrite length_map, length_take. lia. }
  split; [exists k; exact Hk |].
  split; [| exact Hn].
  rewrite Hk, length_take, length_load_entries, length_take. lia.
Qed.

(** C2: every execution leaves the history as it was or with one record
    more at its front, so that after any sequence of executions the
    history lists the records of the runs that saved one, latest first. *)
Theorem history_most_recent_first s visits :
  (forall i c w,
      history (session_after (run_app i s c w)) = history s
      \/ exists r, history (session_after (run_app i s c w)) = Some (r :: hist s))
  /\ hist (browse_end s visits) = rev (flat_map saved_by (browse s visits)) ++ hist s.
Proof.
  split.
  { intros i c w. destruct (run_history i s c w) as [(_ & H) | (sm & _ & H)];
      [left; exact H | right; eexists; exact H]. }
  revert s. induction visits as [|v visits IH]; intros s; [reflexivity |].
  cbn [browse_end browse flat_map]. rewrite IH, rev_app_distr, <- List.app_assoc.
  f_equal. unfold saved_by. cbn [fst snd].
  destruct (run_history (visit_inputs v) s (visit_cache v) (visit_world v))
    as [(-> & H) | (sm & -> & H)]; unfold hist; rewrite H; reflexivity.
Qed.

(** A summary the page displays is the value the caching wrapper
    [get_summary_cached_ui] returned for the entered query and the selected
    article count, in a run that fetched at least one article; it is the
    value saved into the history; and it is a value
    [get_summary_cached_module] returned for that query and count, in this
    execution or in the one that filled the cache. *)
Lemma displayed_summary_traced i s c w past :
  cache_sound past c ->
  cache_sound (past ++ trace (run_app i s c w)) (cache_after (run_app i s c w))
  /\ forall sm,
      In (Show SummaryBody sm) (trace (run_app i s c w)) ->
      (exists a l,
          In (Called_get_news_articles (query i) (max_articles i) (Ok (a :: l)))
             (trace (run_app i s c w)))
      /\ In (Called_get_summary_cached_ui (query i) (max_articles i) None (Ok sm))
            (trace (run_app i s c w))
      /\ In (Called_get_summary_cached_module (query i) (max_articles i) (Ok sm))
            (past ++ trace (run_app i s c w))
      /\ history (session_after (run_app i s c w))
         = Some ({| entry_query := query i; entry_summary := sm |} :: hist s).
Proof.
  intros Hsound.
  assert (Hpast : cache_sound (past ++ trace (run_app i s c w)) c).
  { intros q m ttl v stored Hl. apply in_or_app. left. exact (Hsound _ _ _ _ _ Hl). }
  destruct (decide (clicked i = Some BtnRun)) as [Hc | Hc].
  - destruct (run_pressed i s c w Hc) as (st2 & fl2 & Hd & Hh & Hcache).
    rewrite Hcache, Hh.
    assert (Hsig : forall e, In e (List.filter significant (trace (run_app i s c w))) ->
                             In e (past ++ trace (run_app i s c w))).
    { intros e He. apply in_or_app. right. apply In_significant, He. }
    split.
    + inversion Hd; subst; unfold kept, saved in *;
        repeat match goal with H : _ /\ _ |- _ => destruct H end;
        cbn [cache session] in *;
        try match goal with H : cache st2 = _ |- _ => rewrite H end;
        try exact Hpast.
      all: intros q m ttl v' stored' Hl;
        destruct (decide ((query i, max_articles i, @None Z) = (q, m, ttl))) as [Hk | Hk];
        [ rewrite <- Hk, lookup_insert_eq in Hl; injection Hl as <- <-;
          injection Hk as <- <- <-; apply Hsig;
          match goal with H : _ = List.filter significant _ |- _ => rewrite <- H end;
          in_solve
        | rewrite lookup_insert_ne in Hl by exact Hk; exact (Hpast _ _ _ _ _ Hl) ].
    + intros sm Hin. apply significant_In in Hin; [| reflexivity].
      inversion Hd; subst; unfold kept, saved in *;
        repeat match goal with H : _ /\ _ |- _ => destruct H end;
        cbn [cache session] in *;
        match goal with
        | H : _ = List.filter significant _ |- _ =>
            rewrite <- H in Hin; in_split Hin; rename H into Heq
        end.
      all: split; [do 2 eexists; apply In_significant; rewrite <- Heq; in_solve |].
      all: split; [apply In_significant; rewrite <- Heq; in_solve |].
      all: split; [| match goal with H : session _ = _ |- _ => rewrite H end;
                     reflexivity].
      * apply in_or_app. left. eapply Hsound; eassumption.
      * apply Hsig. rewrite <- Heq. in_solve.
  - destruct (run_not_pressed i s c w Hc) as (Hsig & _ & Hcache).
    split.
    + destruct Hcache as [-> | ->]; [exact Hpast |].
      intros q m ttl v stored Hl. rewrite lookup_empty in Hl. discriminate.
    + intros sm Hin. apply significant_In in Hin; [| reflexivity].
      rewrite Hsig in Hin. destruct Hin.
Qed.

(** ** The cache time-to-live *)

Lemma cached_ui_fresh q m ttl st v stored :
  cache st !! (q, m, ttl) = Some (v, stored) ->
  (clock (world st) < stored + 86400)%Z ->
  get_summary_cached_ui q m ttl st
  = (Normal v, st, [Called_get_summary_cached_ui q m ttl (Ok v)]).
Proof.
  intros Hl Hlt. unfold get_summary_cached_ui, st_cache_data. rewrite Hl.
  replace (clock (world st) <? stored + ui_ttl)%Z with true
    by (symmetry; apply Z.ltb_lt; exact Hlt).
  reflexivity.
Qed.

Lemma cached_ui_expired q m ttl st v stored :
  cache st !! (q, m, ttl) = Some (v, stored) ->
  (stored + 86400 <= clock (world st))%Z ->
  snd (get_summary_cached_ui q m ttl st)
  = [Called_get_summary_cached_module q m
       (fst (get_summary_cached_module q m (world st)));
     Called_get_summary_cached_ui q m ttl
       (fst (get_summary_cached_module q m (world st)))].
Proof.
  intros Hl Hge.
  unfold get_summary_cached_ui, st_cache_data, get_summary_cached_ui_body, call_helper.
  rewrite Hl.
  replace (clock (world st) <? stored + ui_ttl)%Z with false
    by (symmetry; apply Z.ltb_ge; exact Hge).
  destruct (get_summary_cached_module q m (world st)) as [[v'|e] w']; reflexivity.
Qed.

(** C10: the value of the "Cache TTL (minutes)" input changes nothing: two
    executions that differ in it alone have the same outcome (calls,
    display, history, cache); the wrapper's body ignores [ttl_override];
    and the wrapper's time-to-live is 24 hours whatever the input says. *)
Theorem cache_ttl_input_has_no_effect i s c w x :
  run_app (with_cache_ttl_minutes x i) s c w = run_app i s c w
  /\ (forall q m o1 o2,
        get_summary_cached_ui_body q m o1 = get_summary_cached_ui_body q m o2)
  /\ ui_ttl = 86400%Z
  /\ (forall q m ttl st v stored,
        cache st !! (q, m, ttl) = Some (v, stored) ->
        ((clock (world st) < stored + 86400)%Z ->
         get_summary_cached_ui q m ttl st
         = (Normal v, st, [Called_get_summary_cached_ui q m ttl (Ok v)]))
        /\ ((stored + 86400 <= clock (world st))%Z ->
            snd (get_summary_cached_ui q m ttl st)
            = [Called_get_summary_cached_module q m
                 (fst (get_summary_cached_module q m (world st)));
               Called_get_summary_cached_ui q m ttl
                 (fst (get_summary_cached_module q m (world st)))])).
Proof.
  split; [reflexivity |].
  split; [reflexivity |].
  split; [reflexivity |].
  intros q m ttl st v stored Hl.
  split; [apply cached_ui_fresh | apply (cached_ui_expired _ _ _ _ v)]; exact Hl.
Qed.

(** ** The buttons and their handlers *)

Lemma button_other_click n i b :
  b <> BtnLoad n ->
  button (with_clicked (Some (BtnLoad n)) i) b = button (with_clicked None i) b.
Proof.
  intros Hb. unfold button. cbn [clicked with_clicked].
  rewrite (bool_decide_eq_false_2 (Some (BtnLoad n) = Some b)) by congruence.
  rewrite (bool_decide_eq_false_2 (None = Some b)) by congruence.
  reflexivity.
Qed.

Lemma for_each_ext {A} (xs : list A) (f g : A -> M unit) :
  (forall x, In x xs -> f x = g x) -> for_each xs f = for_each xs g.
Proof.
  induction xs as [|x xs IH]; intros H; [reflexivity |].
  cbn [for_each]. rewrite (H x) by (left; reflexivity).
  rewrite IH by (intros y Hy; apply H; right; exact Hy). reflexivity.
Qed.

Lemma imap_index_bound {A} (l : list A) (f : nat -> nat) k (p : nat * A) :
  (forall n, (n < length l)%nat -> (f n < k)%nat) ->
  In p (imap (fun n a => (f n, a)) l) -> (fst p < k)%nat.
Proof.
  revert f. induction l as [|a l IH]; intros f Hf Hin; [destruct Hin |].
  cbn in Hin. destruct Hin as [<- | Hin].
  - cbn. apply Hf. cbn. lia.
  - apply (IH (fun n => f (S n))); [| exact Hin].
    intros n Hn. apply Hf. cbn. lia.
Qed.

Lemma bind_ext {A B} (m m' : M A) (f g : A -> M B) st :
  m st = m' st -> (forall a st', f a st' = g a st') -> (m ≫= f) st = (m' ≫= g) st.
Proof.
  intros Hm H. unfold mbind, M_bind. rewrite Hm.
  destruct (m' st) as [[[a|e|] st'] t]; [rewrite H | |]; reflexivity.
Qed.

Lemma sidebar_controls_other_click n i :
  sidebar_controls (with_clicked (Some (BtnLoad n)) i)
  = sidebar_controls (with_clicked None i).
Proof.
  unfold sidebar_controls, text_input. cbn [query max_articles with_clicked].
  rewrite !(button_other_click n i) by discriminate. reflexivity.
Qed.

Lemma developer_tools_other_click n i :
  developer_tools (with_clicked (Some (BtnLoad n)) i)
  = developer_tools (with_clicked None i).
Proof.
  unfold developer_tools.
  rewrite !(button_other_click n i) by discriminate. reflexivity.
Qed.

Lemma load_button_other_click n i (x : nat * HistoryEntry) :
  fst x <> n ->
  load_button (with_clicked (Some (BtnLoad n)) i) x
  = load_button (with_clicked None i) x.
Proof.
  destruct x as [k h]. cbn [fst]. intros Hk. unfold load_button.
  rewrite (button_other_click n i) by congruence. reflexivity.
Qed.

Lemma sidebar_history_other_click n i st :
  (10 <= n)%nat ->
  sidebar_history (with_clicked (Some (BtnLoad n)) i) st
  = sidebar_history (with_clicked None i) st.
Proof.
  intros Hn. unfold sidebar_history. apply bind_ext; [reflexivity |].
  intros s st'. destruct (history s) as [[|h0 h]|]; try reflexivity.
  rewrite (for_each_ext _ (load_button (with_clicked (Some (BtnLoad n)) i))
             (load_button (with_clicked None i))); [reflexivity |].
  intros x Hx. apply load_button_other_click.
  assert (fst x < 10)%nat; [| lia].
  apply (imap_index_bound (take 10 (h0 :: h)) (fun k => k) 10 x); [| exact Hx].
  intros k Hk. rewrite length_take in Hk. lia.
Qed.

(** A click on a "Load:" button that is not rendered changes nothing. *)
Lemma app_other_click n i st :
  (10 <= n)%nat ->
  app (with_clicked (Some (BtnLoad n)) i) st = app (with_clicked None i) st.
Proof.
  intros Hn. unfold app.
  rewrite sidebar_controls_other_click, developer_tools_other_click.
  apply bind_ext; [reflexivity |]. intros _ st1.
  apply bind_ext; [reflexivity |]. intros [[q m] rb] st2.
  apply bind_ext; [reflexivity |]. intros _ st3.
  apply bind_ext; [reflexivity |]. intros _ st4.
  apply bind_ext; [apply sidebar_history_other_click, Hn |]. intros _ st5.
  reflexivity.
Qed.

Lemma unrendered_load_not_handled n : (10 <= n)%nat -> ~ handled (BtnLoad n).
Proof.
  intros Hn (i & s & c & w & Hne). apply Hne. unfold run_app.
  rewrite (app_other_click n i _ Hn). reflexivity.
Qed.

Transparent lit str_of_Z str_of_nat strip concat_text.

Lemma handled_run (w : World) : handled BtnRun.
Proof.
  exists idle, fresh_session, ∅, w. intros H.
  apply (f_equal trace) in H. vm_compute in H. discriminate H.
Qed.

Lemma handled_clear_all (w : World) : handled BtnClearAll.
Proof.
  exists idle, fresh_session, ∅, w. intros H.
  apply (f_equal trace) in H. vm_compute in H.
  destruct (clear_module_cache w) as [[[]|e] w']; discriminate H.
Qed.

Lemma handled_clear_streamlit (w : World) : handled BtnClearStreamlit.
Proof.
  exists idle, fresh_session, ∅, w. intros H.
  apply (f_equal trace) in H. vm_compute in H. discriminate H.
Qed.

Lemma handled_load (w : World) n : (n < 10)%nat -> handled (BtnLoad n).
Proof.
  intros Hn. exists idle, ten_records, ∅, w. intros H.
  apply (f_equal ending) in H.
  do 10 (destruct n as [|n];
         [vm_compute in H; destruct widget_state_writable; discriminate H |]).
  lia.
Qed.

(** C4, as the code has it: the page has four kinds of button-driven
    handlers, not one.  A click changes what the script does exactly for
    the Run button, the "Clear module & streamlit caches" button, the
    "Clear Streamlit cache only" button and the "Load:" buttons of the
    first ten history records. *)
Theorem four_kinds_of_button_handlers (w : World) b :
  handled b
  <-> (b = BtnRun \/ b = BtnClearAll \/ b = BtnClearStreamlit
       \/ exists n, b = BtnLoad n /\ (n < 10)%nat).
Proof.
  split.
  - intros H. destruct b as [| |n|]; auto.
    destruct (le_lt_dec 10 n) as [Hn | Hn].
    + destruct (unrendered_load_not_handled n Hn H).
    + right; right; right. exists n. split; [reflexivity | exact Hn].
  - intros [-> | [-> | [-> | (n & -> & Hn)]]].
    + apply handled_run, w.
    + apply handled_clear_all, w.
    + apply handled_clear_streamlit, w.
    + apply handled_load; [exact w | exact Hn].
Qed.

(** ** The helper functions of the file on their own *)

Transparent lit str_of_Z str_of_nat strip concat_text.

(** X1: [pretty_article_card] fails exactly when the article's "source" is
    a true value that is not a dictionary (it has no [get]); a missing
    title, URL, date or description, or a date that cannot be parsed,
    never makes it fail. *)
Theorem pretty_article_card_fails_iff (a : Article) :
  (exists e, pretty_article_card a = Raise e)
  <-> (truthy (dict_get (lit "source") a) = true
       /\ forall d, dict_get (lit "source") a <> PDict d).
Proof.
  unfold pretty_article_card.
  destruct (dict_get (lit "source") a) as [|b|z|s|l|d] eqn:Hs; cbn [truthy val_get].
  all: try (destruct (truthy _) eqn:Ht).
  all: cbn [mbind Result_bind].
  all: split; [intros [e He] | intros [Ht' Hd]].
  all: repeat match goal with
         | H : context [if ?c then _ else _] |- _ => destruct c
         | |- context [if ?c then _ else _] => destruct c
         end.
  all: try discriminate.
  all: try (split; [reflexivity | intros d'; discriminate]).
  all: try (eexists; reflexivity).
  all: try (exfalso; eapply Hd; reflexivity).
Qed.

Lemma concat_part_clean a :
  clean_article a = true ->
  concat_part a
  = Ok (text_of (py_or (dict_get (lit "title") a) (PStr []))
          ++ (lit " " ++ mdash ++ lit " ")
          ++ text_of (py_or (dict_get (lit "description") a) (PStr []))).
Proof.
  unfold clean_article, concat_part, is_text, py_or. intros H.
  apply andb_true_iff in H as [Ht Hd].
  destruct (dict_get (lit "title") a) as [|b|z|s|l|d];
    destruct (dict_get (lit "description") a) as [|b'|z'|s'|l'|d'];
    cbn in Ht, Hd |- *;
    repeat match goal with
      | |- context [if ?c then _ else _] => destruct c eqn:?
      end;
    cbn in *; try discriminate; rewrite <- ?List.app_assoc; reflexivity.
Qed.

Lemma concat_part_dirty a :
  clean_article a = false -> exists msg, concat_part a = Raise (TypeError msg).
Proof.
  unfold clean_article, concat_part, is_text, py_or. intros H.
  destruct (dict_get (lit "title") a) as [|[]|z|s|[|? ?]|[|? ?]];
    destruct (dict_get (lit "description") a) as [|[]|z'|s'|[|? ?]|[|? ?]];
    cbn [truthy negb orb andb str_truthy] in H |- *;
    try discriminate H;
    try (destruct (z =? 0)%Z; cbn [negb orb andb] in H |- *; try discriminate H);
    try (destruct (z' =? 0)%Z; cbn [negb orb andb] in H |- *; try discriminate H);
    try (destruct s; cbn [negb orb andb str_truthy] in H |- *; try discriminate H);
    try (destruct s'; cbn [negb orb andb str_truthy] in H |- *; try discriminate H);
    cbn; eexists; reflexivity.
Qed.

(** X2: [concat_text] (lines 136-138) joins, with a blank line between
    them, one "title — description" line per article, a missing or false
    title or description counting as empty; it raises a [TypeError], from
    the first offending article, as soon as a title or a description is a
    true value that is not a string. *)
Theorem concat_text_spec (articles : list Article) :
  (forallb clean_article articles = true ->
   concat_text articles
   = Ok (join (newline ++ newline)
           (map (fun a =>
                   text_of (py_or (dict_get (lit "title") a) (PStr []))
                     ++ (lit " " ++ mdash ++ lit " ")
                     ++ text_of (py_or (dict_get (lit "description") a) (PStr [])))
                articles)))
  /\ (forallb clean_article articles = false ->
      exists k a,
        articles !! k = Some a
        /\ forallb clean_article (take k articles) = true
        /\ clean_article a = false
        /\ concat_text articles = concat_part a
        /\ exists msg, concat_part a = Raise (TypeError msg)).
Proof.
  unfold concat_text.
  assert (Hgood : forall l, forallb clean_article l = true ->
            concat_parts l
            = Ok (map (fun a =>
                   text_of (py_or (dict_get (lit "title") a) (PStr []))
                     ++ (lit " " ++ mdash ++ lit " ")
                     ++ text_of (py_or (dict_get (lit "description") a) (PStr [])))
                l)).
  { induction l as [|a l IH]; [reflexivity |]. cbn [forallb]. intros H.
    apply andb_true_iff in H as [Ha Hl].
    cbn [concat_parts map]. rewrite (concat_part_clean a Ha), (IH Hl). reflexivity. }
  split.
  - intros H. rewrite (Hgood _ H). reflexivity.
  - induction articles as [|a l IH]; [discriminate |].
    cbn [forallb]. intros H.
    destruct (clean_article a) eqn:Ha.
    + cbn in H. destruct (IH H) as (k & b & Hk & Ht & Hb & Hc & msg & Hm).
      exists (S k), b. split; [exact Hk |].
      split; [cbn; rewrite Ha, Ht; reflexivity |].
      split; [exact Hb |].
      split; [| exists msg; exact Hm].
      cbn [concat_parts]. rewrite (concat_part_clean a Ha).
      cbn [mbind Result_bind] in Hc |- *. rewrite Hm in Hc |- *.
      destruct (concat_parts l); cbn in Hc |- *; [discriminate Hc | exact Hc].
    + destruct (concat_part_dirty a Ha) as (msg & Hm).
      exists 0%nat, a. split; [reflexivity |]. split; [reflexivity |].
      split; [exact Ha |]. split; [| exists msg; exact Hm].
      cbn [concat_parts]. rewrite Hm. reflexivity.
Qed.

(** ** The cached wrapper *)


(** X4: a call of [get_summary_cached_ui] never touches the session, never
    changes the cache under other arguments than its own, and stores
    nothing when it raises: a failed summarization is tried again by the
    next call. *)
Theorem cached_wrapper_frame q m ttl st fl st' t :
  get_summary_cached_ui q m ttl st = (fl, st', t) ->
  session st' = session st
  /\ (forall k, k <> (q, m, ttl) -> cache st' !! k = cache st !! k)
  /\ (forall e, fl = Raised e ->
      cache st' = cache st
      /\ t = [Called_get_summary_cached_module q m (Raise e);
              Called_get_summary_cached_ui q m ttl (Raise e)])
  /\ fl <> Rerun.
Proof.
  intros H.
  unfold get_summary_cached_ui, st_cache_data, get_summary_cached_ui_body,
    call_helper in H.
  destruct (cache st !! (q, m, ttl)) as [[v0 stored0]|] eqn:Hl;
    [destruct (clock (world st) <? stored0 + ui_ttl)%Z |];
    try (destruct (get_summary_cached_module q m (world st)) as [[v1|e1] w1]);
    injection H as <- <- <-; cbn.
  all: split; [reflexivity |].
  all: split; [intros k Hk; try reflexivity; apply lookup_insert_ne; congruence |].
  all: split; [| discriminate].
  all: intros e He; try discriminate He.
  all: injection He as <-; split; reflexivity.
Qed.

(** ** The card grid *)

Lemma show_cards_rows articles :
  show_cards articles
  = for_each (py_range 0 (Nat.min (length articles) 30) 2) (card_row articles).
Proof. reflexivity. Qed.

Lemma card_row_first_fails articles k a e st :
  articles !! k = Some a -> pretty_article_card a = Raise e ->
  card_row articles k st = (Raised e, st, [Show CardColumns []]).
Proof.
  intros Hk Ha. apply lookup_lt_Some in Hk as Hlt.
  unfold card_row, show, emit, mbind, M_bind. cbn [seq for_break].
  unfold mbind, M_bind. rewrite Nat.add_0_r.
  replace (length articles <=? k)%nat with false
    by (symmetry; apply Nat.leb_gt; exact Hlt).
  unfold index. rewrite Hk. cbn -[pretty_article_card]. rewrite Ha. reflexivity.
Qed.

Lemma card_row_single articles k a c st :
  articles !! k = Some a -> pretty_article_card a = Ok c ->
  (length articles <= S k)%nat ->
  card_row articles k st = (Normal tt, st, [Show CardColumns []; Show Card c]).
Proof.
  intros Hk Ha Hlen. apply lookup_lt_Some in Hk as Hlt.
  unfold card_row, show, emit, mbind, M_bind. cbn [seq for_break].
  unfold mbind, M_bind. rewrite Nat.add_0_r, Nat.add_1_r.
  replace (length articles <=? k)%nat with false
    by (symmetry; apply Nat.leb_gt; exact Hlt).
  replace (length articles <=? S k)%nat with true
    by (symmetry; apply Nat.leb_le; exact Hlen).
  unfold index. rewrite Hk. cbn -[pretty_article_card]. rewrite Ha. reflexivity.
Qed.

Lemma card_row_second_fails articles k a c b e st :
  articles !! k = Some a -> pretty_article_card a = Ok c ->
  articles !! S k = Some b -> pretty_article_card b = Raise e ->
  card_row articles k st = (Raised e, st, [Show CardColumns []; Show Card c]).
Proof.
  intros Hk Ha Hk' Hb.
  apply lookup_lt_Some in Hk as Hlt. apply lookup_lt_Some in Hk' as Hlt'.
  unfold card_row, show, emit, mbind, M_bind. cbn [seq for_break].
  unfold mbind, M_bind. rewrite Nat.add_0_r, Nat.add_1_r.
  replace (length articles <=? k)%nat with false
    by (symmetry; apply Nat.leb_gt; exact Hlt).
  replace (length articles <=? S k)%nat with false
    by (symmetry; apply Nat.leb_gt; exact Hlt').
  unfold index. rewrite Hk. cbn -[pretty_article_card]. rewrite Ha.
  cbn -[pretty_article_card]. rewrite Hk'. cbn -[pretty_article_card].
  rewrite Hb. reflexivity.
Qed.

Lemma card_row_pair articles k a c b c' st :
  articles !! k = Some a -> pretty_article_card a = Ok c ->
  articles !! S k = Some b -> pretty_article_card b = Ok c' ->
  card_row articles k st
  = (Normal tt, st, [Show CardColumns []; Show Card c; Show Card c']).
Proof.
  intros Hk Ha Hk' Hb.
  apply lookup_lt_Some in Hk as Hlt. apply lookup_lt_Some in Hk' as Hlt'.
  unfold card_row, show, emit, mbind, M_bind. cbn [seq for_break].
  unfold mbind, M_bind. rewrite Nat.add_0_r, Nat.add_1_r.
  replace (length articles <=? k)%nat with false
    by (symmetry; apply Nat.leb_gt; exact Hlt).
  replace (length articles <=? S k)%nat with false
    by (symmetry; apply Nat.leb_gt; exact Hlt').
  unfold index. rewrite Hk. cbn -[pretty_article_card]. rewrite Ha.
  cbn -[pretty_article_card]. rewrite Hk'. cbn -[pretty_article_card].
  rewrite Hb. reflexivity.
Qed.

(** The loop over the row indices does what [render_rows] says of the
    articles from the current row on. *)
Lemma card_rows_from articles st fuel :
  forall j,
    (Nat.min (length articles) 30 <= 2 * j + 2 * fuel)%nat ->
    for_each (range_from fuel (2 * j) (Nat.min (length articles) 30) 2)
             (card_row articles) st
    = (flow_of (snd (render_rows (drop (2 * j) (take 30 articles)))), st,
       fst (render_rows (drop (2 * j) (take 30 articles)))).
Proof.
  induction fuel as [|fuel IH]; intros j Hfuel.
  - cbn [range_from for_each].
    rewrite drop_ge by (rewrite length_take; lia). reflexivity.
  - cbn [range_from].
    destruct (2 * j <? Nat.min (length articles) 30)%nat eqn:Hlt.
    + apply Nat.ltb_lt in Hlt.
      assert (Hk : is_Some (take 30 articles !! (2 * j)))
        by (apply lookup_lt_is_Some; rewrite length_take; lia).
      destruct Hk as [a Ha].
      rewrite (drop_S _ _ _ Ha).
      assert (Ha' : articles !! (2 * j) = Some a)
        by (rewrite lookup_take_lt in Ha by lia; exact Ha).
      cbn [for_each render_rows]. unfold mbind, M_bind.
      destruct (pretty_article_card a) as [c|e] eqn:Hc.
      * destruct (drop (S (2 * j)) (take 30 articles)) as [|b rest] eqn:Hdrop.
        -- assert (Hlen : (length articles <= S (2 * j))%nat).
           { apply (f_equal length) in Hdrop. rewrite length_drop, length_take in Hdrop.
             cbn [length] in Hdrop. lia. }
           rewrite (card_row_single _ _ _ _ _ Ha' Hc Hlen).
           replace (2 * j + 2)%nat with (2 * S j)%nat by lia.
           rewrite IH by lia.
           rewrite drop_ge by (rewrite length_take; lia). reflexivity.
        -- assert (Hb : take 30 articles !! S (2 * j) = Some b).
           { rewrite <- (Nat.add_0_r (S (2 * j))), <- lookup_drop, Hdrop. reflexivity. }
           assert (Hb' : articles !! S (2 * j) = Some b).
           { apply lookup_lt_Some in Hb as Hlt'. rewrite length_take in Hlt'.
             rewrite lookup_take_lt in Hb by lia. exact Hb. }
           assert (Hrest : rest = drop (2 * S j) (take 30 articles)).
           { replace (2 * S j)%nat with (S (S (2 * j))) by lia.
             rewrite (drop_S _ _ _ Hb) in Hdrop. congruence. }
           destruct (pretty_article_card b) as [c'|e] eqn:Hc'.
           ++ rewrite (card_row_pair _ _ _ _ _ _ _ Ha' Hc Hb' Hc').
              replace (2 * j + 2)%nat with (2 * S j)%nat by lia.
              rewrite IH by lia. rewrite <- Hrest.
              destruct (render_rows rest) as [evs r]. reflexivity.
           ++ rewrite (card_row_second_fails _ _ _ _ _ _ _ Ha' Hc Hb' Hc').
              reflexivity.
      * rewrite (card_row_first_fails _ _ _ _ _ Ha' Hc). reflexivity.
    + apply Nat.ltb_ge in Hlt. cbn [for_each].
      rewrite drop_ge by (rewrite length_take; lia). reflexivity.
Qed.

Lemma show_cards_render_rows articles st :
  show_cards articles st
  = (flow_of (snd (render_rows (take 30 articles))), st,
     fst (render_rows (take 30 articles))).
Proof.
  rewrite show_cards_rows. unfold py_range.
  rewrite (card_rows_from articles st _ 0) by lia. reflexivity.
Qed.

Lemma pair_induction {A} (P : list A -> Prop) :
  P [] -> (forall a, P [a]) -> (forall a b l, P l -> P (a :: b :: l)) ->
  forall l, P l.
Proof.
  intros H0 H1 H2.
  assert (H : forall l, P l /\ forall a, P (a :: l)).
  { induction l as [|b l [IH IH']]; [split; [exact H0 | exact H1] |].
    split; [apply IH' | intros a; apply H2, IH]. }
  intros l. apply H.
Qed.

Lemma render_rows_complete l :
  snd (render_rows l) = None ->
  map Ok (card_texts (fst (render_rows l))) = map pretty_article_card l
  /\ length (card_rows (fst (render_rows l))) = Nat.div2 (S (length l)).
Proof.
  induction l as [|a|a b l IH] using pair_induction; cbn [render_rows map length].
  - intros _. split; reflexivity.
  - destruct (pretty_article_card a) as [c|e]; [| discriminate].
    intros _. split; reflexivity.
  - destruct (pretty_article_card a) as [c|e]; [| discriminate].
    destruct (pretty_article_card b) as [c'|e]; [| discriminate].
    destruct (render_rows l) as [evs r]. cbn [fst snd] in *.
    intros Hr. destruct (IH Hr) as [IH1 IH2].
    unfold card_texts, card_rows in *. cbn [collect map length Nat.div2].
    rewrite IH1, IH2. split; reflexivity.
Qed.

Lemma render_rows_stopped l e :
  snd (render_rows l) = Some e ->
  exists k a,
    l !! k = Some a /\ pretty_article_card a = Raise e
    /\ map Ok (card_texts (fst (render_rows l))) = map pretty_article_card (take k l).
Proof.
  induction l as [|a|a b l IH] using pair_induction; cbn [render_rows].
  - discriminate.
  - destruct (pretty_article_card a) as [c|e'] eqn:Ha; [discriminate |].
    intros [= <-]. exists 0%nat, a. repeat split; assumption.
  - destruct (pretty_article_card a) as [c|e'] eqn:Ha.
    + destruct (pretty_article_card b) as [c'|e''] eqn:Hb.
      * destruct (render_rows l) as [evs r]. cbn [fst snd] in *.
        intros Hr. destruct (IH Hr) as (k & x & Hk & Hx & Ht).
        exists (S (S k)), x. split; [exact Hk |]. split; [exact Hx |].
        unfold card_texts in *. cbn [collect map take]. rewrite Ht, Ha, Hb. reflexivity.
      * intros [= <-]. exists 1%nat, b. split; [reflexivity |]. split; [exact Hb |].
        cbn. rewrite Ha. reflexivity.
    + intros [= <-]. exists 0%nat, a. repeat split; assumption.
Qed.

Lemma render_rows_only_cards l : Forall is_card (fst (render_rows l)).
Proof.
  induction l as [|a|a b l IH] using pair_induction; cbn [render_rows].
  - constructor.
  - destruct (pretty_article_card a); repeat constructor.
  - destruct (pretty_article_card a); [| repeat constructor].
    destruct (pretty_article_card b); [| repeat constructor].
    destruct (render_rows l) as [evs r]. cbn [fst] in *.
    repeat (constructor; [exact I |]). exact IH.
Qed.

(** X5: [show_cards] (lines 125-133) leaves the store alone and renders,
    two to a row and in order, the cards of the first 30 articles: all of
    them when every card can be made, and otherwise the cards before the
    first article whose card fails, whose error it then raises. *)
Theorem show_cards_first_thirty (articles : list Article) st :
  snd (fst (show_cards articles st)) = st
  /\ Forall is_card (snd (show_cards articles st))
  /\ match fst (fst (show_cards articles st)) with
     | Normal _ =>
         map Ok (card_texts (snd (show_cards articles st)))
         = map pretty_article_card (take 30 articles)
         /\ length (card_rows (snd (show_cards articles st)))
            = Nat.div2 (S (Nat.min 30 (length articles)))
     | Raised e =>
         exists k a,
           (k < 30)%nat /\ articles !! k = Some a
           /\ pretty_article_card a = Raise e
           /\ map Ok (card_texts (snd (show_cards articles st)))
              = map pretty_article_card (take k articles)
     | Rerun => False
     end.
Proof.
  rewrite show_cards_render_rows. cbn [fst snd].
  split; [reflexivity |]. split; [apply render_rows_only_cards |].
  destruct (snd (render_rows (take 30 articles))) as [e|] eqn:Hr; cbn [flow_of].
  - destruct (render_rows_stopped _ _ Hr) as (k & a & Hk & Ha & Ht).
    apply lookup_lt_Some in Hk as Hlt. rewrite length_take in Hlt.
    exists k, a. split; [lia |].
    split; [rewrite lookup_take_lt in Hk by lia; exact Hk |].
    split; [exact Ha |].
    rewrite Ht, take_take. f_equal. f_equal. lia.
  - destruct (render_rows_complete _ Hr) as [Ht Hn].
    split; [exact Ht |]. rewrite Hn, length_take. reflexivity.
Qed.

(** ** The page around the run flow, click by click *)

Ltac after_solve :=
  repeat first
    [ apply List.Forall_nil
    | apply List.Forall_cons; [first [exact I | reflexivity] |] ].

Lemma sidebar_controls_calm i st :
  clicked i <> Some BtnClearAll ->
  exists ev,
    sidebar_controls i st
    = (Normal (query i, max_articles i, bool_decide (clicked i = Some BtnRun)),
       mkStore {| history := history (session st); query_input := Some (query i) |}
               (cache st) (world st),
       ev)
    /\ Forall before_run ev
    /\ Forall (fun e => is_element e = true) ev.
Proof.
  intros Hc.
  unfold sidebar_controls, text_input, button, cache_data_clear, call_helper,
    show, emit, get_session, put_session, mbind, M_bind, mret, M_ret.
  rewrite (bool_decide_eq_false_2 (clicked i = Some BtnClearAll)) by exact Hc.
  cbn -[lit]. eexists. split; [reflexivity |]. split; after_solve.
Qed.

Lemma sidebar_controls_clear i st :
  clicked i = Some BtnClearAll ->
  exists ev,
    match fst (clear_module_cache (world st)) with
    | Ok _ =>
        sidebar_controls i st
        = (Normal (query i, max_articles i, false),
           mkStore {| history := history (session st);
                      query_input := Some (query i) |}
                   ∅ (snd (clear_module_cache (world st))),
           ev)
        /\ In (Show SbCleared (lit "Cleared caches.")) ev
    | Raise e =>
        sidebar_controls i st
        = (Raised e,
           mkStore {| history := history (session st);
                      query_input := Some (query i) |}
                   ∅ (snd (clear_module_cache (world st))),
           ev)
        /\ (forall x, ~ In (Show SbCleared x) ev)
        /\ (forall x, ~ In (Show MainHeader x) ev)
    end
    /\ Forall before_run ev
    /\ In CacheDataCleared ev
    /\ In (Called_clear_module_cache (fst (clear_module_cache (world st)))) ev.
Proof.
  intros Hc.
  unfold sidebar_controls, text_input, button, cache_data_clear, call_helper,
    show, emit, get_session, put_session, mbind, M_bind, mret, M_ret.
  rewrite Hc.
  rewrite (bool_decide_eq_true_2 (Some BtnClearAll = Some BtnClearAll)) by reflexivity.
  rewrite (bool_decide_eq_false_2 (Some BtnClearAll = Some BtnRun)) by discriminate.
  cbn -[lit].
  destruct (clear_module_cache (world st)) as [[[]|e] w']; cbn -[lit].
  - eexists. split; [split; [reflexivity | in_solve] |].
    split; [after_solve |]. split; in_solve.
  - eexists. split; [split; [reflexivity |] |].
    + split; intros x Hin; in_split Hin.
    + split; [after_solve |]. split; in_solve.
Qed.

Lemma top_row_elements st :
  exists ev,
    top_row st = (Normal tt, st, ev)
    /\ Forall before_run ev
    /\ Forall (fun e => is_element e = true) ev.
Proof.
  unfold top_row, show, emit, get_session, mbind, M_bind, mret, M_ret.
  destruct (history (session st)) as [[|h0 h]|]; cbn -[lit].
  all: eexists; split; [reflexivity |]; split; after_solve.
Qed.

Lemma load_loop_idle i (xs : list (nat * HistoryEntry)) st :
  (forall x, In x xs -> clicked i <> Some (BtnLoad (fst x))) ->
  for_each xs (load_button i) st = (Normal tt, st, map load_event xs).
Proof.
  induction xs as [|[n h] xs IH]; intros Hx; [reflexivity |].
  cbn [for_each]. unfold mbind, M_bind. unfold load_button at 1.
  unfold button, show, emit, mbind, M_bind, mret, M_ret.
  rewrite (bool_decide_eq_false_2 (clicked i = Some (BtnLoad n)))
    by (apply (Hx (n, h)); left; reflexivity).
  cbn -[lit]. rewrite IH by (intros x Hin; apply Hx; right; exact Hin).
  reflexivity.
Qed.

Lemma load_events_after xs : Forall after_run (map load_event xs)
                             /\ Forall (fun e => is_element e = true) (map load_event xs).
Proof.
  induction xs as [|x xs [IH1 IH2]]; [split; constructor |].
  split; constructor; first [exact I | reflexivity | assumption].
Qed.

Lemma load_events_buttons xs : load_buttons (map load_event xs) = map load_label xs.
Proof.
  induction xs as [|x xs IH]; [reflexivity |].
  unfold load_buttons in *. cbn [map collect load_event]. rewrite IH. reflexivity.
Qed.

Lemma imap_pair_lookup {A} (l : list A) (f : nat -> nat) (x : nat * A) :
  In x (imap (fun n a => (f n, a)) l) ->
  exists k, fst x = f k /\ l !! k = Some (snd x).
Proof.
  revert f. induction l as [|a l IH]; intros f Hin; [destruct Hin |].
  cbn in Hin. destruct Hin as [<- | Hin].
  - exists 0%nat. split; reflexivity.
  - destruct (IH (fun n => f (S n)) Hin) as (k & Hk & Hl).
    exists (S k). split; assumption.
Qed.

(** The sidebar history when no rendered "Load:" button was clicked. *)
Lemma sidebar_history_idle i st :
  (forall n, clicked i = Some (BtnLoad n) -> take 10 (hist (session st)) !! n = None) ->
  exists ev,
    sidebar_history i st = (Normal tt, st, ev)
    /\ Forall after_run ev
    /\ Forall (fun e => is_element e = true) ev
    /\ load_buttons ev = load_entries (take 10 (hist (session st))).
Proof.
  intros Hc. unfold sidebar_history, get_session. unfold mbind at 1, M_bind at 1.
  unfold hist in *. destruct (history (session st)) as [[|h0 h]|] eqn:Hh.
  1, 3: exists []; cbn; repeat split; constructor.
  cbn [default] in Hc.
  unfold show, emit, mbind, M_bind.
  rewrite load_loop_idle.
  - eexists. split; [reflexivity |].
    destruct (load_events_after (imap (fun n e => (n, e)) (take 10 (h0 :: h))))
      as [H1 H2].
    split; [do 2 (constructor; [exact I |]); exact H1 |].
    split; [do 2 (constructor; [reflexivity |]); exact H2 |].
    transitivity (load_buttons
                    (map load_event
                       (imap (fun n e => (n, e)) (take 10 (h0 :: h)))));
      [reflexivity |].
    rewrite load_events_buttons. apply (map_load_label (fun n => n)).
  - intros x Hin Hx.
    destruct (imap_pair_lookup _ (fun n => n) _ Hin) as (k & Hk & Hl).
    pose proof (Hc _ Hx) as Hn. unfold id in Hn. rewrite Hk in Hn.
    rewrite Hn in Hl. discriminate Hl.
Qed.

Lemma developer_tools_idle i st :
  clicked i <> Some BtnClearStreamlit ->
  exists ev,
    developer_tools i st = (Normal tt, st, ev)
    /\ Forall after_run ev
    /\ Forall (fun e => is_element e = true) ev.
Proof.
  intros Hc.
  unfold developer_tools, button, try_except, cache_data_clear, show, emit,
    mbind, M_bind, mret, M_ret.
  rewrite (bool_decide_eq_false_2 (clicked i = Some BtnClearStreamlit)) by exact Hc.
  cbn -[lit]. eexists. split; [reflexivity |]. split; after_solve.
Qed.

Lemma developer_tools_clear i st :
  clicked i = Some BtnClearStreamlit ->
  exists ev,
    developer_tools i st = (Normal tt, mkStore (session st) ∅ (world st), ev)
    /\ Forall after_run ev
    /\ In CacheDataCleared ev
    /\ In (Show DevCleared (lit "Cleared Streamlit cache.")) ev.
Proof.
  intros Hc.
  unfold developer_tools, button, try_except, cache_data_clear, show, emit,
    mbind, M_bind, mret, M_ret.
  rewrite (bool_decide_eq_true_2 (clicked i = Some BtnClearStreamlit)) by exact Hc.
  cbn -[lit]. eexists. split; [reflexivity |]. split; [after_solve |].
  split; in_solve.
Qed.

Lemma footer_elements st :
  exists ev,
    footer st = (Normal tt, st, ev)
    /\ Forall after_run ev
    /\ Forall (fun e => is_element e = true) ev.
Proof.
  unfold footer, show, emit, mbind, M_bind. cbn -[lit].
  eexists. split; [reflexivity |]. split; after_solve.
Qed.

Lemma debug_dump_eq i st :
  debug_dump i st = (Normal tt, st, dump_events i (session st)).
Proof.
  unfold debug_dump, dump_events, emit, get_session, mbind, M_bind, mret, M_ret.
  destruct (debug i); reflexivity.
Qed.

(** ** The run flow in detail *)

Opaque lit str_of_Z str_of_nat strip concat_text.

Ltac exec_cards_keep H :=
  match type of H with
  | context [show_cards ?a ?s] =>
      let R := fresh "grid" in
      rewrite (show_cards_render_rows a s) in H;
      pose proof (render_rows_only_cards (take 30 a)) as R;
      destruct (render_rows (take 30 a)) as [? [?|]] eqn:?;
      cbn [fst snd flow_of] in H, R
  end.

Ltac exec_keep H :=
  repeat first
    [ progress exec_unfold H
    | progress cbn -[show_cards take] in H
    | exec_cards_keep H
    | exec_case H ].

Lemma cards_in_run t : Forall is_card t -> Forall in_run t.
Proof. apply List.Forall_impl. intros [[] ?| | | | | | | | | | |]; cbn; tauto. Qed.

Ltac in_run_solve :=
  repeat first
    [ apply List.Forall_nil
    | apply List.Forall_cons; [exact I |]
    | apply Forall_app; split; [apply cards_in_run; assumption |]
    | apply cards_in_run; assumption ].

(** Case analysis of a membership in a log with a card grid inside. *)
Ltac in_split_grid H :=
  repeat match type of H with
    | In _ [] => destruct H
    | In _ (_ :: _) =>
        destruct H as [H|H]; [ try discriminate H; try (inversion H; subst) | ]
    | In _ (_ ++ _) => apply in_app_or in H; destruct H as [H|H]
    | In ?e ?l =>
        match goal with
        | F : Forall is_card l |- _ => apply (In_Forall _ _ _ F) in H; destruct H
        end
    end.

Ltac in_solve_grid :=
  solve [ repeat first [ left; reflexivity | right | apply in_or_app; right ] ].

Lemma run_flow_details q m st fl st' evs :
  run_flow q m true st = (fl, st', evs) ->
  Forall in_run evs
  /\ (forall e, fl = Raised e ->
      exists a l,
        fst (get_news_articles q m (world st)) = Ok (a :: l)
        /\ (snd (render_rows (take 30 (a :: l))) = Some e
            \/ (snd (render_rows (take 30 (a :: l))) = None
                /\ concat_text (a :: l) = Raise e))
        /\ (forall text r, ~ In (Called_estimate_tokens text r) evs))
  /\ (forall text r,
        In (Called_estimate_tokens text r) evs ->
        (exists a l,
            fst (get_news_articles q m (world st)) = Ok (a :: l)
            /\ concat_text (a :: l) = Ok text)
        /\ (exists r', In (Called_get_summary_cached_ui q m None r') evs)
        /\ match r with
           | Ok n =>
               In (Show InfoTokens
                     (lit "Estimated tokens for LLM input (approx): " ++ str_of_Z n))
                  evs
               /\ (In (Show WarnTokens
                         (lit "High token estimate " ++ mdash
                            ++ lit " reduce `max articles` to control cost."))
                      evs
                   <-> (8000 < n)%Z)
           | Raise e =>
               In (Logged (lit "Token estimation failed")) evs
               /\ (forall x, ~ In (Show InfoTokens x) evs)
               /\ (forall x, ~ In (Show WarnTokens x) evs)
           end)
  /\ (forall q' m' r,
        In (Called_get_news_articles q' m' r) evs ->
        (forall a l, r <> Ok (a :: l)) ->
        fl = Normal tt
        /\ In (Show InfoNoArticles
                 (lit "No articles found for this query " ++ mdash
                    ++ lit " try changing the query or increasing 'Max articles'."))
              evs
        /\ (forall text r', ~ In (Called_estimate_tokens text r') evs))
  /\ (negb (str_truthy q) || negb (str_truthy (strip q)) = false ->
      forall a l,
        fst (get_news_articles q m (world st)) = Ok (a :: l) ->
        fl = match snd (render_rows (take 30 (a :: l))) with
             | Some e => Raised e
             | None =>
                 match concat_text (a :: l) with
                 | Raise e => Raised e
                 | Ok _ => Normal tt
                 end
             end).
Proof.
  intros H. unfold run_flow in H. exec_keep H; try congruence.
  all: inversion H; subst; clear H.
  all: split; [in_run_solve |].
  all: split; [intros e' He'; try discriminate He'; injection He' as <- |].
  all: try (do 2 eexists;
            split; [reflexivity |];
            split; [match goal with
                    | E : render_rows _ = _ |- _ => rewrite E
                    end;
                    first [left; reflexivity
                          | right; split; [reflexivity | assumption]] |];
            intros text r Hin; in_split_grid Hin).
  all: split; [| split].
  all: try (intros text r Hin; in_split_grid Hin;
            (split; [do 2 eexists; split; [reflexivity | assumption] |]);
            (split; [eexists; in_solve_grid |]);
            first
              [ split; [in_solve_grid |];
                split; [intros _; apply Z.ltb_lt; assumption | intros _; in_solve_grid]
              | split; [in_solve_grid |];
                split; [intros Hw; in_split_grid Hw | intros Hlt;
                        apply Z.ltb_lt in Hlt; congruence]
              | split; [in_solve_grid |];
                split; intros x Hx; in_split_grid Hx ]).
  all: try (intros q' m' r Hin Hr; in_split_grid Hin;
            first [ exfalso; eapply Hr; reflexivity
                  | split; [reflexivity |]; split; [in_solve_grid |];
                    intros text r' Hx; in_split_grid Hx ]).
  all: intros Hb a' l' E; cbn [fst] in E;
    first [ congruence
          | injection E as <- <-;
            repeat match goal with
              | Eq : render_rows _ = _ |- _ => rewrite Eq
              | Eq : concat_text _ = _ |- _ => rewrite Eq
              end;
            reflexivity ].
Qed.

Lemma run_flow_outcomes q m st fl st' evs :
  run_flow q m true st = (fl, st', evs) ->
  (* the download button *)
  ((forall l d f,
      In (ShowDownload l d f) evs ->
      l = lit "Download summary (txt)" /\ f = lit "summary.txt"
      /\ In (Show SummaryBody d) evs
      /\ In (Show SummaryHeading (lit "## Summary")) evs)
   /\ (forall v,
         In (Show SummaryBody v) evs ->
         In (ShowDownload (lit "Download summary (txt)") v (lit "summary.txt")) evs))
  (* a fetch that fails *)
  /\ (forall q' m' e,
        In (Called_get_news_articles q' m' (Raise e)) evs ->
        In (Show ErrFetch (lit "Failed to fetch articles: " ++ exc_str e)) evs
        /\ In (Logged (lit "NewsAPI fetch failed")) evs)
  /\ (forall q' m' r,
        In (Called_get_news_articles q' m' r) evs ->
        (forall a l, r <> Ok (a :: l)) ->
        forall q2 m2 ttl r', ~ In (Called_get_summary_cached_ui q2 m2 ttl r') evs)
  (* a summarization that fails *)
  /\ (forall q' m' ttl e,
        In (Called_get_summary_cached_ui q' m' ttl (Raise e)) evs ->
        fl = Normal tt
        /\ In (Show ErrSummary (lit "Error during summarization: " ++ exc_str e)) evs
        /\ In (Logged (lit "Summarization error")) evs
        /\ (forall v, ~ In (Show SummaryBody v) evs)
        /\ session st' = session st /\ cache st' = cache st)
  (* the list of articles *)
  /\ (negb (str_truthy q) || negb (str_truthy (strip q)) = false ->
      forall a l,
        fst (get_news_articles q m (world st)) = Ok (a :: l) ->
        In (Show FoundCount
              (lit "Found **" ++ str_of_nat (length (a :: l))
                 ++ lit "** articles for **" ++ q ++ lit "**"))
           evs
        /\ card_texts evs = card_texts (fst (render_rows (take 30 (a :: l)))))
  (* an exception that is not caught *)
  /\ (forall e,
        fl = Raised e ->
        session st' = session st /\ cache st' = cache st
        /\ forall q2 m2 ttl r', ~ In (Called_get_summary_cached_ui q2 m2 ttl r') evs).
Proof.
  intros H. unfold run_flow in H. exec_keep H; try congruence.
  all: inversion H; subst; clear H.
  all: split; [split |].
  all: try (intros lb d f Hin; in_split_grid Hin;
            (split; [reflexivity |]); (split; [reflexivity |]);
            split; in_solve_grid).
  all: try (intros v Hin; in_split_grid Hin; in_solve_grid).
  all: split.
  all: try (intros q' m' e' Hin; in_split_grid Hin; split; in_solve_grid).
  all: split.
  all: try (intros q' m' r Hin Hr; in_split_grid Hin;
            first [ exfalso; eapply Hr; reflexivity
                  | intros q2 m2 ttl r' Hx; in_split_grid Hx ]).
  all: split.
  all: try (intros q' m' ttl e' Hin; in_split_grid Hin;
            (split; [reflexivity |]); (split; [in_solve_grid |]);
            (split; [in_solve_grid |]);
            (split; [intros v Hv; in_split_grid Hv |]);
            split; reflexivity).
  all: split.
  all: try (intros Hb a' l' E; cbn [fst] in E;
            first [ congruence
                  | injection E as <- <-;
                    split; [in_solve_grid |];
                    match goal with
                    | Eq : render_rows _ = _ |- _ => rewrite Eq
                    end;
                    unfold card_texts; cbn [fst];
                    repeat first [rewrite collect_app | progress cbn [collect]];
                    rewrite ?app_nil_r; reflexivity ]).
  all: intros e' He'; try discriminate He';
    (split; [reflexivity |]); (split; [reflexivity |]);
    intros q2 m2 ttl r' Hx; in_split_grid Hx.
Qed.

Transparent lit str_of_Z str_of_nat strip concat_text.

(** ** The page, phase by phase *)

Lemma bind_split {A B} (m : M A) (k : A -> M B) st :
  (m ≫= k) st
  = match m st with
    | (Normal a, st', t) => let '(r, st'', t') := k a st' in (r, st'', t ++ t')
    | (Raised e, st', t) => (Raised e, st', t)
    | (Rerun, st', t) => (Rerun, st', t)
    end.
Proof. reflexivity. Qed.

Lemma bind_normal {A B} (m : M A) (k : A -> M B) st a st1 ev1 :
  m st = (Normal a, st1, ev1) ->
  (m ≫= k) st = (let '(r, st2, ev2) := k a st1 in (r, st2, ev1 ++ ev2)).
Proof. intros H. rewrite bind_split, H. reflexivity. Qed.

Lemma load_button_click i n r st :
  clicked i = Some (BtnLoad n) ->
  load_button i (n, r) st
  = if widget_state_writable
    then (Rerun,
          mkStore {| history := history (session st);
                     query_input := Some (entry_query r) |} (cache st) (world st),
          [load_event (n, r); RerunRequested])
    else (Raised (StreamlitAPIException
                    (lit "`st.session_state.query_input` cannot be modified after the widget with key `query_input` is instantiated.")),
          st, [load_event (n, r)]).
Proof.
  intros Hc.
  unfold load_button, button, assign_query_input, experimental_rerun, show, emit,
    get_session, put_session, raise, mbind, M_bind, mret, M_ret.
  rewrite Hc, bool_decide_eq_true_2 by reflexivity.
  destruct widget_state_writable; reflexivity.
Qed.

Lemma load_loop_click i (l : list HistoryEntry) st n r :
  forall (f : nat -> nat) k,
    l !! k = Some r -> f k = n -> (forall j, (j < k)%nat -> f j <> n) ->
    clicked i = Some (BtnLoad n) ->
    for_each (imap (fun j e => (f j, e)) l) (load_button i) st
    = (let '(fl, st', ev) := load_button i (n, r) st in
       (fl, st', map load_event (imap (fun j e => (f j, e)) (take k l)) ++ ev)).
Proof.
  induction l as [|a l IH]; intros f k Hk Hf Hlt Hc; [discriminate Hk |].
  destruct k as [|k].
  - injection Hk as ->. cbn [imap for_each take map List.app]. rewrite Hf.
    rewrite bind_split, (load_button_click _ _ _ _ Hc).
    destruct widget_state_writable; reflexivity.
  - cbn [imap for_each take map]. cbn in Hk.
    assert (Hidle : load_button i (f 0%nat, a) st
                    = (Normal tt, st, [load_event (f 0%nat, a)])).
    { pose proof (load_loop_idle i [(f 0%nat, a)] st) as Hi.
      cbn [for_each map] in Hi. rewrite bind_split in Hi.
      assert (Hn : forall x, In x [(f 0%nat, a)] -> clicked i <> Some (BtnLoad (fst x))).
      { intros x [<- | []]. cbn. rewrite Hc. intros [= E].
        apply (Hlt 0%nat); [lia | congruence]. }
      specialize (Hi Hn).
      destruct (load_button i (f 0%nat, a) st) as [[[[]| |] st1] ev1];
        cbn in Hi; try discriminate Hi.
      injection Hi as -> Hev. rewrite app_nil_r in Hev. subst ev1. reflexivity. }
    rewrite (bind_normal _ _ _ _ _ _ Hidle).
    change ((fun j e => (f j, e)) ∘ S) with (fun j (e : HistoryEntry) => ((f ∘ S) j, e)).
    rewrite (IH (f ∘ S) k Hk Hf (fun j Hj => Hlt (S j) ltac:(lia)) Hc).
    destruct (load_button i (n, r) st) as [[fl st'] ev]. reflexivity.
Qed.

Lemma take_imap_pair (l : list HistoryEntry) k r :
  l !! k = Some r ->
  imap (fun n h => (n, h)) (take (S k) l)
  = imap (fun n h => (n, h)) (take k l) ++ [(k, r)].
Proof.
  intros Hk. rewrite (take_S_r _ _ _ Hk), imap_app. cbn [imap].
  rewrite length_take, Nat.min_l, Nat.add_0_r; [reflexivity |].
  apply lookup_lt_Some in Hk. lia.
Qed.

Lemma sidebar_history_load i st n r :
  clicked i = Some (BtnLoad n) ->
  take 10 (hist (session st)) !! n = Some r ->
  exists ev,
    sidebar_history i st
    = (if widget_state_writable
       then (Rerun,
             mkStore {| history := history (session st);
                        query_input := Some (entry_query r) |} (cache st) (world st),
             ev ++ [RerunRequested])
       else (Raised (StreamlitAPIException
                       (lit "`st.session_state.query_input` cannot be modified after the widget with key `query_input` is instantiated.")),
             st, ev))
    /\ ev = Show HistRule (lit "---")
            :: Show HistHeading (lit "### Recent queries")
            :: map load_event
                 (imap (fun n h => (n, h)) (take (S n) (take 10 (hist (session st))))).
Proof.
  intros Hc Hr. eexists. split; [| reflexivity].
  unfold sidebar_history, hist in *.
  rewrite (bind_normal get_session _ st (session st) st [] eq_refl). cbn beta.
  destruct (history (session st)) as [[|a h]|] eqn:Eh; cbn [default] in Hr;
    unfold id in Hr; try (rewrite take_nil in Hr; discriminate Hr).
  cbn [default]. unfold id.
  rewrite (bind_normal (show HistRule _) _ _ tt st [Show HistRule (lit "---")] eq_refl).
  rewrite (bind_normal (show HistHeading _) _ _ tt st
             [Show HistHeading (lit "### Recent queries")] eq_refl).
  rewrite (load_loop_click i _ st n r (fun j => j) n Hr eq_refl
             ltac:(intros; lia) Hc).
  rewrite (load_button_click _ _ _ _ Hc), (take_imap_pair _ _ _ Hr), map_app.
  destruct widget_state_writable; rewrite ?Eh; cbn [List.app map];
    rewrite <- ?List.app_assoc; cbn [List.app].
  all: reflexivity.
Qed.

Lemma postlude_calm i st :
  (forall n, clicked i = Some (BtnLoad n) -> take 10 (hist (session st)) !! n = None) ->
  clicked i <> Some BtnClearStreamlit ->
  exists ev,
    postlude i st = (Normal tt, st, ev ++ dump_events i (session st))
    /\ Forall after_run ev
    /\ Forall (fun e => is_element e = true) ev.
Proof.
  intros Hl Hc.
  destruct (sidebar_history_idle i st Hl) as (ev1 & E1 & A1 & L1 & _).
  destruct (developer_tools_idle i st Hc) as (ev2 & E2 & A2 & L2).
  destruct (footer_elements st) as (ev3 & E3 & A3 & L3).
  exists (ev1 ++ ev2 ++ ev3). unfold postlude.
  rewrite (bind_normal _ _ _ _ _ _ E1), (bind_normal _ _ _ _ _ _ E2),
    (bind_normal _ _ _ _ _ _ E3), debug_dump_eq.
  rewrite <- !List.app_assoc.
  repeat apply conj; [reflexivity | |]; repeat (apply Forall_app; split); assumption.
Qed.

Lemma postlude_clear i st :
  clicked i = Some BtnClearStreamlit ->
  exists ev,
    postlude i st
    = (Normal tt, mkStore (session st) ∅ (world st), ev ++ dump_events i (session st))
    /\ Forall after_run ev
    /\ In CacheDataCleared ev
    /\ In (Show DevCleared (lit "Cleared Streamlit cache.")) ev.
Proof.
  intros Hc.
  assert (Hl : forall n, clicked i = Some (BtnLoad n) ->
                         take 10 (hist (session st)) !! n = None)
    by (intros n Hn; congruence).
  destruct (sidebar_history_idle i st Hl) as (ev1 & E1 & A1 & _).
  destruct (developer_tools_clear i st Hc) as (ev2 & E2 & A2 & I1 & I2).
  destruct (footer_elements (mkStore (session st) ∅ (world st))) as (ev3 & E3 & A3 & _).
  exists (ev1 ++ ev2 ++ ev3). unfold postlude.
  rewrite (bind_normal _ _ _ _ _ _ E1), (bind_normal _ _ _ _ _ _ E2),
    (bind_normal _ _ _ _ _ _ E3), debug_dump_eq.
  rewrite <- !List.app_assoc.
  repeat apply conj; [reflexivity | | |].
  - repeat (apply Forall_app; split); assumption.
  - apply in_or_app; right. apply in_or_app; left. exact I1.
  - apply in_or_app; right. apply in_or_app; left. exact I2.
Qed.

Lemma postlude_load i st n r :
  clicked i = Some (BtnLoad n) ->
  take 10 (hist (session st)) !! n = Some r ->
  exists ev,
    postlude i st
    = (if widget_state_writable
       then (Rerun,
             mkStore {| history := history (session st);
                        query_input := Some (entry_query r) |} (cache st) (world st),
             ev ++ [RerunRequested])
       else (Raised (StreamlitAPIException
                       (lit "`st.session_state.query_input` cannot be modified after the widget with key `query_input` is instantiated.")),
             st, ev))
    /\ ev = Show HistRule (lit "---")
            :: Show HistHeading (lit "### Recent queries")
            :: map load_event
                 (imap (fun n h => (n, h)) (take (S n) (take 10 (hist (session st))))).
Proof.
  intros Hc Hr. destruct (sidebar_history_load i st n r Hc Hr) as (ev & E & Hev).
  exists ev. split; [| exact Hev]. unfold postlude. rewrite bind_split, E.
  destruct widget_state_writable; reflexivity.
Qed.

Lemma history_events_after xs :
  Forall after_run
    (Show HistRule (lit "---") :: Show HistHeading (lit "### Recent queries")
       :: map load_event xs).
Proof. do 2 (apply List.Forall_cons; [exact I |]). apply load_events_after. Qed.

(** What the end of the page does in general: it keeps the history, and
    dumps the session state only when it reaches the last line. *)
Lemma postlude_zones i st :
  exists fl st' post,
    postlude i st
    = (fl, st',
       post ++ match fl with Normal _ => dump_events i (session st') | _ => [] end)
    /\ Forall after_run post
    /\ history (session st') = history (session st)
    /\ (cache st' = cache st \/ cache st' = ∅)
    /\ world st' = world st.
Proof.
  destruct (clicked i) as [[| |n|]|] eqn:Hc.
  5: { destruct (postlude_calm i st) as (ev & E & A & _); [congruence .. |].
       exists (Normal tt), st, ev. auto 10. }
  1, 2: destruct (postlude_calm i st) as (ev & E & A & _); [congruence .. |];
        exists (Normal tt), st, ev; auto 10.
  - destruct (take 10 (hist (session st)) !! n) as [r|] eqn:Hr.
    + destruct (postlude_load i st n r Hc Hr) as (ev & E & Hev).
      rewrite E.
      destruct widget_state_writable.
      * eexists Rerun, _, (ev ++ [RerunRequested]).
        split; [rewrite app_nil_r; reflexivity |].
        split; [| auto]. subst ev.
        apply Forall_app. split; [apply history_events_after |].
        apply List.Forall_cons; [exact I | apply List.Forall_nil].
      * eexists (Raised _), _, ev.
        split; [rewrite app_nil_r; reflexivity |].
        subst ev. split; [apply history_events_after | auto].
    + destruct (postlude_calm i st) as (ev & E & A & _).
      * intros n' Hn'. rewrite Hc in Hn'. injection Hn' as <-. exact Hr.
      * congruence.
      * exists (Normal tt), st, ev. auto 10.
  - destruct (postlude_clear i st Hc) as (ev & E & A & _).
    exists (Normal tt), (mkStore (session st) ∅ (world st)), ev.
    auto 10.
Qed.

(** The page when "Clear module & streamlit caches" was not clicked. *)
Lemma app_calm i st :
  clicked i <> Some BtnClearAll ->
  exists pre,
    Forall before_run pre
    /\ Forall (fun e => is_element e = true) pre
    /\ app i st
       = (let '(fl2, st2, run) :=
            run_flow (query i) (max_articles i) (bool_decide (clicked i = Some BtnRun))
              (mkStore {| history := history (session st);
                          query_input := Some (query i) |} (cache st) (world st)) in
          match fl2 with
          | Normal _ =>
              let '(fl3, st3, post) := postlude i st2 in (fl3, st3, pre ++ run ++ post)
          | Raised e => (Raised e, st2, pre ++ run)
          | Rerun => (Rerun, st2, pre ++ run)
          end).
Proof.
  intros Hc.
  destruct (sidebar_controls_calm i st Hc) as (ev1 & E1 & B1 & L1).
  destruct (top_row_elements
              (mkStore {| history := history (session st);
                          query_input := Some (query i) |} (cache st) (world st)))
    as (ev2 & E2 & B2 & L2).
  exists (Show PageConfig (lit "Equity Research " ++ mdash ++ lit " News & Summaries")
            :: ev1 ++ ev2).
  split; [apply List.Forall_cons; [exact I | apply Forall_app; split; assumption] |].
  split; [apply List.Forall_cons; [reflexivity | apply Forall_app; split; assumption] |].
  unfold app.
  rewrite (bind_normal (show PageConfig _) _ _ tt st
             [Show PageConfig (lit "Equity Research " ++ mdash ++ lit " News & Summaries")]
             eq_refl).
  rewrite (bind_normal _ _ _ _ _ _ E1). cbn beta iota.
  rewrite (bind_normal _ _ _ _ _ _ E2).
  change (sidebar_history i;; developer_tools i;; footer;; debug_dump i)
    with (postlude i).
  rewrite bind_split.
  destruct (run_flow _ _ _ _) as [[[[]|e|] st2] run].
  - destruct (postlude i st2) as [[fl3 st3] post]. cbn [List.app].
    rewrite <- !List.app_assoc. reflexivity.
  - cbn [List.app]. rewrite <- !List.app_assoc. reflexivity.
  - cbn [List.app]. rewrite <- !List.app_assoc. reflexivity.
Qed.

(** The page when "Clear module & streamlit caches" was clicked. *)
Lemma app_clear_all i st :
  clicked i = Some BtnClearAll ->
  exists pre,
    Forall before_run pre
    /\ In CacheDataCleared pre
    /\ In (Called_clear_module_cache (fst (clear_module_cache (world st)))) pre
    /\ match fst (clear_module_cache (world st)) with
       | Ok _ =>
           In (Show SbCleared (lit "Cleared caches.")) pre
           /\ app i st
              = (let '(fl3, st3, post) :=
                   postlude i
                     (mkStore {| history := history (session st);
                                 query_input := Some (query i) |}
                              ∅ (snd (clear_module_cache (world st)))) in
                 (fl3, st3, pre ++ post))
       | Raise e =>
           (forall x, ~ In (Show SbCleared x) pre)
           /\ (forall x, ~ In (Show MainHeader x) pre)
           /\ app i st
              = (Raised e,
                 mkStore {| history := history (session st);
                            query_input := Some (query i) |}
                         ∅ (snd (clear_module_cache (world st))),
                 pre)
       end.
Proof.
  intros Hc.
  destruct (sidebar_controls_clear i st Hc) as (ev1 & E1 & B1 & I1 & I2).
  destruct (fst (clear_module_cache (world st))) as [u|e] eqn:Ec.
  - destruct E1 as (E1 & I3).
    destruct (top_row_elements
                (mkStore {| history := history (session st);
                            query_input := Some (query i) |}
                         ∅ (snd (clear_module_cache (world st)))))
      as (ev2 & E2 & B2 & L2).
    exists (Show PageConfig (lit "Equity Research " ++ mdash ++ lit " News & Summaries")
              :: ev1 ++ ev2).
    split; [apply List.Forall_cons; [exact I | apply Forall_app; split; assumption] |].
    split; [right; apply in_or_app; left; exact I1 |].
    split; [right; apply in_or_app; left; exact I2 |].
    split; [right; apply in_or_app; left; exact I3 |].
    unfold app.
    rewrite (bind_normal (show PageConfig _) _ _ tt st
               [Show PageConfig
                  (lit "Equity Research " ++ mdash ++ lit " News & Summaries")]
               eq_refl).
    rewrite (bind_normal _ _ _ _ _ _ E1). cbn beta iota.
    rewrite (bind_normal _ _ _ _ _ _ E2).
    change (sidebar_history i;; developer_tools i;; footer;; debug_dump i)
      with (postlude i).
    rewrite (bind_normal _ _ _ _ _ _ (run_flow_not_pressed _ _ _)).
    destruct (postlude i _) as [[fl3 st3] post]. cbn [List.app].
    rewrite <- !List.app_assoc. reflexivity.
  - destruct E1 as (E1 & N1 & N2).
    exists (Show PageConfig (lit "Equity Research " ++ mdash ++ lit " News & Summaries")
              :: ev1).
    split; [apply List.Forall_cons; [exact I | assumption] |].
    split; [right; exact I1 |].
    split; [right; exact I2 |].
    split; [intros x [Hx | Hx]; [discriminate Hx | exact (N1 x Hx)] |].
    split; [intros x [Hx | Hx]; [discriminate Hx | exact (N2 x Hx)] |].
    unfold app.
    rewrite (bind_normal (show PageConfig _) _ _ tt st
               [Show PageConfig
                  (lit "Equity Research " ++ mdash ++ lit " News & Summaries")]
               eq_refl).
    rewrite bind_split, E1. reflexivity.
Qed.

(** ** Click by click *)

Lemma not_blank q :
  strip q <> [] -> negb (str_truthy q) || negb (str_truthy (strip q)) = false.
Proof.
  intros H. destruct q as [|ch q]; [exfalso; apply H; reflexivity |].
  destruct (strip (ch :: q)); [contradiction | reflexivity].
Qed.

Lemma blank_or_not q :
  negb (str_truthy q) || negb (str_truthy (strip q)) = true \/ strip q <> [].
Proof.
  destruct (strip q) eqn:E; [left | right; discriminate].
  cbn. apply orb_true_r.
Qed.

Lemma in_run_apart e :
  in_run e -> ~ before_run e /\ ~ after_run e /\ forall l s, e <> ShowState l s.
Proof.
  intros H.
  destruct e; cbn in H; try contradiction;
    try match goal with el : Elem |- _ => destruct el; try contradiction end.
  all: repeat apply conj; [cbn; tauto | cbn; tauto | intros l0 s0; discriminate].
Qed.

Lemma dump_events_in i s e :
  In e (dump_events i s) ->
  debug i = true /\ e = ShowState (lit "Session state:") s.
Proof.
  unfold dump_events. destruct (debug i); [| intros []].
  intros [<- | []]. split; reflexivity.
Qed.

Lemma dump_elements i s : Forall (fun e => is_element e = true) (dump_events i s).
Proof.
  unfold dump_events. destruct (debug i); [| apply List.Forall_nil].
  apply List.Forall_cons; [reflexivity | apply List.Forall_nil].
Qed.

(** An event of the run flow can only be in the run flow's part of a log. *)
Lemma run_zone e pre run post (d : list Event) :
  Forall before_run pre -> Forall after_run post ->
  (forall x, In x d -> exists l s, x = ShowState l s) ->
  in_run e ->
  In e (pre ++ run ++ post ++ d) <-> In e run.
Proof.
  intros B A D He. destruct (in_run_apart e He) as (N1 & N2 & N3).
  rewrite !in_app_iff. split; [| auto].
  intros [H | [H | [H | H]]]; [| exact H | |].
  - destruct (N1 (In_Forall _ _ _ B H)).
  - destruct (N2 (In_Forall _ _ _ A H)).
  - destruct (D _ H) as (l & s & ->). destruct (N3 l s eq_refl).
Qed.

Lemma dump_tail i (fl : Flow unit) s :
  forall x,
    In x (match fl with Normal _ => dump_events i s | _ => [] end) ->
    exists l s', x = ShowState l s'.
Proof.
  intros x H. destruct fl; [| destruct H ..].
  apply dump_events_in in H. destruct H as (_ & ->). eauto.
Qed.

(** The page when the Run button was clicked. *)
Lemma run_click i s c w :
  clicked i = Some BtnRun ->
  exists pre run post fl st2,
    run_flow (query i) (max_articles i) true
      (mkStore {| history := history s; query_input := Some (query i) |} c w)
    = (fl, st2, run)
    /\ Forall before_run pre /\ Forall after_run post
    /\ (forall e, fl = Raised e -> post = [])
    /\ run_app i s c w
       = {| ending := fl; session_after := session st2; cache_after := cache st2;
            world_after := world st2;
            trace := pre ++ run ++ post
                       ++ match fl with
                          | Normal _ => dump_events i (session st2)
                          | _ => []
                          end |}.
Proof.
  intros Hc.
  destruct (app_calm i (mkStore s c w)) as (pre & B & _ & E); [congruence |].
  rewrite bool_decide_eq_true_2 in E by exact Hc. cbn [session cache world] in E.
  destruct (run_flow _ _ _ _) as [[fl st2] run] eqn:Er.
  exists pre, run.
  destruct fl as [[]|e|].
  - destruct (postlude_calm i st2) as (ev & Ep & A & _); [congruence .. |].
    rewrite Ep in E. exists ev, (Normal tt), st2.
    repeat apply conj; try assumption; try reflexivity; [discriminate |].
    exact (run_app_eq _ _ _ _ _ _ _ E).
  - exists [], (Raised e), st2.
    repeat apply conj; try assumption; try reflexivity; [apply List.Forall_nil |].
    rewrite (run_app_eq _ _ _ _ _ _ _ E). rewrite !app_nil_r. reflexivity.
  - exists [], Rerun, st2.
    repeat apply conj; try assumption; try reflexivity; [apply List.Forall_nil |].
    rewrite (run_app_eq _ _ _ _ _ _ _ E). rewrite !app_nil_r. reflexivity.
Qed.

(** The page when the Run button was not clicked. *)
Lemma no_run_click i s c w :
  clicked i <> Some BtnRun ->
  exists pre post,
    Forall before_run pre /\ Forall after_run post
    /\ trace (run_app i s c w)
       = pre ++ post
           ++ match ending (run_app i s c w) with
              | Normal _ => dump_events i (session_after (run_app i s c w))
              | _ => []
              end.
Proof.
  intros Hc.
  destruct (decide (clicked i = Some BtnClearAll)) as [Ha | Ha].
  - destruct (app_clear_all i (mkStore s c w) Ha) as (pre & B & _ & _ & E).
    cbn [session cache world] in E.
    destruct (fst (clear_module_cache w)).
    + destruct E as (_ & E).
      destruct (postlude_zones i
                  (mkStore {| history := history s; query_input := Some (query i) |}
                           ∅ (snd (clear_module_cache w))))
        as (fl & st' & post & Ep & A & _).
      rewrite Ep in E. rewrite (run_app_eq _ _ _ _ _ _ _ E).
      exists pre, post. cbn [ending session_after trace]. auto.
    + destruct E as (_ & _ & E). rewrite (run_app_eq _ _ _ _ _ _ _ E).
      exists pre, []. cbn [ending session_after trace].
      repeat apply conj; [assumption | apply List.Forall_nil |].
      rewrite app_nil_r. reflexivity.
  - destruct (app_calm i (mkStore s c w) Ha) as (pre & B & _ & E).
    rewrite bool_decide_eq_false_2 in E by exact Hc.
    rewrite run_flow_not_pressed in E. cbn [List.app] in E.
    destruct (postlude_zones i
                (mkStore {| history := history (session (mkStore s c w));
                            query_input := Some (query i) |}
                         (cache (mkStore s c w)) (world (mkStore s c w))))
      as (fl & st' & post & Ep & A & _).
    rewrite Ep in E. rewrite (run_app_eq _ _ _ _ _ _ _ E).
    exists pre, post. cbn [ending session_after trace]. auto.
Qed.

(** The three zones of a log, and the dump at its end. *)
Lemma app_zones i s c w :
  exists pre run post,
    trace (run_app i s c w)
    = pre ++ run ++ post
        ++ match ending (run_app i s c w) with
           | Normal _ => dump_events i (session_after (run_app i s c w))
           | _ => []
           end
    /\ Forall before_run pre /\ Forall in_run run /\ Forall after_run post
    /\ (clicked i <> Some BtnRun -> run = [])
    /\ (clicked i = Some BtnRun ->
        exists st2,
          run_flow (query i) (max_articles i) true
            (mkStore {| history := history s; query_input := Some (query i) |} c w)
          = (ending (run_app i s c w), st2, run)
          /\ session_after (run_app i s c w) = session st2
          /\ cache_after (run_app i s c w) = cache st2
          /\ world_after (run_app i s c w) = world st2
          /\ (forall e, ending (run_app i s c w) = Raised e -> post = [])).
Proof.
  destruct (decide (clicked i = Some BtnRun)) as [Hc | Hc].
  - destruct (run_click i s c w Hc) as (pre & run & post & fl & st2 & Er & B & A & P & ->).
    exists pre, run, post. cbn [ending session_after cache_after world_after trace].
    repeat apply conj; try assumption; try reflexivity.
    + apply (run_flow_details _ _ _ _ _ _ Er).
    + intros Hn. contradiction.
    + intros _. exists st2. auto.
  - destruct (no_run_click i s c w Hc) as (pre & post & B & A & ->).
    exists pre, [], post. cbn [List.app].
    repeat apply conj; try assumption; try reflexivity.
    + apply List.Forall_nil.
    + intros Hn. contradiction.
Qed.

Lemma first_failure (l : list Article) e :
  snd (render_rows l) = Some e
  <-> exists k b,
        l !! k = Some b /\ pretty_article_card b = Raise e
        /\ forall j b', (j < k)%nat -> l !! j = Some b' ->
                        exists card, pretty_article_card b' = Ok card.
Proof.
  revert e. induction l as [| | a b l IH] using pair_induction; intros e.
  - cbn. split; [discriminate |]. intros (k & b & Hk & _). discriminate Hk.
  - cbn [render_rows]. destruct (pretty_article_card a) as [ca|ea] eqn:Ea; cbn [snd].
    + split; [discriminate |]. intros ([|k] & b & Hk & Hb & _); [| discriminate Hk].
      injection Hk as <-. congruence.
    + split.
      * intros [= <-]. exists 0%nat, a. repeat split; [exact Ea |]. intros; lia.
      * intros ([|k] & b & Hk & Hb & _); [| discriminate Hk].
        injection Hk as <-. congruence.
  - cbn [render_rows]. destruct (pretty_article_card a) as [ca|ea] eqn:Ea; cbn [snd].
    2: { split.
         - intros [= <-]. exists 0%nat, a. repeat split; [exact Ea |]. intros; lia.
         - intros ([|k] & b' & Hk & Hb & Hlt).
           + injection Hk as <-. congruence.
           + destruct (Hlt 0%nat a ltac:(lia) eq_refl) as (card & Hcard). congruence. }
    destruct (pretty_article_card b) as [cb|eb] eqn:Eb; cbn [snd].
    2: { split.
         - intros [= <-]. exists 1%nat, b. repeat split; [exact Eb |].
           intros j b' Hj Hl. assert (j = 0%nat) as -> by lia.
           injection Hl as <-. eauto.
         - intros ([|[|k]] & b' & Hk & Hb & Hlt).
           + injection Hk as <-. congruence.
           + injection Hk as <-. congruence.
           + destruct (Hlt 1%nat b ltac:(lia) eq_refl) as (card & Hcard). congruence. }
    destruct (render_rows l) as [evs r] eqn:Er. cbn [snd] in IH |- *.
    rewrite IH. split.
    + intros (k & b' & Hk & Hb & Hlt). exists (S (S k)), b'.
      repeat split; [exact Hk | exact Hb |].
      intros [|[|j]] b2 Hj Hl.
      * injection Hl as <-. eauto.
      * injection Hl as <-. eauto.
      * apply (Hlt j b2); [lia | exact Hl].
    + intros ([|[|k]] & b' & Hk & Hb & Hlt).
      * injection Hk as <-. congruence.
      * injection Hk as <-. congruence.
      * exists k, b'. repeat split; [exact Hk | exact Hb |].
        intros j b2 Hj Hl. apply (Hlt (S (S j)) b2); [lia | exact Hl].
Qed.

Lemma no_failure (l : list Article) :
  snd (render_rows l) = None
  <-> forall b, In b l -> exists card, pretty_article_card b = Ok card.
Proof.
  split.
  - induction l as [| a | a b l IH] using pair_induction.
    + intros _ b [].
    + cbn [render_rows]. destruct (pretty_article_card a) as [ca|ea] eqn:Ea; cbn [snd];
        [| discriminate].
      intros _ b [<- | []]. eauto.
    + cbn [render_rows]. destruct (pretty_article_card a) as [ca|ea] eqn:Ea; cbn [snd];
        [| discriminate].
      destruct (pretty_article_card b) as [cb|eb] eqn:Eb; cbn [snd]; [| discriminate].
      destruct (render_rows l) as [evs r] eqn:Er. cbn [snd] in IH |- *.
      intros Hr b' [<- | [<- | Hb']]; eauto.
  - intros Hall. destruct (snd (render_rows l)) as [e|] eqn:Er; [| reflexivity].
    apply first_failure in Er. destruct Er as (k & b & Hk & Hb & _).
    destruct (Hall b) as (card & Hcard); [| congruence].
    apply list_elem_of_In, list_elem_of_lookup. eauto.
Qed.

(** ** What each click does *)

Ltac zone_none :=
  let e := fresh "e" in
  let He := fresh "He" in
  intros e He; destruct e; cbn in He |- *; try reflexivity; try contradiction;
  match goal with el : Elem |- _ => destruct el end;
  cbn in He |- *; try reflexivity; try contradiction;
  match goal with b : Button |- _ => destruct b end;
  cbn in He |- *; first [reflexivity | contradiction].

Lemma before_run_cards t : Forall before_run t -> card_texts t = [].
Proof. apply collect_none. zone_none. Qed.

Lemma after_run_cards t : Forall after_run t -> card_texts t = [].
Proof. apply collect_none. zone_none. Qed.

Lemma before_run_load t : Forall before_run t -> load_buttons t = [].
Proof. apply collect_none. zone_none. Qed.

Lemma dump_tail_cards i (fl : Flow unit) s :
  card_texts (match fl with Normal _ => dump_events i s | _ => [] end) = [].
Proof. unfold dump_events. destruct fl, (debug i); reflexivity. Qed.

(** The events of the run flow in the log of an execution. *)
Lemma run_events i s c w :
  exists run,
    (forall e, in_run e -> In e (trace (run_app i s c w)) <-> In e run)
    /\ card_texts (trace (run_app i s c w)) = card_texts run
    /\ (clicked i <> Some BtnRun -> run = [])
    /\ (clicked i = Some BtnRun ->
        exists st2,
          run_flow (query i) (max_articles i) true
            (mkStore {| history := history s; query_input := Some (query i) |} c w)
          = (ending (run_app i s c w), st2, run)
          /\ session_after (run_app i s c w) = session st2
          /\ cache_after (run_app i s c w) = cache st2
          /\ world_after (run_app i s c w) = world st2).
Proof.
  destruct (app_zones i s c w) as (pre & run & post & Ht & B & R & A & Hno & Hyes).
  exists run. repeat apply conj.
  - intros e He. rewrite Ht.
    apply run_zone; [exact B | exact A | apply dump_tail | exact He].
  - rewrite Ht. unfold card_texts. rewrite !collect_app.
    fold card_texts. rewrite (before_run_cards _ B), (after_run_cards _ A), dump_tail_cards.
    rewrite app_nil_r. reflexivity.
  - exact Hno.
  - intros Hc. destruct (Hyes Hc) as (st2 & Er & Hs & Hca & Hw & _). eauto.
Qed.

(** X6: an execution nobody clicked for only renders: it ends normally,
    leaves the history, the cache and the outside world as they were, stores
    the typed query under the widget's key, and its log holds page elements
    only: no helper is called, nothing is logged, no cache is cleared and no
    rerun is asked for. *)
Theorem rerender_without_click_is_read_only i s c w :
  clicked i = None ->
  ending (run_app i s c w) = Normal tt
  /\ session_after (run_app i s c w)
     = {| history := history s; query_input := Some (query i) |}
  /\ cache_after (run_app i s c w) = c
  /\ world_after (run_app i s c w) = w
  /\ Forall (fun e => is_element e = true) (trace (run_app i s c w)).
Proof.
  intros Hc.
  destruct (app_calm i (mkStore s c w)) as (pre & _ & L & E); [congruence |].
  rewrite bool_decide_eq_false_2 in E by congruence.
  rewrite run_flow_not_pressed in E. cbn [List.app] in E.
  destruct (postlude_calm i
              (mkStore {| history := history (session (mkStore s c w));
                          query_input := Some (query i) |}
                       (cache (mkStore s c w)) (world (mkStore s c w))))
    as (ev & Ep & _ & Lp); [congruence .. |].
  rewrite Ep in E. rewrite (run_app_eq _ _ _ _ _ _ _ E).
  cbn [ending session_after cache_after world_after trace session cache world].
  repeat apply conj; try reflexivity.
  repeat (apply Forall_app; split); try assumption. apply dump_elements.
Qed.

(** X7: a click on "Clear module & streamlit caches" empties the Streamlit
    cache and calls [clear_module_cache] once the cache is emptied, whatever
    the helper answers; the history is kept.  When the helper returns, the
    success message is shown and the page is completed; when it raises, the
    exception is not caught: no success message, and the page stops in the
    sidebar, before the main header. *)
Theorem clear_all_click_empties_caches i s c w :
  clicked i = Some BtnClearAll ->
  cache_after (run_app i s c w) = ∅
  /\ world_after (run_app i s c w) = snd (clear_module_cache w)
  /\ session_after (run_app i s c w)
     = {| history := history s; query_input := Some (query i) |}
  /\ In CacheDataCleared (trace (run_app i s c w))
  /\ In (Called_clear_module_cache (fst (clear_module_cache w)))
        (trace (run_app i s c w))
  /\ match fst (clear_module_cache w) with
     | Ok _ =>
         ending (run_app i s c w) = Normal tt
         /\ In (Show SbCleared (lit "Cleared caches.")) (trace (run_app i s c w))
     | Raise e =>
         ending (run_app i s c w) = Raised e
         /\ (forall x, ~ In (Show SbCleared x) (trace (run_app i s c w)))
         /\ (forall x, ~ In (Show MainHeader x) (trace (run_app i s c w)))
     end.
Proof.
  intros Hc.
  destruct (app_clear_all i (mkStore s c w) Hc) as (pre & B & I1 & I2 & E).
  cbn [session cache world] in E, I2.
  destruct (fst (clear_module_cache w)) as [u|e].
  - destruct E as (I3 & E).
    destruct (postlude_calm i
                (mkStore {| history := history s; query_input := Some (query i) |}
                         ∅ (snd (clear_module_cache w))))
      as (ev & Ep & _ & _); [congruence .. |].
    rewrite Ep in E. rewrite (run_app_eq _ _ _ _ _ _ _ E).
    cbn [ending session_after cache_after world_after trace session cache world].
    repeat apply conj; try reflexivity; apply in_or_app; left; assumption.
  - destruct E as (N1 & N2 & E). rewrite (run_app_eq _ _ _ _ _ _ _ E).
    cbn [ending session_after cache_after world_after trace session cache world].
    repeat apply conj; try reflexivity; assumption.
Qed.

(** X8: a click on "Clear Streamlit cache only" empties the Streamlit cache
    and shows the success message, without calling [clear_module_cache] and
    without touching the history or the outside world. *)
Theorem clear_streamlit_click_spares_module_cache i s c w :
  clicked i = Some BtnClearStreamlit ->
  ending (run_app i s c w) = Normal tt
  /\ cache_after (run_app i s c w) = ∅
  /\ world_after (run_app i s c w) = w
  /\ session_after (run_app i s c w)
     = {| history := history s; query_input := Some (query i) |}
  /\ In CacheDataCleared (trace (run_app i s c w))
  /\ In (Show DevCleared (lit "Cleared Streamlit cache.")) (trace (run_app i s c w))
  /\ forall r, ~ In (Called_clear_module_cache r) (trace (run_app i s c w)).
Proof.
  intros Hc.
  destruct (app_calm i (mkStore s c w)) as (pre & _ & L & E); [congruence |].
  rewrite bool_decide_eq_false_2 in E by congruence.
  rewrite run_flow_not_pressed in E. cbn [List.app] in E.
  destruct (postlude_clear i
              (mkStore {| history := history (session (mkStore s c w));
                          query_input := Some (query i) |}
                       (cache (mkStore s c w)) (world (mkStore s c w))) Hc)
    as (ev & Ep & A & I1 & I2).
  rewrite Ep in E. rewrite (run_app_eq _ _ _ _ _ _ _ E).
  cbn [ending session_after cache_after world_after trace session cache world].
  repeat apply conj; try reflexivity.
  - apply in_or_app; right. apply in_or_app; left. exact I1.
  - apply in_or_app; right. apply in_or_app; left. exact I2.
  - intros r Hin. apply in_app_or in Hin. destruct Hin as [Hin | Hin].
    + pose proof (In_Forall _ _ _ L Hin) as Hx. discriminate Hx.
    + apply in_app_or in Hin. destruct Hin as [Hin | Hin].
      * exact (In_Forall _ _ _ A Hin).
      * apply dump_events_in in Hin. destruct Hin as (_ & Hin). discriminate Hin.
Qed.

Lemma history_events_shape xs e :
  In e (Show HistRule (lit "---") :: Show HistHeading (lit "### Recent queries")
          :: map load_event xs) ->
  exists el x,
    e = Show el x /\ (el = HistRule \/ el = HistHeading \/ exists n, el = Btn (BtnLoad n)).
Proof.
  intros [<- | [<- | H]]; [eauto 6 .. |].
  apply in_map_iff in H. destruct H as ((n & h) & <- & _). unfold load_event. eauto 8.
Qed.

(** X9: a click on the "Load:" button of the [n]-th displayed record keeps
    the history, the cache and the outside world; the buttons after the
    [n]-th, the developer tools, the footer and the debug dump are not
    rendered.  Where the widget's key may be assigned after the widget was
    created, the record's query is stored under it and a rerun is asked
    for; where it may not, the assignment raises and no rerun is asked
    for. *)
Theorem load_click_fills_query i s c w n r :
  clicked i = Some (BtnLoad n) ->
  take 10 (hist s) !! n = Some r ->
  history (session_after (run_app i s c w)) = history s
  /\ cache_after (run_app i s c w) = c
  /\ world_after (run_app i s c w) = w
  /\ load_buttons (trace (run_app i s c w))
     = load_entries (take (S n) (take 10 (hist s)))
  /\ (forall x, ~ In (Show DevExpander x) (trace (run_app i s c w)))
  /\ (forall x, ~ In (Show FooterNotes x) (trace (run_app i s c w)))
  /\ (forall l s', ~ In (ShowState l s') (trace (run_app i s c w)))
  /\ if widget_state_writable
     then ending (run_app i s c w) = Rerun
          /\ query_input (session_after (run_app i s c w)) = Some (entry_query r)
          /\ In RerunRequested (trace (run_app i s c w))
     else ending (run_app i s c w)
          = Raised (StreamlitAPIException
                      (lit "`st.session_state.query_input` cannot be modified after the widget with key `query_input` is instantiated."))
          /\ query_input (session_after (run_app i s c w)) = Some (query i)
          /\ ~ In RerunRequested (trace (run_app i s c w)).
Proof.
  intros Hc Hr.
  destruct (app_calm i (mkStore s c w)) as (pre & B & L & E); [congruence |].
  rewrite bool_decide_eq_false_2 in E by congruence.
  rewrite run_flow_not_pressed in E. cbn [List.app] in E.
  destruct (postlude_load i
              (mkStore {| history := history (session (mkStore s c w));
                          query_input := Some (query i) |}
                       (cache (mkStore s c w)) (world (mkStore s c w))) n r Hc Hr)
    as (ev & Ep & Hev).
  rewrite Ep in E. cbn [session cache world] in Hev, E.
  change (hist {| history := history s; query_input := Some (query i) |})
    with (hist s) in Hev.
  assert (Hlb : load_buttons ev = load_entries (take (S n) (take 10 (hist s)))).
  { subst ev.
    transitivity (load_buttons
                    (map load_event
                       (imap (fun n h => (n, h)) (take (S n) (take 10 (hist s))))));
      [reflexivity |].
    rewrite load_events_buttons. apply (map_load_label (fun n => n)). }
  assert (HnoP : forall e, In e pre ->
                   (forall x, e <> Show DevExpander x)
                   /\ (forall x, e <> Show FooterNotes x)
                   /\ (forall l s', e <> ShowState l s')
                   /\ e <> RerunRequested).
  { intros e Hin. pose proof (In_Forall _ _ _ B Hin) as Hb.
    repeat apply conj; intros; intros ->; exact Hb. }
  assert (HnoE : forall e, In e ev ->
                   (forall x, e <> Show DevExpander x)
                   /\ (forall x, e <> Show FooterNotes x)
                   /\ (forall l s', e <> ShowState l s')
                   /\ e <> RerunRequested).
  { intros e Hin. rewrite Hev in Hin.
    destruct (history_events_shape _ _ Hin) as (el & x & -> & Hel).
    repeat apply conj; intros; try discriminate;
      intros [= -> _]; destruct Hel as [Hel | [Hel | (k & Hel)]]; discriminate Hel. }
  destruct widget_state_writable; rewrite (run_app_eq _ _ _ _ _ _ _ E);
    cbn [ending session_after cache_after world_after trace session cache world
         history query_input].
  - repeat apply conj; try reflexivity.
    + unfold load_buttons. rewrite !collect_app. fold load_buttons.
      rewrite (before_run_load _ B), Hlb. cbn. apply app_nil_r.
    + intros x Hin. rewrite !in_app_iff in Hin.
      destruct Hin as [H | [H | [H | []]]]; [| | discriminate H].
      * apply HnoP in H. destruct H as (H & _). exact (H x eq_refl).
      * apply HnoE in H. destruct H as (H & _). exact (H x eq_refl).
    + intros x Hin. rewrite !in_app_iff in Hin.
      destruct Hin as [H | [H | [H | []]]]; [| | discriminate H].
      * apply HnoP in H. destruct H as (_ & H & _). exact (H x eq_refl).
      * apply HnoE in H. destruct H as (_ & H & _). exact (H x eq_refl).
    + intros l s' Hin. rewrite !in_app_iff in Hin.
      destruct Hin as [H | [H | [H | []]]]; [| | discriminate H].
      * apply HnoP in H. destruct H as (_ & _ & H & _). exact (H l s' eq_refl).
      * apply HnoE in H. destruct H as (_ & _ & H & _). exact (H l s' eq_refl).
    + rewrite !in_app_iff. right. right. left. reflexivity.
  - repeat apply conj; try reflexivity.
    + unfold load_buttons. rewrite !collect_app. fold load_buttons.
      rewrite (before_run_load _ B), Hlb. reflexivity.
    + intros x Hin. rewrite !in_app_iff in Hin. destruct Hin as [H | H].
      * apply HnoP in H. destruct H as (H & _). exact (H x eq_refl).
      * apply HnoE in H. destruct H as (H & _). exact (H x eq_refl).
    + intros x Hin. rewrite !in_app_iff in Hin. destruct Hin as [H | H].
      * apply HnoP in H. destruct H as (_ & H & _). exact (H x eq_refl).
      * apply HnoE in H. destruct H as (_ & H & _). exact (H x eq_refl).
    + intros l s' Hin. rewrite !in_app_iff in Hin. destruct Hin as [H | H].
      * apply HnoP in H. destruct H as (_ & _ & H & _). exact (H l s' eq_refl).
      * apply HnoE in H. destruct H as (_ & _ & H & _). exact (H l s' eq_refl).
    + intros Hin. rewrite !in_app_iff in Hin. destruct Hin as [H | H].
      * apply HnoP in H. destruct H as (_ & _ & _ & H). exact (H eq_refl).
      * apply HnoE in H. destruct H as (_ & _ & _ & H). exact (H eq_refl).
Qed.

(** ** What a click on Run does, step by step *)

Lemma in_run_load t : Forall in_run t -> load_buttons t = [].
Proof. apply collect_none. zone_none. Qed.


(** X11: a click on Run ends in an uncaught exception [e] exactly when the
    query is not blank, the fetch returned at least one article, and either
    the card of one of the first 30 articles raises [e], the cards before it
    being built, or the cards of the first 30 are all built and joining the
    titles and descriptions of the articles raises [e]. *)
Theorem run_click_crashes_iff i s c w e :
  clicked i = Some BtnRun ->
  ending (run_app i s c w) = Raised e
  <-> (strip (query i) <> []
       /\ exists a l,
            fst (get_news_articles (query i) (max_articles i) w) = Ok (a :: l)
            /\ ((exists k b,
                    (k < 30)%nat /\ (a :: l) !! k = Some b
                    /\ pretty_article_card b = Raise e
                    /\ forall j b', (j < k)%nat -> (a :: l) !! j = Some b' ->
                                    exists card, pretty_article_card b' = Ok card)
                \/ ((forall b, In b (take 30 (a :: l)) ->
                               exists card, pretty_article_card b = Ok card)
                    /\ concat_text (a :: l) = Raise e))).
Proof.
  intros Hc. destruct (run_events i s c w) as (run & _ & _ & _ & Hyes).
  destruct (Hyes Hc) as (st2 & Er & _).
  destruct (run_flow_details _ _ _ _ _ _ Er) as (_ & Hcrash & _ & _ & Hfl).
  cbn [world] in Hcrash, Hfl.
  split.
  - intros He. split.
    + destruct (blank_or_not (query i)) as [Hb | Hb]; [| exact Hb].
      rewrite (run_flow_blank _ _ _ Hb) in Er. rewrite He in Er. discriminate Er.
    + destruct (Hcrash e He) as (a & l & Hf & Hcause & _).
      exists a, l. split; [exact Hf |].
      destruct Hcause as [Hr | (Hr & Hct)].
      * left. apply first_failure in Hr. destruct Hr as (k & b & Hk & Hb & Hlt).
        apply lookup_take_Some in Hk. destruct Hk as (Hk & Hk30).
        exists k, b. repeat apply conj; try assumption.
        intros j b' Hj Hl. apply (Hlt j b' Hj). apply lookup_take_Some.
        split; [exact Hl | lia].
      * right. split; [apply no_failure; exact Hr | exact Hct].
  - intros (Hq & a & l & Hf & Hcause). rewrite (Hfl (not_blank _ Hq) a l Hf).
    destruct Hcause as [(k & b & Hk30 & Hk & Hb & Hlt) | (Hall & Hct)].
    + assert (Hr : snd (render_rows (take 30 (a :: l))) = Some e).
      { apply first_failure. exists k, b.
        repeat apply conj; [apply lookup_take_Some; auto | exact Hb |].
        intros j b' Hj Hl. apply lookup_take_Some in Hl. destruct Hl as (Hl & _).
        eauto. }
      rewrite Hr. reflexivity.
    + apply no_failure in Hall. rewrite Hall, Hct. reflexivity.
Qed.

(** X12: when a click on Run ends in an uncaught exception, the page is cut
    short: the token estimate and the summary were not asked for, the
    history and the cache are as they were, and the sidebar history, the
    developer tools and the footer are not rendered. *)
Theorem run_crash_cuts_page_short i s c w e :
  clicked i = Some BtnRun ->
  ending (run_app i s c w) = Raised e ->
  session_after (run_app i s c w)
  = {| history := history s; query_input := Some (query i) |}
  /\ cache_after (run_app i s c w) = c
  /\ (forall text r, ~ In (Called_estimate_tokens text r) (trace (run_app i s c w)))
  /\ (forall q m ttl r,
        ~ In (Called_get_summary_cached_ui q m ttl r) (trace (run_app i s c w)))
  /\ load_buttons (trace (run_app i s c w)) = []
  /\ (forall x, ~ In (Show DevExpander x) (trace (run_app i s c w)))
  /\ (forall x, ~ In (Show FooterNotes x) (trace (run_app i s c w))).
Proof.
  intros Hc He.
  destruct (app_zones i s c w) as (pre & run & post & Ht & B & R & A & _ & Hyes).
  destruct (Hyes Hc) as (st2 & Er & Hs & Hca & _ & Hpost).
  rewrite (Hpost e He) in Ht. rewrite He in Ht, Er. cbn [List.app] in Ht.
  rewrite app_nil_r in Ht.
  destruct (run_flow_details _ _ _ _ _ _ Er) as (_ & Hcrash & _).
  destruct (Hcrash e eq_refl) as (_ & _ & _ & _ & Hnoest).
  destruct (run_flow_outcomes _ _ _ _ _ _ Er) as (_ & _ & _ & _ & _ & Hout).
  destruct (Hout e eq_refl) as (Hs2 & Hc2 & Hnosum).
  rewrite Hs, Hca, Hs2, Hc2, Ht. cbn [session cache].
  repeat apply conj; try reflexivity.
  - intros text r Hin. apply in_app_or in Hin. destruct Hin as [Hin | Hin].
    + exact (In_Forall _ _ _ B Hin).
    + exact (Hnoest text r Hin).
  - intros q m ttl r Hin. apply in_app_or in Hin. destruct Hin as [Hin | Hin].
    + exact (In_Forall _ _ _ B Hin).
    + exact (Hnosum q m ttl r Hin).
  - unfold load_buttons. rewrite collect_app. fold load_buttons.
    rewrite (before_run_load _ B), (in_run_load _ R). reflexivity.
  - intros x Hin. apply in_app_or in Hin. destruct Hin as [Hin | Hin].
    + exact (In_Forall _ _ _ B Hin).
    + exact (In_Forall _ _ _ R Hin).
  - intros x Hin. apply in_app_or in Hin. destruct Hin as [Hin | Hin].
    + exact (In_Forall _ _ _ B Hin).
    + exact (In_Forall _ _ _ R Hin).
Qed.

(** X13: in every execution, the download button is labelled "Download
    summary (txt)", names the file "summary.txt" and carries a summary
    written on the page; and every summary written on the page is offered
    for download. *)
Theorem download_offers_displayed_summary i s c w :
  (forall l d f,
      In (ShowDownload l d f) (trace (run_app i s c w)) ->
      l = lit "Download summary (txt)" /\ f = lit "summary.txt"
      /\ In (Show SummaryBody d) (trace (run_app i s c w))
      /\ In (Show SummaryHeading (lit "## Summary")) (trace (run_app i s c w)))
  /\ (forall v,
        In (Show SummaryBody v) (trace (run_app i s c w)) ->
        In (ShowDownload (lit "Download summary (txt)") v (lit "summary.txt"))
           (trace (run_app i s c w))).
Proof.
  destruct (run_events i s c w) as (run & Hz & _ & Hno & Hyes).
  assert (Ht : forall e, in_run e -> In e run -> In e (trace (run_app i s c w)))
    by (intros e He; apply Hz; exact He).
  assert (Hr : forall e, in_run e -> In e (trace (run_app i s c w)) -> In e run)
    by (intros e He; apply Hz; exact He).
  destruct (decide (clicked i = Some BtnRun)) as [Hc | Hc].
  - destruct (Hyes Hc) as (st2 & Er & _).
    destruct (run_flow_outcomes _ _ _ _ _ _ Er) as ((Hd1 & Hd2) & _).
    split.
    + intros l d f Hin. apply Hr in Hin; [| exact I].
      destruct (Hd1 l d f Hin) as (-> & -> & H1 & H2).
      repeat apply conj; try reflexivity; apply Ht; try exact I; assumption.
    + intros v Hin. apply Hr in Hin; [| exact I].
      apply Ht; [exact I |]. exact (Hd2 v Hin).
  - rewrite (Hno Hc) in Hr. split.
    + intros l d f Hin. apply Hr in Hin; [destruct Hin | exact I].
    + intros v Hin. apply Hr in Hin; [destruct Hin | exact I].
Qed.

(** X14: when the fetch raised or returned no article, the execution ends
    normally with the "No articles found" box, and neither the token
    estimate nor the summary is asked for; a fetch that raised is reported
    in an error box with the exception's text, and logged. *)
Theorem fetch_without_articles_ends_quietly i s c w q m r :
  In (Called_get_news_articles q m r) (trace (run_app i s c w)) ->
  (forall a l, r <> Ok (a :: l)) ->
  ending (run_app i s c w) = Normal tt
  /\ In (Show InfoNoArticles
           (lit "No articles found for this query " ++ mdash
              ++ lit " try changing the query or increasing 'Max articles'."))
        (trace (run_app i s c w))
  /\ (forall text r', ~ In (Called_estimate_tokens text r') (trace (run_app i s c w)))
  /\ (forall q2 m2 ttl r',
        ~ In (Called_get_summary_cached_ui q2 m2 ttl r') (trace (run_app i s c w)))
  /\ (forall e,
        r = Raise e ->
        In (Show ErrFetch (lit "Failed to fetch articles: " ++ exc_str e))
           (trace (run_app i s c w))
        /\ In (Logged (lit "NewsAPI fetch failed")) (trace (run_app i s c w))).
Proof.
  intros Hin Hempty.
  destruct (run_events i s c w) as (run & Hz & _ & Hno & Hyes).
  assert (Ht : forall e, in_run e -> In e run -> In e (trace (run_app i s c w)))
    by (intros e He; apply Hz; exact He).
  assert (Hr : forall e, in_run e -> In e (trace (run_app i s c w)) -> In e run)
    by (intros e He; apply Hz; exact He).
  apply Hr in Hin; [| exact I].
  destruct (decide (clicked i = Some BtnRun)) as [Hc | Hc];
    [| rewrite (Hno Hc) in Hin; destruct Hin].
  destruct (Hyes Hc) as (st2 & Er & _).
  destruct (run_flow_details _ _ _ _ _ _ Er) as (_ & _ & _ & Hnone & _).
  destruct (run_flow_outcomes _ _ _ _ _ _ Er) as (_ & Hfail & Hnosum & _).
  destruct (Hnone q m r Hin Hempty) as (Hend & Hinfo & Hnoest).
  repeat apply conj.
  - exact Hend.
  - apply Ht; [exact I | exact Hinfo].
  - intros text r' Hx. apply Hr in Hx; [| exact I]. exact (Hnoest text r' Hx).
  - intros q2 m2 ttl r' Hx. apply Hr in Hx; [| exact I].
    exact (Hnosum q m r Hin Hempty q2 m2 ttl r' Hx).
  - intros e ->. destruct (Hfail q m e Hin) as (H1 & H2).
    split; (apply Ht; [exact I | assumption]).
Qed.

(** X15: a summarization that raised is reported in an error box with the
    exception's text, and logged; the execution ends normally, shows no
    summary, and leaves the history and the Streamlit cache as they were, so
    that the failure is not cached. *)
Theorem summarization_failure_reported i s c w q m ttl e :
  In (Called_get_summary_cached_ui q m ttl (Raise e)) (trace (run_app i s c w)) ->
  ending (run_app i s c w) = Normal tt
  /\ In (Show ErrSummary (lit "Error during summarization: " ++ exc_str e))
        (trace (run_app i s c w))
  /\ In (Logged (lit "Summarization error")) (trace (run_app i s c w))
  /\ (forall v, ~ In (Show SummaryBody v) (trace (run_app i s c w)))
  /\ history (session_after (run_app i s c w)) = history s
  /\ cache_after (run_app i s c w) = c.
Proof.
  intros Hin.
  destruct (run_events i s c w) as (run & Hz & _ & Hno & Hyes).
  assert (Ht : forall e, in_run e -> In e run -> In e (trace (run_app i s c w)))
    by (intros e' He; apply Hz; exact He).
  assert (Hr : forall e, in_run e -> In e (trace (run_app i s c w)) -> In e run)
    by (intros e' He; apply Hz; exact He).
  apply Hr in Hin; [| exact I].
  destruct (decide (clicked i = Some BtnRun)) as [Hc | Hc];
    [| rewrite (Hno Hc) in Hin; destruct Hin].
  destruct (Hyes Hc) as (st2 & Er & Hs & Hca & _).
  destruct (run_flow_outcomes _ _ _ _ _ _ Er) as (_ & _ & _ & Hfail & _).
  destruct (Hfail q m ttl e Hin) as (Hend & H1 & H2 & H3 & Hs2 & Hc2).
  rewrite Hs, Hca, Hs2, Hc2.
  repeat apply conj; try reflexivity.
  - exact Hend.
  - apply Ht; [exact I | exact H1].
  - apply Ht; [exact I | exact H2].
  - intros v Hx. apply Hr in Hx; [| exact I]. exact (H3 v Hx).
Qed.

(** X16: when a click on Run with a query that is not blank fetches at
    least one article, the count shown is that of all the fetched articles,
    whereas the cards shown, when each of the first 30 can be built, are
    those of the first 30 articles, in order. *)
Theorem fetched_articles_counted_and_carded i s c w a l :
  clicked i = Some BtnRun ->
  strip (query i) <> [] ->
  fst (get_news_articles (query i) (max_articles i) w) = Ok (a :: l) ->
  In (Show FoundCount
        (lit "Found **" ++ str_of_nat (length (a :: l))
           ++ lit "** articles for **" ++ query i ++ lit "**"))
     (trace (run_app i s c w))
  /\ ((forall b, In b (take 30 (a :: l)) ->
                 exists card, pretty_article_card b = Ok card) ->
      map Ok (card_texts (trace (run_app i s c w)))
      = map pretty_article_card (take 30 (a :: l))).
Proof.
  intros Hc Hq Hf.
  destruct (run_events i s c w) as (run & Hz & Hcards & _ & Hyes).
  destruct (Hyes Hc) as (st2 & Er & _).
  destruct (run_flow_outcomes _ _ _ _ _ _ Er) as (_ & _ & _ & _ & Hlist & _).
  destruct (Hlist (not_blank _ Hq) a l Hf) as (Hcount & Htexts).
  split.
  - apply Hz; [exact I | exact Hcount].
  - intros Hall. rewrite Hcards, Htexts.
    apply render_rows_complete. apply no_failure. exact Hall.
Qed.

(** X17: the session state is dumped only when the address carries the
    [debug] query parameter and the execution reaches the last line of the
    script; it is then the last thing rendered, and shows the session state
    the execution leaves, so with the record a successful run has just
    saved. *)
Theorem debug_dump_comes_last i s c w :
  (forall l s',
      In (ShowState l s') (trace (run_app i s c w)) ->
      debug i = true /\ ending (run_app i s c w) = Normal tt
      /\ l = lit "Session state:" /\ s' = session_after (run_app i s c w))
  /\ (debug i = true ->
      ending (run_app i s c w) = Normal tt ->
      exists t0,
        trace (run_app i s c w)
        = t0 ++ [ShowState (lit "Session state:") (session_after (run_app i s c w))]).
Proof.
  destruct (app_zones i s c w) as (pre & run & post & Ht & B & R & A & _).
  split.
  - intros l s' Hin. rewrite Ht in Hin. rewrite !in_app_iff in Hin.
    destruct Hin as [H | [H | [H | H]]].
    + destruct (In_Forall _ _ _ B H).
    + destruct (In_Forall _ _ _ R H).
    + destruct (In_Forall _ _ _ A H).
    + destruct (ending (run_app i s c w)) as [[]|e|]; [| destruct H ..].
      apply dump_events_in in H. destruct H as (Hd & [= -> ->]). auto.
  - intros Hd Hend. exists (pre ++ run ++ post).
    rewrite Ht at 1. rewrite Hend. unfold dump_events. rewrite Hd.
    rewrite <- !List.app_assoc. reflexivity.
Qed.

(** ** The run flow from the helpers' results *)

Opaque lit str_of_Z str_of_nat strip concat_text.

(** A fetch that raises. *)
Lemma run_flow_fetch_raised q m st e :
  negb (str_truthy q) || negb (str_truthy (strip q)) = false ->
  fst (get_news_articles q m (world st)) = Raise e ->
  run_flow q m true st
  = (Normal tt,
     mkStore (session st) (cache st) (snd (get_news_articles q m (world st))),
     [Show SpinFetch (lit "Fetching articles from NewsAPI...");
      Called_get_news_articles q m (Raise e);
      Show ErrFetch (lit "Failed to fetch articles: " ++ exc_str e);
      Logged (lit "NewsAPI fetch failed");
      Show InfoNoArticles
        (lit "No articles found for this query " ++ mdash
           ++ lit " try changing the query or increasing 'Max articles'.")]).
Proof.
  intros Hb Hf. unfold run_flow. rewrite Hb.
  destruct (get_news_articles q m (world st)) as [r w1] eqn:Ef.
  cbn [fst snd] in *. subst r.
  unfold mbind, M_bind, try_except, show, emit, call_helper, logger_exception,
    mret, M_ret.
  rewrite Ef. reflexivity.
Qed.

(** The run flow once the articles are fetched, their cards built and their
    texts joined: what it does is decided by the caching wrapper's answer. *)
Lemma run_flow_summary q m st a l text :
  negb (str_truthy q) || negb (str_truthy (strip q)) = false ->
  fst (get_news_articles q m (world st)) = Ok (a :: l) ->
  snd (render_rows (take 30 (a :: l))) = None ->
  concat_text (a :: l) = Ok text ->
  exists evs1,
    run_flow q m true st
    = (let '(r, st', t) :=
         get_summary_cached_ui q m None
           (mkStore (session st) (cache st)
              (snd (estimate_tokens text (snd (get_news_articles q m (world st)))))) in
       match r with
       | Normal v =>
           if str_truthy v
           then (Normal tt,
                 mkStore
                   {| history := Some ({| entry_query := q; entry_summary := v |}
                                         :: hist (session st'));
                      query_input := query_input (session st') |}
                   (cache st') (world st'),
                 evs1 ++ t
                   ++ [Show SummaryRule (lit "---");
                       Show SummaryHeading (lit "## Summary");
                       Show SummaryBody v;
                       ShowDownload (lit "Download summary (txt)") v (lit "summary.txt")])
           else (Normal tt, st', evs1 ++ t)
       | Raised e =>
           (Normal tt, st',
            evs1 ++ t
              ++ [Show ErrSummary (lit "Error during summarization: " ++ exc_str e);
                  Logged (lit "Summarization error")])
       | Rerun => (Rerun, st', evs1 ++ t)
       end).
Proof.
  intros Hb Hf Hr Hct. unfold run_flow. rewrite Hb.
  destruct (get_news_articles q m (world st)) as [r1 w1] eqn:Ef.
  cbn [fst snd] in *. subst r1.
  destruct (estimate_tokens text w1) as [r2 w2] eqn:Ee. cbn [snd].
  destruct (get_summary_cached_ui q m None (mkStore (session st) (cache st) w2))
    as [[r st'] t] eqn:Ec.
  destruct (render_rows (take 30 (a :: l))) as [cards rr] eqn:Er.
  cbn [snd] in Hr. subst rr.
  exists ([Show SpinFetch (lit "Fetching articles from NewsAPI...");
           Called_get_news_articles q m (Ok (a :: l));
           Show FetchedHeading (lit "### Fetched articles");
           Show FoundCount
             (lit "Found **" ++ str_of_nat (length (a :: l))
                ++ lit "** articles for **" ++ q ++ lit "**")]
            ++ cards
            ++ match r2 with
               | Ok n =>
                   [Called_estimate_tokens text (Ok n);
                    Show InfoTokens
                      (lit "Estimated tokens for LLM input (approx): " ++ str_of_Z n)]
                     ++ (if (8000 <? n)%Z
                         then [Show WarnTokens
                                 (lit "High token estimate " ++ mdash
                                    ++ lit " reduce `max articles` to control cost.")]
                         else [])
               | Raise e =>
                   [Called_estimate_tokens text (Raise e);
                    Logged (lit "Token estimation failed")]
               end
            ++ [Show SpinSummary (lit "Generating summary with LLM (cached)...")]).
  unfold save_history.
  unfold mbind, M_bind, try_except, show, emit, call_helper, lift, logger_exception,
    mret, M_ret, raise, get_session, put_session.
  rewrite Ef. cbn -[show_cards get_summary_cached_ui].
  rewrite show_cards_render_rows, Er. cbn -[get_summary_cached_ui].
  rewrite Hct. cbn -[get_summary_cached_ui]. rewrite Ee.
  destruct r2 as [n|ee]; [destruct (8000 <? n)%Z |];
    cbn -[get_summary_cached_ui]; rewrite Ec;
    (destruct r as [v|e|];
     [destruct (str_truthy v); [destruct (history (session st')) eqn:Eh |] | |]);
    cbn; unfold hist; rewrite ?Eh; cbn [default]; unfold id;
    rewrite ?app_nil_r; rewrite <- ?List.app_assoc; cbn [List.app];
    rewrite <- ?List.app_assoc; try reflexivity.
Qed.

Transparent lit str_of_Z str_of_nat strip concat_text.

(** The wrapper when the cache holds no entry of less than a day for the
    call: the module-level helper is called, and its value, if it returns
    one, is stored. *)
Lemma wrapper_miss q m ttl s c w :
  (forall v stored, c !! (q, m, ttl) = Some (v, stored) -> (stored + 86400 <= clock w)%Z) ->
  get_summary_cached_ui q m ttl (mkStore s c w)
  = (let '(r, w') := get_summary_cached_module q m w in
     match r with
     | Ok v =>
         (Normal v, mkStore s (<[(q, m, ttl) := (v, clock w')]> c) w',
          [Called_get_summary_cached_module q m (Ok v);
           Called_get_summary_cached_ui q m ttl (Ok v)])
     | Raise e =>
         (Raised e, mkStore s c w',
          [Called_get_summary_cached_module q m (Raise e);
           Called_get_summary_cached_ui q m ttl (Raise e)])
     end).
Proof.
  intros Hm.
  unfold get_summary_cached_ui, st_cache_data, get_summary_cached_ui_body, call_helper.
  cbn [session cache world].
  destruct (c !! (q, m, ttl)) as [[v stored]|] eqn:Hl.
  - replace (clock w <? stored + ui_ttl)%Z with false
      by (symmetry; apply Z.ltb_ge; exact (Hm _ _ eq_refl)).
    destruct (get_summary_cached_module q m w) as [[v'|e] w']; reflexivity.
  - destruct (get_summary_cached_module q m w) as [[v'|e] w']; reflexivity.
Qed.

Lemma nonempty_truthy (v : pystr) : v <> [] -> str_truthy v = true.
Proof. destruct v; [contradiction | reflexivity]. Qed.

Ltac in_find :=
  lazymatch goal with
  | |- _ \/ _ => first [left; in_find | right; in_find]
  | |- _ = _ => reflexivity
  end.

Ltac in_trace := rewrite !in_app_iff; cbn [In]; in_find.

(** C6: on a run that fetches at least one article, the summary displayed
    and saved into the history is the value [get_summary_cached_module]
    returns for the entered query and the selected article count, asked for
    through the caching wrapper [get_summary_cached_ui]: when the cache
    holds no entry of less than a day, the helper is called where the page
    has come to, and its value, if not empty, is displayed and saved; when
    the cache holds one, that value is.  Conversely, a summary the page
    displays is the value the wrapper returned in a run that fetched at
    least one article, it is the value saved, and it is a value the helper
    returned for that query and count, in this execution or in the one
    that filled the cache. *)
Theorem displayed_summary_is_helper_value i s c w past :
  cache_sound past c ->
  cache_sound (past ++ trace (run_app i s c w)) (cache_after (run_app i s c w))
  /\ (forall sm,
        In (Show SummaryBody sm) (trace (run_app i s c w)) ->
        (exists a l,
            In (Called_get_news_articles (query i) (max_articles i) (Ok (a :: l)))
               (trace (run_app i s c w)))
        /\ In (Called_get_summary_cached_ui (query i) (max_articles i) None (Ok sm))
              (trace (run_app i s c w))
        /\ In (Called_get_summary_cached_module (query i) (max_articles i) (Ok sm))
              (past ++ trace (run_app i s c w))
        /\ history (session_after (run_app i s c w))
           = Some ({| entry_query := query i; entry_summary := sm |} :: hist s))
  /\ (forall a l text v,
        clicked i = Some BtnRun ->
        strip (query i) <> [] ->
        fst (get_news_articles (query i) (max_articles i) w) = Ok (a :: l) ->
        (forall b, In b (take 30 (a :: l)) ->
                   exists card, pretty_article_card b = Ok card) ->
        concat_text (a :: l) = Ok text ->
        v <> [] ->
        (no_fresh_entry i c (world_at_summary i w text) ->
         fst (get_summary_cached_module (query i) (max_articles i)
                (world_at_summary i w text)) = Ok v ->
         In (Called_get_summary_cached_module (query i) (max_articles i) (Ok v))
            (trace (run_app i s c w))
         /\ In (Called_get_summary_cached_ui (query i) (max_articles i) None (Ok v))
               (trace (run_app i s c w))
         /\ In (Show SummaryBody v) (trace (run_app i s c w))
         /\ ending (run_app i s c w) = Normal tt
         /\ history (session_after (run_app i s c w))
            = Some ({| entry_query := query i; entry_summary := v |} :: hist s))
        /\ (forall stored,
              c !! (query i, max_articles i, @None Z) = Some (v, stored) ->
              (clock (world_at_summary i w text) < stored + 86400)%Z ->
              In (Called_get_summary_cached_ui (query i) (max_articles i) None (Ok v))
                 (trace (run_app i s c w))
              /\ In (Show SummaryBody v) (trace (run_app i s c w))
              /\ ending (run_app i s c w) = Normal tt
              /\ history (session_after (run_app i s c w))
                 = Some ({| entry_query := query i; entry_summary := v |} :: hist s)
              /\ cache_after (run_app i s c w) = c)).
Proof.
  intros Hsound.
  destruct (displayed_summary_traced i s c w past Hsound) as (H1 & H2).
  split; [exact H1 |]. split; [exact H2 |].
  intros a l text v Hc Hq Hf Hcards Hct Hv.
  destruct (run_click i s c w Hc)
    as (pre & run & post & fl & st2 & Er & _ & _ & _ & ->).
  destruct (run_flow_summary (query i) (max_articles i)
              (mkStore {| history := history s; query_input := Some (query i) |} c w)
              a l text (not_blank _ Hq) Hf (proj2 (no_failure _) Hcards) Hct)
    as (evs1 & Efw).
  rewrite Efw in Er. clear Efw. cbn [session cache world] in Er.
  fold (world_at_summary i w text) in Er.
  cbn [ending session_after cache_after trace].
  split.
  - intros Hmiss Hmod. rewrite (wrapper_miss _ _ _ _ _ _ Hmiss) in Er.
    destruct (get_summary_cached_module (query i) (max_articles i)
                (world_at_summary i w text)) as [r' w'].
    cbn [fst] in Hmod. subst r'. rewrite (nonempty_truthy _ Hv) in Er.
    injection Er as <- <- <-. cbn [session history].
    repeat apply conj; try reflexivity; in_trace.
  - intros stored Hl Hfresh.
    rewrite (cached_ui_fresh (query i) (max_articles i) None
               (mkStore {| history := history s; query_input := Some (query i) |} c
                        (world_at_summary i w text)) v stored Hl Hfresh) in Er.
    rewrite (nonempty_truthy _ Hv) in Er.
    injection Er as <- <- <-. cbn [session history cache].
    repeat apply conj; try reflexivity; in_trace.
Qed.

(** C8: when the article fetch raises, the error box with the exception's
    text is shown, the execution ends normally and the history is as it
    was; when the summarization raises (the articles fetched, their cards
    built, no cached summary of less than a day, and the module-level
    helper raising where the page has come to), the error box with the
    exception's text is shown, the execution ends normally, and the history
    and the cache are as they were.  And whenever the log holds a fetch or
    a summarization that raised, it holds the matching error box, and the
    history is as it was. *)
Theorem failed_run_leaves_history i s c w :
  (forall q m e,
      In (Called_get_news_articles q m (Raise e)) (trace (run_app i s c w)) ->
      In (Show ErrFetch (lit "Failed to fetch articles: " ++ exc_str e))
         (trace (run_app i s c w))
      /\ history (session_after (run_app i s c w)) = history s)
  /\ (forall q m ttl e,
        In (Called_get_summary_cached_ui q m ttl (Raise e)) (trace (run_app i s c w)) ->
        In (Show ErrSummary (lit "Error during summarization: " ++ exc_str e))
           (trace (run_app i s c w))
        /\ history (session_after (run_app i s c w)) = history s)
  /\ (clicked i = Some BtnRun ->
      strip (query i) <> [] ->
      forall e,
        fst (get_news_articles (query i) (max_articles i) w) = Raise e ->
        In (Called_get_news_articles (query i) (max_articles i) (Raise e))
           (trace (run_app i s c w))
        /\ In (Show ErrFetch (lit "Failed to fetch articles: " ++ exc_str e))
              (trace (run_app i s c w))
        /\ ending (run_app i s c w) = Normal tt
        /\ history (session_after (run_app i s c w)) = history s)
  /\ (clicked i = Some BtnRun ->
      strip (query i) <> [] ->
      forall a l text e,
        fst (get_news_articles (query i) (max_articles i) w) = Ok (a :: l) ->
        (forall b, In b (take 30 (a :: l)) ->
                   exists card, pretty_article_card b = Ok card) ->
        concat_text (a :: l) = Ok text ->
        no_fresh_entry i c (world_at_summary i w text) ->
        fst (get_summary_cached_module (query i) (max_articles i)
               (world_at_summary i w text)) = Raise e ->
        In (Called_get_summary_cached_ui (query i) (max_articles i) None (Raise e))
           (trace (run_app i s c w))
        /\ In (Show ErrSummary (lit "Error during summarization: " ++ exc_str e))
              (trace (run_app i s c w))
        /\ ending (run_app i s c w) = Normal tt
        /\ history (session_after (run_app i s c w)) = history s
        /\ cache_after (run_app i s c w) = c).
Proof.
  destruct (failed_call_reported i s c w) as (H1 & H2).
  split; [exact H1 |]. split; [exact H2 |]. split.
  - intros Hc Hq e Hf.
    destruct (run_click i s c w Hc)
      as (pre & run & post & fl & st2 & Er & _ & _ & _ & ->).
    rewrite (run_flow_fetch_raised (query i) (max_articles i)
               (mkStore {| history := history s; query_input := Some (query i) |} c w)
               e (not_blank _ Hq) Hf) in Er.
    injection Er as <- <- <-.
    cbn [ending session_after cache_after trace session history].
    repeat apply conj; try reflexivity; in_trace.
  - intros Hc Hq a l text e Hf Hcards Hct Hmiss Hmod.
    destruct (run_click i s c w Hc)
      as (pre & run & post & fl & st2 & Er & _ & _ & _ & ->).
    destruct (run_flow_summary (query i) (max_articles i)
                (mkStore {| history := history s; query_input := Some (query i) |} c w)
                a l text (not_blank _ Hq) Hf (proj2 (no_failure _) Hcards) Hct)
      as (evs1 & Efw).
    rewrite Efw in Er. clear Efw. cbn [session cache world] in Er.
    fold (world_at_summary i w text) in Er.
    rewrite (wrapper_miss _ _ _ _ _ _ Hmiss) in Er.
    destruct (get_summary_cached_module (query i) (max_articles i)
                (world_at_summary i w text)) as [r' w'].
    cbn [fst] in Hmod. subst r'.
    injection Er as <- <- <-.
    cbn [ending session_after cache_after trace session history cache].
    repeat apply conj; try reflexivity; in_trace.
Qed.

End Page.

Arguments ending {World} o.
Arguments session_after {World} o.
Arguments cache_after {World} o.
Arguments world_after {World} o.
Arguments trace {World} o.

(** ** The page on the sample world *)

Notation demo_run :=
  (run_app Z demo_clock demo_get_news_articles demo_get_summary_cached_module
     demo_estimate_tokens demo_clear_module_cache demo_py_str demo_iso_date true).

Ltac in_log := vm_compute; repeat first [ left; reflexivity | right ].

(** C1 on the sample world: asking for "acme" in a fresh session leaves a
    history of one record. *)
Lemma successful_run_prepends_record_witness :
  history (session_after (demo_run (ask (lit "acme")) fresh_session ∅ 0%Z))
  = Some ({| entry_query := query (ask (lit "acme"));
             entry_summary := lit "Summary of acme" |} :: hist fresh_session).
Proof.
  apply (successful_run_prepends_record Z demo_clock demo_get_news_articles
           demo_get_summary_cached_module demo_estimate_tokens
           demo_clear_module_cache demo_py_str demo_iso_date true
           (ask (lit "acme")) fresh_session ∅ 0%Z
           (lit "acme") 20%Z demo_article [] (lit "acme") 20%Z None
           (lit "Summary of acme")).
  - reflexivity.
  - discriminate.
  - in_log.
  - in_log.
  - discriminate.
Defined.

(** C5 on the sample world: an execution nobody clicked for. *)
Lemma no_run_no_fetch_no_summary_witness :
  Forall (fun e => is_fetch_call e = false
                   /\ is_summary_call e = false
                   /\ is_module_summary_call e = false)
         (trace (demo_run idle fresh_session ∅ 0%Z)).
Proof.
  apply (no_run_no_fetch_no_summary Z demo_clock demo_get_news_articles
           demo_get_summary_cached_module demo_estimate_tokens
           demo_clear_module_cache demo_py_str demo_iso_date true
           idle fresh_session ∅ 0%Z).
  discriminate.
Defined.

(** C9 on the sample world: a query made of a space, a tab and a
    no-break space. *)
Lemma blank_query_warns_only_witness :
  In (Show WarnEmptyQuery (lit "Please enter a non-empty query in the sidebar."))
     (trace (demo_run (ask [32; 9; 160]%N) ten_records ∅ 0%Z))
  /\ Forall (fun e => is_fetch_call e = false
                      /\ is_summary_call e = false
                      /\ is_module_summary_call e = false)
            (trace (demo_run (ask [32; 9; 160]%N) ten_records ∅ 0%Z))
  /\ history (session_after (demo_run (ask [32; 9; 160]%N) ten_records ∅ 0%Z))
     = history ten_records.
Proof.
  apply (blank_query_warns_only Z demo_clock demo_get_news_articles
           demo_get_summary_cached_module demo_estimate_tokens
           demo_clear_module_cache demo_py_str demo_iso_date true
           (ask [32; 9; 160]%N) ten_records ∅ 0%Z).
  - reflexivity.
  - repeat constructor.
Defined.

(** C6 on the sample world, from an empty cache: the helper's summary of
    "acme" is displayed, and saved on top of the ten records. *)
Lemma displayed_summary_is_helper_value_witness :
  In (Called_get_summary_cached_module (lit "acme") 20%Z (Ok (lit "Summary of acme")))
     (trace (demo_run (ask (lit "acme")) ten_records ∅ 0%Z))
  /\ In (Called_get_summary_cached_ui (lit "acme") 20%Z None (Ok (lit "Summary of acme")))
        (trace (demo_run (ask (lit "acme")) ten_records ∅ 0%Z))
  /\ In (Show SummaryBody (lit "Summary of acme"))
        (trace (demo_run (ask (lit "acme")) ten_records ∅ 0%Z))
  /\ ending (demo_run (ask (lit "acme")) ten_records ∅ 0%Z) = Normal tt
  /\ history (session_after (demo_run (ask (lit "acme")) ten_records ∅ 0%Z))
     = Some ({| entry_query := lit "acme"; entry_summary := lit "Summary of acme" |}
               :: hist ten_records).
Proof.
  assert (Hsound : cache_sound [] (∅ : gmap (pystr * Z * option Z) (pystr * Z))).
  { intros q m ttl v stored Hl. rewrite lookup_empty in Hl. discriminate Hl. }
  destruct (displayed_summary_is_helper_value Z demo_clock demo_get_news_articles
            demo_get_summary_cached_module demo_estimate_tokens
            demo_clear_module_cache demo_py_str demo_iso_date true
              (ask (lit "acme")) ten_records ∅ 0%Z [] Hsound) as (_ & _ & Hrun).
  destruct (Hrun demo_article []
              (lit "Acme beats estimates" ++ lit " " ++ mdash ++ lit " "
                 ++ lit "Quarterly results.")
              (lit "Summary of acme")) as (Hmiss & _).
  - reflexivity.
  - vm_compute. discriminate.
  - reflexivity.
  - intros b [<- | []]. eexists. vm_compute. reflexivity.
  - vm_compute. reflexivity.
  - discriminate.
  - apply Hmiss.
    + intros v stored Hl. rewrite lookup_empty in Hl. discriminate Hl.
    + reflexivity.
Defined.

(** C8 on the sample world: the query "down", for which the fetch times
    out, and the query "hard", which the service refuses to summarize. *)
Lemma failed_run_leaves_history_witness :
  (In (Called_get_news_articles (lit "down") 20%Z (Raise (Exception (lit "timeout"))))
      (trace (demo_run (ask (lit "down")) ten_records ∅ 0%Z))
   /\ In (Show ErrFetch
            (lit "Failed to fetch articles: " ++ exc_str (Exception (lit "timeout"))))
         (trace (demo_run (ask (lit "down")) ten_records ∅ 0%Z))
   /\ ending (demo_run (ask (lit "down")) ten_records ∅ 0%Z) = Normal tt
   /\ history (session_after (demo_run (ask (lit "down")) ten_records ∅ 0%Z))
      = history ten_records)
  /\ (In (Called_get_summary_cached_ui (lit "hard") 20%Z None
            (Raise (Exception (lit "rate limit"))))
         (trace (demo_run (ask (lit "hard")) ten_records ∅ 0%Z))
      /\ In (Show ErrSummary
               (lit "Error during summarization: "
                  ++ exc_str (Exception (lit "rate limit"))))
            (trace (demo_run (ask (lit "hard")) ten_records ∅ 0%Z))
      /\ ending (demo_run (ask (lit "hard")) ten_records ∅ 0%Z) = Normal tt
      /\ history (session_after (demo_run (ask (lit "hard")) ten_records ∅ 0%Z))
         = history ten_records
      /\ cache_after (demo_run (ask (lit "hard")) ten_records ∅ 0%Z) = ∅).
Proof.
  split.
  - destruct (failed_run_leaves_history Z demo_clock demo_get_news_articles
            demo_get_summary_cached_module demo_estimate_tokens
            demo_clear_module_cache demo_py_str demo_iso_date true
                (ask (lit "down")) ten_records ∅ 0%Z) as (_ & _ & Hfetch & _).
    apply Hfetch.
    + reflexivity.
    + vm_compute. discriminate.
    + reflexivity.
  - destruct (failed_run_leaves_history Z demo_clock demo_get_news_articles
            demo_get_summary_cached_module demo_estimate_tokens
            demo_clear_module_cache demo_py_str demo_iso_date true
                (ask (lit "hard")) ten_records ∅ 0%Z) as (_ & _ & _ & Hsum).
    apply (Hsum eq_refl ltac:(vm_compute; discriminate) demo_article []
             (lit "Acme beats estimates" ++ lit " " ++ mdash ++ lit " "
                ++ lit "Quarterly results.")).
    + reflexivity.
    + intros b [<- | []]. eexists. vm_compute. reflexivity.
    + vm_compute. reflexivity.
    + intros v stored Hl. rewrite lookup_empty in Hl. discriminate Hl.
    + reflexivity.
Defined.

(** C4 as stated fails: on the sample world the Run button and the "Clear
    module & streamlit caches" button both have a handler, so no button is
    the only one that has. *)
Lemma not_exactly_one_button_handler :
  ~ (exists b,
        forall b',
          handled Z demo_clock demo_get_news_articles demo_get_summary_cached_module
            demo_estimate_tokens demo_clear_module_cache demo_py_str demo_iso_date
            true b'
          <-> b' = b).
Proof.
  intros (b & Hb).
  assert (H1 : BtnRun = b)
    by (apply Hb, (handled_run Z demo_clock demo_get_news_articles
                     demo_get_summary_cached_module demo_estimate_tokens
                     demo_clear_module_cache demo_py_str demo_iso_date true 0%Z)).
  assert (H2 : BtnClearAll = b)
    by (apply Hb, (handled_clear_all Z demo_clock demo_get_news_articles
                     demo_get_summary_cached_module demo_estimate_tokens
                     demo_clear_module_cache demo_py_str demo_iso_date true 0%Z)).
  congruence.
Qed.

(** *** Runs of the sample world *)

Example demo_success_saves :
  hist (session_after (demo_run (ask (lit "acme")) ten_records ∅ 0%Z))
  = {| entry_query := lit "acme"; entry_summary := lit "Summary of acme" |}
      :: hist ten_records.
Proof. vm_compute. reflexivity. Qed.

Example demo_success_calls :
  List.filter significant (trace (demo_run (ask (lit "acme")) fresh_session ∅ 0%Z))
  = [Called_get_news_articles (lit "acme") 20 (Ok [demo_article]);
     Called_get_summary_cached_module (lit "acme") 20 (Ok (lit "Summary of acme"));
     Called_get_summary_cached_ui (lit "acme") 20 None (Ok (lit "Summary of acme"));
     Show SummaryBody (lit "Summary of acme")].
Proof. vm_compute. reflexivity. Qed.

Example demo_cached_summary_within_a_day :
  List.filter significant
    (trace (demo_run (ask (lit "acme")) fresh_session
              {[ (lit "acme", 20%Z, None) := (lit "Earlier summary", 0%Z) ]} 86399%Z))
  = [Called_get_news_articles (lit "acme") 20 (Ok [demo_article]);
     Called_get_summary_cached_ui (lit "acme") 20 None (Ok (lit "Earlier summary"));
     Show SummaryBody (lit "Earlier summary")].
Proof. vm_compute. reflexivity. Qed.

Example demo_cached_summary_after_a_day :
  List.filter significant
    (trace (demo_run (ask (lit "acme")) fresh_session
              {[ (lit "acme", 20%Z, None) := (lit "Earlier summary", 0%Z) ]} 86400%Z))
  = [Called_get_news_articles (lit "acme") 20 (Ok [demo_article]);
     Called_get_summary_cached_module (lit "acme") 20 (Ok (lit "Summary of acme"));
     Called_get_summary_cached_ui (lit "acme") 20 None (Ok (lit "Summary of acme"));
     Show SummaryBody (lit "Summary of acme")].
Proof. vm_compute. reflexivity. Qed.

Example demo_fetch_down :
  List.filter significant (trace (demo_run (ask (lit "down")) ten_records ∅ 0%Z))
  = [Called_get_news_articles (lit "down") 20 (Raise (Exception (lit "timeout")));
     Show ErrFetch (lit "Failed to fetch articles: timeout")]
  /\ session_after (demo_run (ask (lit "down")) ten_records ∅ 0%Z)
     = {| history := history ten_records; query_input := Some (lit "down") |}.
Proof. vm_compute. split; reflexivity. Qed.

Example demo_summary_refused :
  List.filter significant (trace (demo_run (ask (lit "hard")) ten_records ∅ 0%Z))
  = [Called_get_news_articles (lit "hard") 20 (Ok [demo_article]);
     Called_get_summary_cached_module (lit "hard") 20
       (Raise (Exception (lit "rate limit")));
     Called_get_summary_cached_ui (lit "hard") 20 None
       (Raise (Exception (lit "rate limit")));
     Show ErrSummary (lit "Error during summarization: rate limit")]
  /\ hist (session_after (demo_run (ask (lit "hard")) ten_records ∅ 0%Z))
     = hist ten_records.
Proof. vm_compute. split; reflexivity. Qed.

Example demo_card :
  pretty_article_card demo_py_str demo_iso_date demo_article
  = Ok (lit "**[Acme beats estimates](https://example.org/a)**  " ++ newline
        ++ lit "*Wire " ++ mdash ++ lit " 2024-05-01*  " ++ newline
        ++ lit "Quarterly results.").
Proof. vm_compute. reflexivity. Qed.

Example demo_load_click :
  ending (demo_run (with_clicked (Some (BtnLoad 3)) idle) ten_records ∅ 0%Z) = Rerun
  /\ query_input (session_after
                    (demo_run (with_clicked (Some (BtnLoad 3)) idle) ten_records ∅ 0%Z))
     = Some (lit "q")
  /\ length (load_buttons
               (trace (demo_run (with_clicked (Some (BtnLoad 3)) idle)
                         ten_records ∅ 0%Z))) = 4%nat.
Proof. vm_compute. repeat split; reflexivity. Qed.

Example demo_twelve_records_show_ten :
  length (load_buttons
            (trace (demo_run idle
                      {| history := Some (repeat {| entry_query := lit "q";
                                                    entry_summary := lit "s" |} 12);
                         query_input := None |} ∅ 0%Z))) = 10%nat.
Proof. vm_compute. reflexivity. Qed.

(** ** The further properties on the sample world *)

Notation odd_run :=
  (run_app Z demo_clock odd_get_news_articles demo_get_summary_cached_module
     demo_estimate_tokens demo_clear_module_cache demo_py_str demo_iso_date true).

Notation demo_first_call :=
  (get_summary_cached_ui Z demo_clock demo_get_summary_cached_module
     (lit "acme") 20%Z None (mkStore Z fresh_session ∅ 0%Z)).

Notation demo_refused_call :=
  (get_summary_cached_ui Z demo_clock demo_get_summary_cached_module
     (lit "hard") 20%Z None (mkStore Z ten_records ∅ 0%Z)).


(** X4 on the sample world: the summary of "hard", which the service
    refuses. *)
Lemma cached_wrapper_frame_witness :
  session Z (snd (fst demo_refused_call)) = session Z (mkStore Z ten_records ∅ 0%Z)
  /\ (forall k,
        k <> (lit "hard", 20%Z, None) ->
        cache Z (snd (fst demo_refused_call)) !! k
        = cache Z (mkStore Z ten_records ∅ 0%Z) !! k)
  /\ (forall e,
        fst (fst demo_refused_call) = Raised e ->
        cache Z (snd (fst demo_refused_call)) = cache Z (mkStore Z ten_records ∅ 0%Z)
        /\ snd demo_refused_call
           = [Called_get_summary_cached_module (lit "hard") 20%Z (Raise e);
              Called_get_summary_cached_ui (lit "hard") 20%Z None (Raise e)])
  /\ fst (fst demo_refused_call) <> Rerun.
Proof.
  apply (cached_wrapper_frame Z demo_clock demo_get_summary_cached_module
           (lit "hard") 20%Z None (mkStore Z ten_records ∅ 0%Z)
           (fst (fst demo_refused_call)) (snd (fst demo_refused_call))
           (snd demo_refused_call)).
  vm_compute. reflexivity.
Defined.

(** X6 on the sample world: a session of ten records, nothing clicked. *)
Lemma rerender_without_click_is_read_only_witness :
  ending (demo_run idle ten_records ∅ 0%Z) = Normal tt
  /\ session_after (demo_run idle ten_records ∅ 0%Z)
     = {| history := history ten_records; query_input := Some (query idle) |}
  /\ cache_after (demo_run idle ten_records ∅ 0%Z) = ∅
  /\ world_after (demo_run idle ten_records ∅ 0%Z) = 0%Z
  /\ Forall (fun e => is_element e = true) (trace (demo_run idle ten_records ∅ 0%Z)).
Proof.
  apply (rerender_without_click_is_read_only Z demo_clock demo_get_news_articles demo_get_summary_cached_module
           demo_estimate_tokens demo_clear_module_cache demo_py_str demo_iso_date true
           idle ten_records ∅ 0%Z).
  reflexivity.
Defined.

(** X7 on the sample world, where [clear_module_cache] returns. *)
Lemma clear_all_click_empties_caches_witness :
  cache_after (demo_run (press BtnClearAll) ten_records ∅ 0%Z) = ∅
  /\ world_after (demo_run (press BtnClearAll) ten_records ∅ 0%Z)
     = snd (demo_clear_module_cache 0%Z)
  /\ session_after (demo_run (press BtnClearAll) ten_records ∅ 0%Z)
     = {| history := history ten_records;
          query_input := Some (query (press BtnClearAll)) |}
  /\ In CacheDataCleared (trace (demo_run (press BtnClearAll) ten_records ∅ 0%Z))
  /\ In (Called_clear_module_cache (fst (demo_clear_module_cache 0%Z)))
        (trace (demo_run (press BtnClearAll) ten_records ∅ 0%Z))
  /\ ending (demo_run (press BtnClearAll) ten_records ∅ 0%Z) = Normal tt
  /\ In (Show SbCleared (lit "Cleared caches."))
        (trace (demo_run (press BtnClearAll) ten_records ∅ 0%Z)).
Proof.
  exact (clear_all_click_empties_caches Z demo_clock demo_get_news_articles demo_get_summary_cached_module
           demo_estimate_tokens demo_clear_module_cache demo_py_str demo_iso_date true
           (press BtnClearAll) ten_records ∅ 0%Z eq_refl).
Defined.

(** X8 on the sample world. *)
Lemma clear_streamlit_click_spares_module_cache_witness :
  ending (demo_run (press BtnClearStreamlit) ten_records ∅ 0%Z) = Normal tt
  /\ cache_after (demo_run (press BtnClearStreamlit) ten_records ∅ 0%Z) = ∅
  /\ world_after (demo_run (press BtnClearStreamlit) ten_records ∅ 0%Z) = 0%Z
  /\ session_after (demo_run (press BtnClearStreamlit) ten_records ∅ 0%Z)
     = {| history := history ten_records;
          query_input := Some (query (press BtnClearStreamlit)) |}
  /\ In CacheDataCleared
        (trace (demo_run (press BtnClearStreamlit) ten_records ∅ 0%Z))
  /\ In (Show DevCleared (lit "Cleared Streamlit cache."))
        (trace (demo_run (press BtnClearStreamlit) ten_records ∅ 0%Z))
  /\ forall r,
       ~ In (Called_clear_module_cache r)
            (trace (demo_run (press BtnClearStreamlit) ten_records ∅ 0%Z)).
Proof.
  apply (clear_streamlit_click_spares_module_cache Z demo_clock demo_get_news_articles demo_get_summary_cached_module
           demo_estimate_tokens demo_clear_module_cache demo_py_str demo_iso_date true
           (press BtnClearStreamlit) ten_records ∅ 0%Z).
  reflexivity.
Defined.

(** X9 on the sample world, where the widget's key may be assigned: the
    fourth of ten records is loaded. *)
Lemma load_click_fills_query_witness :
  history (session_after (demo_run (press (BtnLoad 3)) ten_records ∅ 0%Z))
  = history ten_records
  /\ cache_after (demo_run (press (BtnLoad 3)) ten_records ∅ 0%Z) = ∅
  /\ world_after (demo_run (press (BtnLoad 3)) ten_records ∅ 0%Z) = 0%Z
  /\ load_buttons (trace (demo_run (press (BtnLoad 3)) ten_records ∅ 0%Z))
     = load_entries (take 4 (take 10 (hist ten_records)))
  /\ (forall x,
        ~ In (Show DevExpander x)
             (trace (demo_run (press (BtnLoad 3)) ten_records ∅ 0%Z)))
  /\ (forall x,
        ~ In (Show FooterNotes x)
             (trace (demo_run (press (BtnLoad 3)) ten_records ∅ 0%Z)))
  /\ (forall l s',
        ~ In (ShowState l s')
             (trace (demo_run (press (BtnLoad 3)) ten_records ∅ 0%Z)))
  /\ ending (demo_run (press (BtnLoad 3)) ten_records ∅ 0%Z) = Rerun
  /\ query_input (session_after (demo_run (press (BtnLoad 3)) ten_records ∅ 0%Z))
     = Some (lit "q")
  /\ In RerunRequested (trace (demo_run (press (BtnLoad 3)) ten_records ∅ 0%Z)).
Proof.
  exact (load_click_fills_query Z demo_clock demo_get_news_articles demo_get_summary_cached_module
           demo_estimate_tokens demo_clear_module_cache demo_py_str demo_iso_date true
           (press (BtnLoad 3)) ten_records ∅ 0%Z 3%nat
           {| entry_query := lit "q"; entry_summary := lit "s" |}
           eq_refl eq_refl).
Defined.


(** X11 on the sample world with the odd feed. *)
Lemma run_click_crashes_iff_witness :
  ending (odd_run (ask (lit "acme")) fresh_session ∅ 0%Z)
  = Raised (AttributeError (lit "'str' object has no attribute 'get'"))
  <-> (strip (query (ask (lit "acme"))) <> []
       /\ exists a l,
            fst (odd_get_news_articles (query (ask (lit "acme")))
                   (max_articles (ask (lit "acme"))) 0%Z) = Ok (a :: l)
            /\ ((exists k b,
                    (k < 30)%nat /\ (a :: l) !! k = Some b
                    /\ pretty_article_card demo_py_str demo_iso_date b
                       = Raise (AttributeError
                                  (lit "'str' object has no attribute 'get'"))
                    /\ forall j b', (j < k)%nat -> (a :: l) !! j = Some b' ->
                         exists card,
                           pretty_article_card demo_py_str demo_iso_date b' = Ok card)
                \/ ((forall b, In b (take 30 (a :: l)) ->
                       exists card,
                         pretty_article_card demo_py_str demo_iso_date b = Ok card)
                    /\ concat_text (a :: l)
                       = Raise (AttributeError
                                  (lit "'str' object has no attribute 'get'"))))).
Proof.
  apply (run_click_crashes_iff Z demo_clock odd_get_news_articles demo_get_summary_cached_module
           demo_estimate_tokens demo_clear_module_cache demo_py_str demo_iso_date true
           (ask (lit "acme")) fresh_session ∅ 0%Z
           (AttributeError (lit "'str' object has no attribute 'get'"))).
  reflexivity.
Defined.

(** X12 on the sample world with the odd feed: the card of the second
    article cannot be built. *)
Lemma run_crash_cuts_page_short_witness :
  session_after (odd_run (ask (lit "acme")) ten_records ∅ 0%Z)
  = {| history := history ten_records;
       query_input := Some (query (ask (lit "acme"))) |}
  /\ cache_after (odd_run (ask (lit "acme")) ten_records ∅ 0%Z) = ∅
  /\ (forall text r,
        ~ In (Called_estimate_tokens text r)
             (trace (odd_run (ask (lit "acme")) ten_records ∅ 0%Z)))
  /\ (forall q m ttl r,
        ~ In (Called_get_summary_cached_ui q m ttl r)
             (trace (odd_run (ask (lit "acme")) ten_records ∅ 0%Z)))
  /\ load_buttons (trace (odd_run (ask (lit "acme")) ten_records ∅ 0%Z)) = []
  /\ (forall x,
        ~ In (Show DevExpander x)
             (trace (odd_run (ask (lit "acme")) ten_records ∅ 0%Z)))
  /\ (forall x,
        ~ In (Show FooterNotes x)
             (trace (odd_run (ask (lit "acme")) ten_records ∅ 0%Z))).
Proof.
  apply (run_crash_cuts_page_short Z demo_clock odd_get_news_articles demo_get_summary_cached_module
           demo_estimate_tokens demo_clear_module_cache demo_py_str demo_iso_date true
           (ask (lit "acme")) ten_records ∅ 0%Z
           (AttributeError (lit "'str' object has no attribute 'get'"))).
  - reflexivity.
  - vm_compute. reflexivity.
Defined.

(** X14 on the sample world: the query "down", for which the fetch times
    out. *)
Lemma fetch_without_articles_ends_quietly_witness :
  ending (demo_run (ask (lit "down")) ten_records ∅ 0%Z) = Normal tt
  /\ In (Show InfoNoArticles
           (lit "No articles found for this query " ++ mdash
              ++ lit " try changing the query or increasing 'Max articles'."))
        (trace (demo_run (ask (lit "down")) ten_records ∅ 0%Z))
  /\ (forall text r',
        ~ In (Called_estimate_tokens text r')
             (trace (demo_run (ask (lit "down")) ten_records ∅ 0%Z)))
  /\ (forall q2 m2 ttl r',
        ~ In (Called_get_summary_cached_ui q2 m2 ttl r')
             (trace (demo_run (ask (lit "down")) ten_records ∅ 0%Z)))
  /\ (forall e,
        @Raise (list Article) (Exception (lit "timeout")) = Raise e ->
        In (Show ErrFetch (lit "Failed to fetch articles: " ++ exc_str e))
           (trace (demo_run (ask (lit "down")) ten_records ∅ 0%Z))
        /\ In (Logged (lit "NewsAPI fetch failed"))
              (trace (demo_run (ask (lit "down")) ten_records ∅ 0%Z))).
Proof.
  apply (fetch_without_articles_ends_quietly Z demo_clock demo_get_news_articles demo_get_summary_cached_module
           demo_estimate_tokens demo_clear_module_cache demo_py_str demo_iso_date true
           (ask (lit "down")) ten_records ∅ 0%Z (lit "down") 20%Z
           (Raise (Exception (lit "timeout")))).
  - in_log.
  - intros a l. discriminate.
Defined.

(** X15 on the sample world: the query "hard", which the service refuses. *)
Lemma summarization_failure_reported_witness :
  ending (demo_run (ask (lit "hard")) ten_records ∅ 0%Z) = Normal tt
  /\ In (Show ErrSummary
           (lit "Error during summarization: "
              ++ exc_str (Exception (lit "rate limit"))))
        (trace (demo_run (ask (lit "hard")) ten_records ∅ 0%Z))
  /\ In (Logged (lit "Summarization error"))
        (trace (demo_run (ask (lit "hard")) ten_records ∅ 0%Z))
  /\ (forall v,
        ~ In (Show SummaryBody v)
             (trace (demo_run (ask (lit "hard")) ten_records ∅ 0%Z)))
  /\ history (session_after (demo_run (ask (lit "hard")) ten_records ∅ 0%Z))
     = history ten_records
  /\ cache_after (demo_run (ask (lit "hard")) ten_records ∅ 0%Z) = ∅.
Proof.
  apply (summarization_failure_reported Z demo_clock demo_get_news_articles demo_get_summary_cached_module
           demo_estimate_tokens demo_clear_module_cache demo_py_str demo_iso_date true
           (ask (lit "hard")) ten_records ∅ 0%Z (lit "hard") 20%Z None
           (Exception (lit "rate limit"))).
  in_log.
Defined.

(** X16 on the sample world: the one article of "acme". *)
Lemma fetched_articles_counted_and_carded_witness :
  In (Show FoundCount
        (lit "Found **" ++ str_of_nat (length [demo_article])
           ++ lit "** articles for **" ++ query (ask (lit "acme")) ++ lit "**"))
     (trace (demo_run (ask (lit "acme")) fresh_session ∅ 0%Z))
  /\ ((forall b, In b (take 30 [demo_article]) ->
         exists card, pretty_article_card demo_py_str demo_iso_date b = Ok card) ->
      map Ok (card_texts (trace (demo_run (ask (lit "acme")) fresh_session ∅ 0%Z)))
      = map (pretty_article_card demo_py_str demo_iso_date) (take 30 [demo_article])).
Proof.
  apply (fetched_articles_counted_and_carded Z demo_clock demo_get_news_articles demo_get_summary_cached_module
           demo_estimate_tokens demo_clear_module_cache demo_py_str demo_iso_date true
           (ask (lit "acme")) fresh_session ∅ 0%Z demo_article []).
  - reflexivity.
  - vm_compute. discriminate.
  - reflexivity.
Defined.
